(** * proxy-scraper: a shallow embedding of proxyChecker.py and proxyScraper.py

    Python values are modelled as follows.
    - A [str] is a [string]: a sequence of code points below 256.  On that
      range the character classes of the interpreter are finite and written
      out: [\d] is ['0'..'9'], [str.strip] removes the Latin-1 white space,
      [str.lower] maps ['A'..'Z'] and the accented capitals to lower case.
    - A raised exception is a value of [exn]; a call that may raise returns a
      [result].  Code that also mutates interpreter state runs in the monad
      [M], whose state survives a raise (as Python's does).
    - [time()] readings are integers (clock ticks); floating-point rounding of
      the subtraction is not modelled.
    - A text file is its content, a [string]; reading splits it into lines
      with universal newlines.  A path holds a text or does not exist; a
      file that is there can be read and written.
    - The network, the random generator and the thread scheduler are oracles:
      the network is a field of the environment, the coming random draws a
      field of the state, the schedule an argument of the run.
    - The library calls keep the behaviour their documentation gives them:
      [urllib.request.urlopen] raises [HTTPError] for a final status outside
      200..299 and reads the installed opener when it is called; its
      [ProxyHandler] steps aside for a host under [proxy_bypass]; a
      [socksocket] takes the default proxy when it is created;
      [asyncio.gather] without [return_exceptions] raises the first failure.
      One call of [urlopen] is one exchange with the network oracle, which
      stands for the whole call (redirects included); what is recorded of
      it is the request it was given and the route of its first hop.
    - The threads of [check_proxies] interleave at their accesses to shared
      state; each step also appends to a trace, which the program itself
      does not keep and the theorems are stated on. *)

From Stdlib Require Import String Ascii List ZArith Bool Arith Lia Permutation.
From Stdlib Require Import DecimalString.
Import ListNotations.

Set Implicit Arguments.

Local Open Scope string_scope.
Local Open Scope list_scope.

(** ** Exceptions and fallible results *)

Inductive exn : Type :=
| NotImplementedError (msg : string)
| ValueError (msg : string)
| TypeError (msg : string)
| IndexError (msg : string)
| KeyError (key : string)
| FileNotFoundError (path : string)
| HTTPError (code : Z)            (* urllib.error.HTTPError *)
| URLError (reason : string)      (* urllib.error.URLError: DNS failure, unreachable *)
| ConnectionRefusedError
| SocketTimeout                   (* socket.timeout / TimeoutError *)
| ProxyError (msg : string)       (* socks.ProxyError: handshake failure *)
| ConnectError (msg : string).    (* httpx.ConnectError and the like *)

Inductive result (A : Type) : Type :=
| Ok (a : A)
| Raise (e : exn).

Arguments Ok {A} a.
Arguments Raise {A} e.

(** ** The string methods the two scripts call *)

Module Py.

Definition code (c : ascii) : N := N_of_ascii c.

(** [\d], and the decimal digits [int] reads, on code points below 256. *)
Definition isdigit (c : ascii) : bool :=
  (48 <=? code c)%N && (code c <=? 57)%N.

(** [str.isspace] on code points below 256: TAB..CR, FS..US, space, NEL, NBSP. *)
Definition isspace (c : ascii) : bool :=
  let n := code c in
  ((9 <=? n) && (n <=? 13) || (28 <=? n) && (n <=? 32) || (n =? 133) || (n =? 160))%N.

(** [str.lower] on one code point below 256: A-Z and the capitals of the
    Latin-1 supplement (all but the multiplication sign) move up by 32. *)
Definition lower_char (c : ascii) : ascii :=
  let n := code c in
  if ((65 <=? n) && (n <=? 90) || (192 <=? n) && (n <=? 222) && negb (n =? 215))%N
  then ascii_of_N (n + 32) else c.

Fixpoint lower (s : string) : string :=
  match s with
  | EmptyString => EmptyString
  | String c s' => String (lower_char c) (lower s')
  end.

Fixpoint lstrip (s : string) : string :=
  match s with
  | String c s' => if isspace c then lstrip s' else s
  | EmptyString => EmptyString
  end.

Fixpoint rstrip (s : string) : string :=
  match s with
  | EmptyString => EmptyString
  | String c s' =>
      match rstrip s' with
      | EmptyString => if isspace c then EmptyString else String c EmptyString
      | t => String c t
      end
  end.

(** [s.strip()] *)
Definition strip (s : string) : string := rstrip (lstrip s).

(** [s.split(sep)] for a one-character separator: always at least one field. *)
Fixpoint split (sep : ascii) (s : string) : list string :=
  match s with
  | EmptyString => [EmptyString]
  | String c s' =>
      if Ascii.eqb c sep then EmptyString :: split sep s'
      else match split sep s' with
           | f :: fs => String c f :: fs
           | [] => [String c EmptyString]
           end
  end.

(** [x in [..]] on a list of strings. *)
Definition mem (x : string) (l : list string) : bool :=
  existsb (String.eqb x) l.

(** [a, b = seq]: unpacking into two names. *)
Definition unpack2 (l : list string) : result (string * string) :=
  match l with
  | [a; b] => Ok (a, b)
  | [] => Raise (ValueError "not enough values to unpack (expected 2, got 0)")
  | [_] => Raise (ValueError "not enough values to unpack (expected 2, got 1)")
  | _ => Raise (ValueError "too many values to unpack (expected 2)")
  end.

Fixpoint digits_value (acc : Z) (s : string) : option Z :=
  match s with
  | EmptyString => Some acc
  | String c s' =>
      if isdigit c then digits_value (10 * acc + Z.of_N (code c - 48)) s'
      else if Ascii.eqb c "_" then
        match s' with
        | String d _ => if isdigit d then digits_value acc s' else None
        | EmptyString => None
        end
      else None
  end.

(** The white space [int] skips around a literal: TAB..CR and the space, and
    the two Latin-1 spaces NEL and NBSP, which it first turns into spaces.
    The separators FS..US, which [str.strip] removes, are not among them. *)
Definition int_space (c : ascii) : bool :=
  let n := code c in
  ((9 <=? n) && (n <=? 13) || (n =? 32) || (n =? 133) || (n =? 160))%N.

Fixpoint int_lstrip (s : string) : string :=
  match s with
  | String c s' => if int_space c then int_lstrip s' else s
  | EmptyString => EmptyString
  end.

Fixpoint int_rstrip (s : string) : string :=
  match s with
  | EmptyString => EmptyString
  | String c s' =>
      match int_rstrip s' with
      | EmptyString => if int_space c then EmptyString else String c EmptyString
      | t => String c t
      end
  end.

(** [int(s)]: surrounding white space, an optional sign, then decimal digits
    that single underscores may separate.  The message of the [ValueError]
    is Python's up to the colon; the repr of the literal, which Python
    appends, is left out. *)
Definition int (s : string) : result Z :=
  let bad := Raise (ValueError "invalid literal for int() with base 10") in
  let body (t : string) : option Z :=
    match t with
    | String d _ => if isdigit d then digits_value 0 t else None
    | EmptyString => None
    end in
  match int_rstrip (int_lstrip s) with
  | String "-" t => match body t with Some z => Ok (- z)%Z | None => bad end
  | String "+" t => match body t with Some z => Ok z | None => bad end
  | t => match body t with Some z => Ok z | None => bad end
  end.

End Py.

(** ** The fragment of [re] the two patterns use *)

Module Re.

Inductive regex : Type :=
| Bol                                  (* ^ *)
| Eol                                  (* $ *)
| Digit                                (* \d *)
| Lit (c : ascii)                      (* an escaped or plain literal *)
| Seq (r1 r2 : regex)
| Rep (r : regex) (lo hi : nat).       (* r{lo,hi}; r{n} is [Rep r n n] *)

(** [$] without MULTILINE: at the end of the string, or just before a newline
    that is the last character. *)
Definition at_eol (s : string) : bool :=
  match s with
  | EmptyString => true
  | String c EmptyString => Ascii.eqb c "010"
  | _ => false
  end.

Section Matcher.
Variable A : Type.

(** A bounded repetition [{lo,hi}] of [step], greedy: one more round is
    tried before the repetition is left. *)
Fixpoint rep (step : nat -> string -> (nat -> string -> option A) -> option A)
         (k : nat -> string -> option A)
         (lo hi : nat) (pos : nat) (s : string) {struct hi} : option A :=
  let leave := if Nat.eqb lo 0 then k pos s else None in
  match hi with
  | O => leave
  | S hi' =>
      match step pos s (rep step k (Nat.pred lo) hi') with
      | Some a => Some a
      | None => leave
      end
  end.

(** The backtracking matcher in continuation-passing style: [pos] is the
    offset of [s] in the subject, [k] the rest of the pattern. *)
Fixpoint run (r : regex) (pos : nat) (s : string)
         (k : nat -> string -> option A) {struct r} : option A :=
  match r with
  | Bol => if Nat.eqb pos 0 then k pos s else None
  | Eol => if at_eol s then k pos s else None
  | Digit =>
      match s with
      | String c s' => if Py.isdigit c then k (S pos) s' else None
      | EmptyString => None
      end
  | Lit a =>
      match s with
      | String c s' => if Ascii.eqb c a then k (S pos) s' else None
      | EmptyString => None
      end
  | Seq r1 r2 => run r1 pos s (fun pos' s' => run r2 pos' s' k)
  | Rep r0 lo hi => rep (run r0) k lo hi pos s
  end.
End Matcher.

(** [re.match(r, s)]: a match anchored at offset 0; the value is the end
    offset of the match, [None] when there is none. *)
Definition match_ (r : regex) (s : string) : option nat :=
  run r 0 s (fun pos _ => Some pos).

Fixpoint drop (n : nat) (s : string) : string :=
  match n, s with
  | O, _ => s
  | S n', String _ s' => drop n' s'
  | S _, EmptyString => EmptyString
  end.

(** [re.findall(r, s)] for a pattern without groups: the leftmost matches,
    left to right, not overlapping; after an empty match the scan moves on
    by one character. *)
Fixpoint findall_from (fuel : nat) (r : regex) (pos : nat) (s : string) : list string :=
  match fuel with
  | O => []
  | S fuel' =>
      match run r pos s (fun e _ => Some e) with
      | Some e =>
          let len := e - pos in
          substring 0 len s ::
            match s with
            | EmptyString => []
            | String _ s' =>
                if Nat.eqb len 0 then findall_from fuel' r (S pos) s'
                else findall_from fuel' r e (drop len s)
            end
      | None =>
          match s with
          | EmptyString => []
          | String _ s' => findall_from fuel' r (S pos) s'
          end
      end
  end.

Definition findall (r : regex) (s : string) : list string :=
  findall_from (S (String.length s)) r 0 s.

(** What a pattern denotes: [lang r pos s1 s2] says that [r] can consume
    [s1] at offset [pos] when [s2] is what follows in the subject. *)
Fixpoint iter_lang (L : nat -> string -> string -> Prop) (n pos : nat)
         (s1 s2 : string) : Prop :=
  match n with
  | O => s1 = EmptyString
  | S n' =>
      exists a b, s1 = (a ++ b)%string /\ L pos a (b ++ s2)%string /\
                  iter_lang L n' (pos + String.length a) b s2
  end.

Fixpoint lang (r : regex) (pos : nat) (s1 s2 : string) : Prop :=
  match r with
  | Bol => s1 = EmptyString /\ pos = 0
  | Eol => s1 = EmptyString /\ at_eol s2 = true
  | Digit => exists c, s1 = String c EmptyString /\ Py.isdigit c = true
  | Lit a => s1 = String a EmptyString
  | Seq r1 r2 =>
      exists a b, s1 = (a ++ b)%string /\ lang r1 pos a (b ++ s2)%string /\
                  lang r2 (pos + String.length a) b s2
  | Rep r0 lo hi => exists n, lo <= n <= hi /\ iter_lang (lang r0) n pos s1 s2
  end.

(** [\d{1,3}(?:\.\d{1,3}){3}:\d{1,5}], the body shared by both scripts. *)
Definition address_body : regex :=
  Seq (Rep Digit 1 3)
      (Seq (Rep (Seq (Lit ".") (Rep Digit 1 3)) 3 3)
           (Seq (Lit ":") (Rep Digit 1 5))).

End Re.

(** ** The interpreter state the two scripts touch *)

Definition LF : ascii := "010"%char.
Definition CR : ascii := "013"%char.
Definition newline : string := String LF EmptyString.

Inductive socks_type : Type := SOCKS4 | SOCKS5.

(** [socket.socket]: the class the standard library instantiates for every
    new connection. *)
Inductive socket_class : Type := plain_socket | socksocket.

(** How one connection reaches its target: through a SOCKS tunnel (when the
    socket is a [socksocket] created while a default proxy was set) and/or
    through a forward proxy (when the opener has a [ProxyHandler] entry for
    the scheme of the URL). *)
Record route : Type := {
  tunnel : option (socks_type * string * Z);
  forward : option string
}.

Record request : Type := {
  full_url : string;
  user_agent_header : option string;     (* [None]: the library's default *)
  request_timeout : Z
}.

(** What the network does with one request: a final response with its status,
    or an error raised by the transport. *)
Inductive exchange : Type :=
| Response (status : Z)
| Failure (e : exn).

(** What was handed to the transport: the request a call of [urlopen] was
    given, with the route of its first hop, and the URL a call of
    [client.get] was given.  The further requests a redirect leads to are
    not listed. *)
Inductive packet : Type :=
| Sent (r : route) (req : request)       (* by [urllib.request.urlopen] *)
| Fetched (url : string).                (* by [httpx.AsyncClient.get] *)

Inductive message : Type :=
| Checking (n : nat)                     (* "Checking {n} proxies" *)
| IsValid (proxy : string) (time_taken : Z)
| IsNotValid (proxy : string) (error : exn)
| Found (n : nat)                        (* "Found {n} valid proxies" *)
| Scraping                               (* "Scraping proxies..." *)
| Writing (n : nat)                      (* "Writing {n} proxies to file..." *)
| Done                                   (* "Done!" *)
| Took (seconds : Z).                    (* "Took {t} seconds" *)

Record State : Type := {
  clock : Z;                                          (* what [time()] returns *)
  rng : list nat;                                     (* the coming draws of [random] *)
  default_proxy : option (socks_type * string * Z);   (* [socks.socksocket.default_proxy] *)
  socket_socket : socket_class;                       (* [socket.socket] *)
  opener : option (string * string);                  (* [urllib.request._opener]: its ProxyHandler entry *)
  files : string -> option string;                    (* path to content *)
  stdout : list message;
  wire : list packet                                  (* what was handed to the transport so far *)
}.

Definition set_clock (z : Z) (st : State) : State :=
  {| clock := z; rng := rng st; default_proxy := default_proxy st;
     socket_socket := socket_socket st; opener := opener st;
     files := files st; stdout := stdout st; wire := wire st |}.

Definition set_rng (r : list nat) (st : State) : State :=
  {| clock := clock st; rng := r; default_proxy := default_proxy st;
     socket_socket := socket_socket st; opener := opener st;
     files := files st; stdout := stdout st; wire := wire st |}.

Definition set_files (f : string -> option string) (st : State) : State :=
  {| clock := clock st; rng := rng st; default_proxy := default_proxy st;
     socket_socket := socket_socket st; opener := opener st;
     files := f; stdout := stdout st; wire := wire st |}.

Definition set_stdout (out : list message) (st : State) : State :=
  {| clock := clock st; rng := rng st; default_proxy := default_proxy st;
     socket_socket := socket_socket st; opener := opener st;
     files := files st; stdout := out; wire := wire st |}.

Definition set_wire (w : list packet) (st : State) : State :=
  {| clock := clock st; rng := rng st; default_proxy := default_proxy st;
     socket_socket := socket_socket st; opener := opener st;
     files := files st; stdout := stdout st; wire := w |}.

(** The oracles of a checker run: the user-agent pool read at import time;
    the network, which answers a request sent at a clock reading along a
    route with an exchange and the time it took; and [urllib]'s
    [proxy_bypass], asked of the host of a URL: the no_proxy setting of the
    environment (or of the system), under which a request goes direct
    although the opener has a proxy for its scheme. *)
Record Env : Type := {
  user_agents : list string;
  network : Z -> route -> request -> exchange * Z;
  proxy_bypass : string -> bool
}.

(** Computations over the interpreter state; the state survives a raise. *)
Definition M (A : Type) : Type := State -> result A * State.

Definition ret {A} (a : A) : M A := fun st => (Ok a, st).

Definition raise {A} (e : exn) : M A := fun st => (Raise e, st).

Definition bind {A B} (m : M A) (k : A -> M B) : M B :=
  fun st =>
    match m st with
    | (Ok a, st') => k a st'
    | (Raise e, st') => (Raise e, st')
    end.

Definition lift {A} (r : result A) : M A := fun st => (r, st).

(** [try: body except Exception as e: handler(e)] *)
Definition try_except {A} (body : M A) (handler : exn -> M A) : M A :=
  fun st =>
    match body st with
    | (Ok a, st') => (Ok a, st')
    | (Raise e, st') => handler e st'
    end.

Declare Scope py_scope.
Delimit Scope py_scope with py.
Notation "x <- c1 ;; c2" := (bind c1 (fun x => c2))
  (at level 61, c1 at next level, right associativity) : py_scope.
Notation "' pat <- c1 ;; c2" := (bind c1 (fun x => match x with pat => c2 end))
  (at level 61, pat pattern, c1 at next level, right associativity) : py_scope.
Notation "c1 ;; c2" := (bind c1 (fun _ => c2))
  (at level 61, right associativity) : py_scope.
Local Open Scope py_scope.

Fixpoint mapM {A B} (f : A -> M B) (l : list A) : M (list B) :=
  match l with
  | [] => ret []
  | a :: l' => b <- f a ;; bs <- mapM f l' ;; ret (b :: bs)
  end.

(** [time()] *)
Definition time : M Z := fun st => (Ok (clock st), st).

(** [print(message)] *)
Definition print (m : message) : M unit :=
  fun st => (Ok tt, set_stdout (stdout st ++ [m]) st).

(** [random.choice(seq)] *)
Definition random_choice (seq : list string) : M string :=
  fun st =>
    match seq with
    | [] => (Raise (IndexError "Cannot choose from an empty sequence"), st)
    | x :: _ => (Ok (nth (hd 0 (rng st) mod length seq) seq x), set_rng (tl (rng st)) st)
    end.

(** [socks.set_default_proxy(proxy_type, addr, port)] *)
Definition set_default_proxy (t : socks_type) (addr : string) (port : Z) : M unit :=
  fun st => (Ok tt, {| clock := clock st; rng := rng st;
                       default_proxy := Some (t, addr, port);
                       socket_socket := socket_socket st; opener := opener st;
                       files := files st; stdout := stdout st; wire := wire st |}).

(** [socket.socket = cls] *)
Definition set_socket_socket (cls : socket_class) : M unit :=
  fun st => (Ok tt, {| clock := clock st; rng := rng st; default_proxy := default_proxy st;
                       socket_socket := cls; opener := opener st;
                       files := files st; stdout := stdout st; wire := wire st |}).

(** [urllib.request.install_opener(build_opener(ProxyHandler({scheme: url})))] *)
Definition install_opener (scheme url : string) : M unit :=
  fun st => (Ok tt, {| clock := clock st; rng := rng st; default_proxy := default_proxy st;
                       socket_socket := socket_socket st; opener := Some (scheme, url);
                       files := files st; stdout := stdout st; wire := wire st |}).

(** The lines of a text file as iteration yields them: each keeps its
    terminator, which universal newlines turn into a line feed. *)
Fixpoint lines_of (cur : string) (s : string) : list string :=
  match s with
  | EmptyString => match cur with EmptyString => [] | _ => [cur] end
  | String c s' =>
      if Ascii.eqb c LF then (cur ++ newline)%string :: lines_of EmptyString s'
      else if Ascii.eqb c CR then
        match s' with
        | String d s'' =>
            if Ascii.eqb d LF then (cur ++ newline)%string :: lines_of EmptyString s''
            else (cur ++ newline)%string :: lines_of EmptyString s'
        | EmptyString => [(cur ++ newline)%string]
        end
      else lines_of (cur ++ String c EmptyString)%string s'
  end.

(** [with open(file, "r") as f: [... for line in f]].  The files of the model
    are texts: a path holds a content that can be read, decoded and
    written, or it does not exist.  The other ways [open] and the decoder
    can fail (a directory, a permission, bytes that are no text) are outside
    the model. *)
Definition read_lines (file : string) : M (list string) :=
  fun st =>
    match files st file with
    | Some content => (Ok (lines_of EmptyString content), st)
    | None => (Raise (FileNotFoundError file), st)
    end.

(** [with open(file, "w") as f: f.write(content)]; in the model the write
    succeeds (see [read_lines]). *)
Definition write_file (file : string) (content : string) : M unit :=
  fun st => (Ok tt, set_files (fun f => if String.eqb f file then Some content
                                        else files st f) st).

(** The scheme of a URL as [urllib.request.Request] parses it: the characters
    before the first colon, none of them a slash, in lower case. *)
Fixpoint scheme_prefix (s : string) : option string :=
  match s with
  | EmptyString => None
  | String c s' =>
      if Ascii.eqb c ":" then Some EmptyString
      else if Ascii.eqb c "/" then None
      else match scheme_prefix s' with
           | Some p => Some (String c p)
           | None => None
           end
  end.

Definition url_scheme (url : string) : result string :=
  match scheme_prefix url with
  | Some (String c p) => Ok (Py.lower (String c p))
  | _ => Raise (ValueError "unknown url type")
  end.

(** [urllib.request.Request(url, headers={"User-Agent": ua})] *)
Definition Request (url : string) (ua : option string) (timeout : Z) : result request :=
  match url_scheme url with
  | Ok _ => Ok {| full_url := url; user_agent_header := ua; request_timeout := timeout |}
  | Raise e => Raise e
  end.

(** The route a connection opened now for [url] would take: the opener and
    the socket class are looked up when the request is sent, not when they
    were set; [ProxyHandler.proxy_open] steps aside when [proxy_bypass] holds
    of the host.  With no opener installed [urlopen] builds the default one,
    whose [ProxyHandler] takes the proxies of the environment variables; the
    model takes these to be unset. *)
Definition route_of (env : Env) (st : State) (url scheme : string) : route :=
  {| tunnel := match socket_socket st with
               | socksocket => default_proxy st
               | plain_socket => None
               end;
     forward := match opener st with
                | Some (key, proxy_url) =>
                    if String.eqb key scheme && negb (proxy_bypass env url)
                    then Some proxy_url else None
                | None => None
                end |}.

Definition current_route (env : Env) (st : State) (req : request) : route :=
  match url_scheme (full_url req) with
  | Ok scheme => route_of env st (full_url req) scheme
  | Raise _ => {| tunnel := None; forward := None |}
  end.

(** [urllib.request.urlopen(req, timeout=timeout)] with the default handler
    chain.  The oracle's exchange stands for all the call does on the
    network, redirects followed included: its status is the final one, its
    failure the exception the call raises (an [OSError] of the connection
    arrives wrapped in [URLError]; so does the refusal of a scheme no handler
    knows).  [HTTPErrorProcessor] hands a final status outside 200..299 to
    [HTTPDefaultErrorHandler], which raises [HTTPError].  The route is that
    of the first hop. *)
Definition urlopen (env : Env) (req : request) : M unit :=
  fun st =>
    let r := current_route env st req in
    let '(x, dt) := network env (clock st) r req in
    let st' := set_wire (wire st ++ [Sent r req]) (set_clock (clock st + dt) st) in
    match x with
    | Response status =>
        if ((200 <=? status) && (status <? 300))%Z then (Ok tt, st')
        else (Raise (HTTPError status), st')
    | Failure e => (Raise e, st')
    end.

(** ** proxyChecker.py *)

Module proxyChecker.

Record Proxy : Type := { method : string; proxy : string }.

(** [verbose_print(verbose, message)] *)
Definition verbose_print (verbose : bool) (m : message) : M unit :=
  if verbose then print m else ret tt.

(** The value [Proxy.check] returns: [(valid, time_taken, error)]. *)
Definition outcome : Type := (bool * Z * option exn)%type.

Module Proxy.

(** [Proxy.__init__(self, method, proxy)] *)
Definition __init__ (method proxy : string) : result Proxy :=
  if negb (Py.mem (Py.lower method) ["http"; "https"; "socks4"; "socks5"])
  then Raise (NotImplementedError "Only HTTP, HTTPS, SOCKS4, and SOCKS5 are supported")
  else Ok {| method := Py.lower method; proxy := proxy |}.

(** [^\d{1,3}(?:\.\d{1,3}){3}:\d{1,5}$] *)
Definition pattern : Re.regex :=
  Re.Seq Re.Bol (Re.Seq Re.address_body Re.Eol).

(** [Proxy.is_valid(self)] *)
Definition is_valid (self : Proxy) : bool :=
  match Re.match_ pattern (proxy self) with
  | Some _ => true
  | None => false
  end.

(** [Proxy.check(self, site, timeout, user_agent, verbose)] *)
Definition check (env : Env) (self : Proxy) (site : string) (timeout : Z)
           (user_agent : string) (verbose : bool) : M outcome :=
  '(proxy_host, proxy_port) <- lift (Py.unpack2 (Py.split ":" (proxy self))) ;;
  (if Py.mem (method self) ["socks4"; "socks5"] then
     port <- lift (Py.int proxy_port) ;;
     set_default_proxy (if String.eqb (method self) "socks4" then SOCKS4 else SOCKS5)
                       proxy_host port ;;
     set_socket_socket socksocket
   else ret tt) ;;
  try_except
    (start_time <- time ;;
     (if Py.mem (method self) ["http"; "https"] then
        let proxy_url := (method self ++ "://" ++ proxy self)%string in
        install_opener (method self) proxy_url ;;
        req <- lift (Request site (Some user_agent) timeout) ;;
        urlopen env req
      else
        req <- lift (Request site None timeout) ;;
        urlopen env req) ;;
     end_time <- time ;;
     let time_taken := (end_time - start_time)%Z in
     verbose_print verbose (IsValid (proxy self) time_taken) ;;
     ret (true, time_taken, None))
    (fun e =>
       verbose_print verbose (IsNotValid (proxy self) e) ;;
       ret (false, 0%Z, Some e)).

(** [Proxy.__str__(self)] *)
Definition __str__ (self : Proxy) : string := proxy self.

(** The body of [check] cut at its accesses to state other threads share:
    lines 31-34 (the SOCKS default and the socket class), lines 37-43 (the
    clock, the installed opener), the call of [urlopen], and lines 47-53. *)
Definition check_configure (self : Proxy) : M unit :=
  '(proxy_host, proxy_port) <- lift (Py.unpack2 (Py.split ":" (proxy self))) ;;
  if Py.mem (method self) ["socks4"; "socks5"] then
    port <- lift (Py.int proxy_port) ;;
    set_default_proxy (if String.eqb (method self) "socks4" then SOCKS4 else SOCKS5)
                      proxy_host port ;;
    set_socket_socket socksocket
  else ret tt.

Definition check_prepare (self : Proxy) (site : string) (timeout : Z)
           (user_agent : string) : M (Z * request) :=
  start_time <- time ;;
  if Py.mem (method self) ["http"; "https"] then
    let proxy_url := (method self ++ "://" ++ proxy self)%string in
    install_opener (method self) proxy_url ;;
    req <- lift (Request site (Some user_agent) timeout) ;;
    ret (start_time, req)
  else
    req <- lift (Request site None timeout) ;;
    ret (start_time, req).

Definition check_finish (self : Proxy) (verbose : bool) (r : result Z) : M outcome :=
  match r with
  | Ok start_time =>
      end_time <- time ;;
      let time_taken := (end_time - start_time)%Z in
      verbose_print verbose (IsValid (proxy self) time_taken) ;;
      ret (true, time_taken, None)
  | Raise e =>
      verbose_print verbose (IsNotValid (proxy self) e) ;;
      ret (false, 0%Z, Some e)
  end.

End Proxy.

(** *** [check_proxies] and its threads *)

(** What a run leaves for inspection: [Connected p r] when the thread of
    the candidate [p] calls [urlopen], [r] being the route in force at that
    moment (which need not lead through [p]); and what each call of
    [Proxy.check] was given and returned. *)
Inductive event : Type :=
| Connected (proxy : Proxy) (r : route)
| Returned (proxy : Proxy) (user_agent : string) (o : outcome).

(** The list [valid_proxies] the threads append to, and the trace. *)
Record Shared : Type := {
  valid_proxies : list Proxy;
  trace : list event
}.

(** A thread running [check_proxy(proxy, user_agent)], by where it stands. *)
Inductive thread : Type :=
| Created (proxy : Proxy) (user_agent : string)          (* at line 72 *)
| Chosen (proxy : Proxy) (user_agent : string)           (* at line 74, entering [check] *)
| Configured (proxy : Proxy) (user_agent : string)       (* at the [try], line 36 *)
| Prepared (proxy : Proxy) (user_agent : string) (r : result (Z * request))   (* at [urlopen] *)
| Transferred (proxy : Proxy) (user_agent : string) (r : result Z)  (* [urlopen] is over *)
| Finished                                               (* [check_proxy] returned *)
| Died (proxy : Proxy) (e : exn).                        (* an exception left [check_proxy] *)

Section Run.
Variable env : Env.
Variables (site : string) (timeout : Z) (verbose random_user_agent : bool).

(** The closure [check_proxy(proxy, user_agent)], run without interruption. *)
Definition check_proxy (proxy : Proxy) (user_agent : string)
           (valid_proxies : list Proxy) : M (list Proxy) :=
  user_agent <- (if random_user_agent then random_choice (user_agents env)
                 else ret user_agent) ;;
  '(valid, time_taken, error) <- Proxy.check env proxy site timeout user_agent verbose ;;
  if valid then ret (valid_proxies ++ [proxy]) else ret valid_proxies.

(** One atomic step of a thread.  An exception that leaves [check_proxy]
    ends the thread and nothing else. *)
Definition thread_step (t : thread) (sh : Shared) (st : State) : thread * Shared * State :=
  match t with
  | Created p ua =>
      match (if random_user_agent then random_choice (user_agents env) else ret ua) st with
      | (Ok ua', st') => (Chosen p ua', sh, st')
      | (Raise e, st') => (Died p e, sh, st')
      end
  | Chosen p ua =>
      match Proxy.check_configure p st with
      | (Ok _, st') => (Configured p ua, sh, st')
      | (Raise e, st') => (Died p e, sh, st')
      end
  | Configured p ua =>
      let '(r, st') := Proxy.check_prepare p site timeout ua st in
      (Prepared p ua r, sh, st')
  | Prepared p ua (Ok (start_time, req)) =>
      let '(r, st') := urlopen env req st in
      (Transferred p ua (match r with Ok _ => Ok start_time | Raise e => Raise e end),
       {| valid_proxies := valid_proxies sh;
          trace := trace sh ++ [Connected p (current_route env st req)] |},
       st')
  | Prepared p ua (Raise e) => (Transferred p ua (Raise e), sh, st)
  | Transferred p ua r =>
      match Proxy.check_finish p verbose r st with
      | (Ok (valid, time_taken, error), st') =>
          (Finished,
           {| valid_proxies := if valid then valid_proxies sh ++ [p] else valid_proxies sh;
              trace := trace sh ++ [Returned p ua (valid, time_taken, error)] |},
           st')
      | (Raise e, st') => (Died p e, sh, st')
      end
  | Finished => (Finished, sh, st)
  | Died p e => (Died p e, sh, st)
  end.

Definition config : Type := (list thread * Shared * State)%type.

Fixpoint set_nth (k : nat) (t : thread) (pool : list thread) : list thread :=
  match pool, k with
  | [], _ => []
  | _ :: pool', O => t :: pool'
  | t0 :: pool', S k' => t0 :: set_nth k' t pool'
  end.

(** The scheduler lets thread [k] take one step. *)
Definition step_at (k : nat) (c : config) : config :=
  let '(pool, sh, st) := c in
  match nth_error pool k with
  | Some t =>
      let '(t', sh', st') := thread_step t sh st in
      (set_nth k t' pool, sh', st')
  | None => c
  end.

(** [t.join()]: thread [k] runs to its end (five steps at most). *)
Definition join (k : nat) (c : config) : config :=
  step_at k (step_at k (step_at k (step_at k (step_at k c)))).

(** The threads run as the schedule interleaves them; the joins then let
    each one finish. *)
Definition run_threads (sched : list nat) (pool : list thread) (st : State) : config :=
  let c := fold_left (fun c k => step_at k c) sched
                     (pool, {| valid_proxies := []; trace := [] |}, st) in
  fold_left (fun c k => join k c) (seq 0 (length pool)) c.

(** [for t in threads: t.start()] then [for t in threads: t.join()] *)
Definition start_and_join (sched : list nat) (threads : list thread) : M Shared :=
  fun st => let '(_, sh, st') := run_threads sched threads st in (Ok sh, st').

(** [check_proxies(file, timeout, method, site, verbose, random_user_agent)].
    The source returns [None]; the model returns the trace of the run. *)
Definition check_proxies (sched : list nat) (file method : string) : M (list event) :=
  lines <- read_lines file ;;
  proxies <- mapM (fun line => lift (Proxy.__init__ method (Py.strip line))) lines ;;
  print (Checking (length proxies)) ;;
  let proxies := filter Proxy.is_valid proxies in
  threads <- mapM (fun proxy =>
                     user_agent <- (if random_user_agent
                                    then random_choice (user_agents env)
                                    else random_choice (user_agents env)) ;;
                     ret (Created proxy user_agent)) proxies ;;
  sh <- start_and_join sched threads ;;
  write_file file (String.concat ""
                     (map (fun proxy => (Proxy.__str__ proxy ++ newline)%string)
                          (valid_proxies sh))) ;;
  print (Found (length (valid_proxies sh))) ;;
  ret (trace sh).

End Run.

End proxyChecker.

(** ** proxyScraper.py *)

Module proxyScraper.

(** An instance of [Scraper] or of one of its subclasses, with the
    attributes its [__init__] sets. *)
Inductive Scraper : Type :=
| SpysMe (method url_template : string)
| ProxyScrape (method url_template : string) (timeout : Z) (country : string)
| GeoNode (method url_template : string) (limit page : Z) (sort_by sort_type : string)
| ProxyListDownload (method url_template : string) (anon : string)
| GeneralTable (method url_template : string).

Definition method (self : Scraper) : string :=
  match self with
  | SpysMe m _ | ProxyScrape m _ _ _ | GeoNode m _ _ _ _ _
  | ProxyListDownload m _ _ | GeneralTable m _ => m
  end.

Definition url_template (self : Scraper) : string :=
  match self with
  | SpysMe _ u | ProxyScrape _ u _ _ | GeoNode _ u _ _ _ _
  | ProxyListDownload _ u _ | GeneralTable _ u => u
  end.

(** [SpysMeScraper(method)] *)
Definition SpysMeScraper (method : string) : result Scraper :=
  Ok (SpysMe method "https://spys.me/{mode}.txt").

(** [ProxyScrapeScraper(method, timeout=1000, country="All")] *)
Definition ProxyScrapeScraper (method : string) : result Scraper :=
  Ok (ProxyScrape method
        "https://api.proxyscrape.com/?request=getproxies&proxytype={method}&timeout={timeout}&country={country}"
        1000 "All").

(** [GeoNodeScraper(method, limit=500, page=1, sort_by="lastChecked", sort_type="desc")] *)
Definition GeoNodeScraper (method : string) : result Scraper :=
  Ok (GeoNode method
        "https://proxylist.geonode.com/api/proxy-list?limit={limit}&page={page}&sort_by={sort_by}&sort_type={sort_type}"
        500 1 "lastChecked" "desc").

(** [ProxyListDownloadScraper(method, anon)] *)
Definition ProxyListDownloadScraper (method anon : string) : result Scraper :=
  Ok (ProxyListDownload method
        "https://www.proxy-list.download/api/v1/get?type={method}&anon={anon}" anon).

(** A call of [GeneralTableScraper]: the class defines no [__init__], so the
    call binds its arguments to [Scraper.__init__(self, method, url_template)]. *)
Definition GeneralTableScraper (args : list string) : result Scraper :=
  match args with
  | [method; url_template] => Ok (GeneralTable method url_template)
  | [] => Raise (TypeError "Scraper.__init__() missing 2 required positional arguments: 'method' and 'url_template'")
  | [_] => Raise (TypeError "Scraper.__init__() missing 1 required positional argument: 'url_template'")
  | _ => Raise (TypeError "Scraper.__init__() takes 3 positional arguments")
  end.

(** [str(n)] for an integer *)
Definition str_of_int (z : Z) : string := NilZero.string_of_int (Z.to_int z).

(** [template.format] with keyword arguments, for templates whose fields are plain names. *)
Fixpoint format_from (kwargs : list (string * string)) (field : option string)
         (template : string) : result string :=
  match template, field with
  | EmptyString, None => Ok EmptyString
  | EmptyString, Some _ => Raise (ValueError "expected '}' before end of string")
  | String c t, None =>
      if Ascii.eqb c "{" then format_from kwargs (Some EmptyString) t
      else match format_from kwargs None t with
           | Ok r => Ok (String c r)
           | Raise e => Raise e
           end
  | String c t, Some name =>
      if Ascii.eqb c "}" then
        match find (fun kv => String.eqb (fst kv) name) kwargs with
        | Some (_, v) =>
            match format_from kwargs None t with
            | Ok r => Ok (v ++ r)%string
            | Raise e => Raise e
            end
        | None => Raise (KeyError name)
        end
      else format_from kwargs (Some (name ++ String c EmptyString)%string) t
  end.

Definition format (template : string) (kwargs : list (string * string)) : result string :=
  format_from kwargs None template.

(** [Scraper.get_url] of the base class, with its keyword arguments *)
Definition Scraper_get_url (self : Scraper) (kwargs : list (string * string)) : result string :=
  format (url_template self) (("method", method self) :: kwargs).

(** [self.get_url], by the class of [self] *)
Definition get_url (self : Scraper) (kwargs : list (string * string)) : result string :=
  match self with
  | SpysMe m _ =>
      let mode := if String.eqb m "http" then "proxy" else "socks" in
      if negb (Py.mem mode ["proxy"; "socks"])
      then Raise (NotImplementedError ("Method " ++ m ++ " not supported by SpysMeScraper"))
      else Scraper_get_url self (("mode", mode) :: kwargs)
  | ProxyScrape _ _ timeout country =>
      Scraper_get_url self (("timeout", str_of_int timeout) :: ("country", country) :: kwargs)
  | GeoNode _ _ limit page sort_by sort_type =>
      Scraper_get_url self (("limit", str_of_int limit) :: ("page", str_of_int page)
                            :: ("sort_by", sort_by) :: ("sort_type", sort_type) :: kwargs)
  | ProxyListDownload _ _ anon =>
      Scraper_get_url self (("anon", anon) :: kwargs)
  | GeneralTable _ _ => Scraper_get_url self kwargs
  end.

(** The web as the scraper sees it: what [client.get(url)] gives (the text of
    the response, or the exception) and when; what BeautifulSoup finds in
    a page: the texts of the cells of each row of the first table of class
    "table table-striped table-bordered", if there is one; and the order in
    which iterating a [set] of strings yields its elements, which depends on
    the hash seed of the process: [set_order] is given the distinct elements
    and returns them in that order. *)
Record Web : Type := {
  http_get : string -> result string * Z;
  html_table : string -> option (list (list string));
  set_order : list string -> list string
}.

(** [self.handle(response)], by the class of [self]. *)
Definition handle (web : Web) (self : Scraper) (text : string) : string :=
  match self with
  | GeneralTable _ _ =>
      match html_table web text with
      | Some rows =>
          String.concat newline
            (set_order web
               (nodup string_dec
                  (flat_map (fun cells =>
                               match cells with
                               | c0 :: c1 :: _ => [(Py.strip c0 ++ ":" ++ Py.strip c1)%string]
                               | _ => []
                               end) rows)))
      | None => EmptyString
      end
  | _ => text
  end.

(** One task of the gather: [scraper.scrape(client)], with the URL it
    requested (if it got that far), its result and the time it was over. *)
Definition Scraper_scrape (web : Web) (self : Scraper)
  : option string * result (list string) * Z :=
  match get_url self [] with
  | Raise e => (None, Raise e, 0%Z)
  | Ok url =>
      match http_get web url with
      | (Ok text, t) => (Some url, Ok (Re.findall Re.address_body (handle web self text)), t)
      | (Raise e, t) => (Some url, Raise e, t)
      end
  end.

(** The exception [asyncio.gather] propagates: that of the task that failed
    first (the earlier task on a tie). *)
Fixpoint first_failure {A} (outs : list (result A * Z)) : option (exn * Z) :=
  match outs with
  | [] => None
  | (Ok _, _) :: outs' => first_failure outs'
  | (Raise e, t) :: outs' =>
      match first_failure outs' with
      | Some (e', t') => if (t' <? t)%Z then Some (e', t') else Some (e, t)
      | None => Some (e, t)
      end
  end.

Fixpoint successes {A} (outs : list (result A * Z)) : list A :=
  match outs with
  | [] => []
  | (Ok a, _) :: outs' => a :: successes outs'
  | (Raise _, _) :: outs' => successes outs'
  end.

(** [await asyncio.gather] of the tasks, inside [async with httpx.AsyncClient]:
    every task is started and hands its URL to the client; without
    [return_exceptions] the first failure is raised to the awaiting
    coroutine, otherwise the results come back in task order once the last
    task is over.  The URLs are listed in the order the tasks are started
    in; the order of the requests on the network, and the requests a
    redirect adds, are outside the model. *)
Definition gather (web : Web) (tasks : list Scraper) : M (list (list string)) :=
  fun st =>
    let runs := map (Scraper_scrape web) tasks in
    let sent := flat_map (fun r => match fst (fst r) with
                                   | Some url => [Fetched url]
                                   | None => []
                                   end) runs in
    let outs := map (fun r => (snd (fst r), snd r)) runs in
    match first_failure outs with
    | Some (e, t) =>
        (Raise e, set_wire (wire st ++ sent) (set_clock (clock st + Z.max 0 t) st))
    | None =>
        (Ok (successes outs),
         set_wire (wire st ++ sent)
                  (set_clock (clock st + fold_right Z.max 0%Z (map snd outs)) st))
    end.

(** [verbose_print(verbose, message)] *)
Definition verbose_print (verbose : bool) (m : message) : M unit :=
  if verbose then print m else ret tt.

(** [scrape(method, output, verbose)], reading the module's list [scrapers]. *)
Definition scrape (scrapers : list Scraper) (web : Web)
           (method_ output : string) (verbose : bool) : M unit :=
  start_time <- time ;;
  let methods := if String.eqb method_ "socks" then [method_; "socks4"; "socks5"]
                 else [method_] in
  let proxy_scrapers := filter (fun s => Py.mem (method s) methods) scrapers in
  match proxy_scrapers with
  | [] => raise (ValueError "Method not supported")
  | _ =>
      verbose_print verbose Scraping ;;
      results <- gather web proxy_scrapers ;;
      let proxies := concat results in
      verbose_print verbose (Writing (length proxies)) ;;
      write_file output (String.concat newline proxies) ;;
      verbose_print verbose Done ;;
      end_time <- time ;;
      verbose_print verbose (Took (end_time - start_time)%Z)
  end.

Fixpoint all_ok {A} (l : list (result A)) : result (list A) :=
  match l with
  | [] => Ok []
  | Ok a :: l' => match all_ok l' with Ok r => Ok (a :: r) | Raise e => Raise e end
  | Raise e :: _ => Raise e
  end.

(** The module-level list [scrapers], built when the module is loaded. *)
Definition scrapers : result (list Scraper) :=
  all_ok [ SpysMeScraper "http";
           SpysMeScraper "socks";
           ProxyScrapeScraper "http";
           ProxyScrapeScraper "socks4";
           ProxyScrapeScraper "socks5";
           GeoNodeScraper "socks";
           ProxyListDownloadScraper "https" "elite";
           ProxyListDownloadScraper "http" "elite";
           ProxyListDownloadScraper "http" "transparent";
           ProxyListDownloadScraper "http" "anonymous";
           GeneralTableScraper ["https"];
           GeneralTableScraper ["http"] ].

(** The script: the module body, then [asyncio.run(scrape(args.proxy,
    args.output, args.verbose))]. *)
Definition main (web : Web) (proxy output : string) (verbose : bool) : M unit :=
  match scrapers with
  | Ok l => scrape l web proxy output verbose
  | Raise e => raise e
  end.

End proxyScraper.

(** * Observations, specifications and fixtures *)

Unset Implicit Arguments.

Import proxyChecker.

(** ** The address format, in the words of the specification *)

(** Every character is one of 0..9. *)
Fixpoint all_digits (s : string) : bool :=
  match s with
  | EmptyString => true
  | String c s' => Py.isdigit c && all_digits s'
  end.

(** A group of [lo] to [hi] digits. *)
Definition digit_group (lo hi : nat) (s : string) : Prop :=
  lo <= String.length s <= hi /\ all_digits s = true.

(** "Four dot-separated groups of 1-3 digits, a colon, then 1-5 digits, with
    nothing before or after." *)
Definition ipv4_port (raw : string) : Prop :=
  exists a b c d p,
    raw = (a ++ "." ++ b ++ "." ++ c ++ "." ++ d ++ ":" ++ p)%string /\
    digit_group 1 3 a /\ digit_group 1 3 b /\ digit_group 1 3 c /\
    digit_group 1 3 d /\ digit_group 1 5 p.

(** The characters an address is made of. *)
Definition address_char (c : ascii) : bool :=
  Py.isdigit c || Ascii.eqb c "." || Ascii.eqb c ":".

Fixpoint address_chars (s : string) : bool :=
  match s with
  | EmptyString => true
  | String c s' => address_char c && address_chars s'
  end.

(** No character of the string is a colon. *)
Fixpoint no_colon (s : string) : bool :=
  match s with
  | EmptyString => true
  | String c s' => negb (Ascii.eqb c ":") && no_colon s'
  end.

(** ** What the matcher is measured against *)

(** A matching step agrees with a language: it succeeds exactly when it can
    consume a prefix that is in the language and the continuation accepts
    what is left. *)
Definition step_ok (A : Type)
           (step : nat -> string -> (nat -> string -> option A) -> option A)
           (L : nat -> string -> string -> Prop) : Prop :=
  forall pos s k,
    step pos s k <> None <->
    exists s1 s2, s = (s1 ++ s2)%string /\ L pos s1 s2 /\
                  k (pos + String.length s1) s2 <> None.

(** ** One call of [check] *)

(** What [check] does once the routing is configured, phase by phase. *)
Definition check_after_configure (env : Env) (self : Proxy) (site : string) (timeout : Z)
           (user_agent : string) (verbose : bool) : M outcome :=
  fun st =>
    match Proxy.check_prepare self site timeout user_agent st with
    | (Ok (start_time, req), st1) =>
        match urlopen env req st1 with
        | (Ok _, st2) => Proxy.check_finish self verbose (Ok start_time) st2
        | (Raise e, st2) => Proxy.check_finish self verbose (Raise e) st2
        end
    | (Raise e, st1) => Proxy.check_finish self verbose (Raise e) st1
    end.

(** The exchange a call of [check] started in state [st] has with the
    network, if the call gets as far as [urlopen]. *)
Definition probe_exchange (env : Env) (self : Proxy) (site : string) (timeout : Z)
           (user_agent : string) (st : State) : option (exchange * Z) :=
  match Proxy.check_configure self st with
  | (Ok _, st0) =>
      match Proxy.check_prepare self site timeout user_agent st0 with
      | (Ok (_, req), st1) => Some (network env (clock st1) (current_route env st1 req) req)
      | (Raise _, _) => None
      end
  | (Raise _, _) => None
  end.

(** What [check] makes of an exchange that took [dt]. *)
Definition verdict (x : exchange) (dt : Z) : outcome :=
  match x with
  | Response status =>
      if ((200 <=? status) && (status <? 300))%Z then (true, dt, None)
      else (false, 0%Z, Some (HTTPError status))
  | Failure e => (false, 0%Z, Some e)
  end.

(** The body of the [try] of [check], lines 37 to 50. *)
Definition check_try (env : Env) (self : Proxy) (site : string) (timeout : Z)
           (user_agent : string) (verbose : bool) : M outcome :=
  start_time <- time ;;
  (if Py.mem (method self) ["http"; "https"] then
     let proxy_url := (method self ++ "://" ++ proxy self)%string in
     install_opener (method self) proxy_url ;;
     req <- lift (Request site (Some user_agent) timeout) ;;
     urlopen env req
   else
     req <- lift (Request site None timeout) ;;
     urlopen env req) ;;
  end_time <- time ;;
  let time_taken := (end_time - start_time)%Z in
  verbose_print verbose (IsValid (proxy self) time_taken) ;;
  ret (true, time_taken, None).

(** Its [except Exception as e] clause, lines 51 to 53. *)
Definition check_except (self : Proxy) (verbose : bool) (e : exn) : M outcome :=
  verbose_print verbose (IsNotValid (proxy self) e) ;;
  ret (false, 0%Z, Some e).

(** What the probe of a candidate can raise inside the [try]: the error of
    a URL without a scheme, the failure of an exchange, or [HTTPError] for a
    final status outside 200..299. *)
Definition raised_by_probe (env : Env) (site : string) (e : exn) : Prop :=
  url_scheme site = Raise e \/
  (exists now r req dt, network env now r req = (Failure e, dt)) \/
  (exists now r req dt status,
      network env now r req = (Response status, dt) /\
      ((200 <=? status) && (status <? 300))%Z = false /\ e = HTTPError status).

(** A network on which no exchange ends with a status in 200..299: every
    call of [urlopen] raises. *)
Definition every_exchange_fails (env : Env) : Prop :=
  forall now r req,
    match fst (network env now r req) with
    | Response status => ((200 <=? status) && (status <? 300))%Z = false
    | Failure _ => True
    end.

(** The two shapes of the triple [check] returns. *)
Definition well_shaped (o : outcome) : Prop :=
  let '(b, t, err) := o in
  (b = true -> err = None) /\ (b = false -> err <> None /\ t = 0%Z).

(** ** What a run leaves behind *)

(** What the trace says: the calls of [check] that returned, the candidates
    they probed, and those whose call returned [valid = True]. *)
Definition returned (tr : list event) : list (Proxy * string * outcome) :=
  flat_map (fun e => match e with
                     | Returned p ua o => [(p, ua, o)]
                     | Connected _ _ => []
                     end) tr.

(** Whether a returned call said valid = True, and the candidate it probed. *)
Definition succeeded (call : Proxy * string * outcome) : bool := fst (fst (snd call)).

Definition candidate (call : Proxy * string * outcome) : Proxy := fst (fst call).

Definition probed (tr : list event) : list Proxy := map candidate (returned tr).

Definition survivors (tr : list event) : list Proxy :=
  map candidate (filter succeeded (returned tr)).

(** The candidate a thread still owes an outcome for. *)
Definition charge (t : thread) : list Proxy :=
  match t with
  | Created p _ | Chosen p _ | Configured p _ | Prepared p _ _ | Transferred p _ _
  | Died p _ => [p]
  | Finished => []
  end.

(** The steps a thread has left. *)
Definition rank (t : thread) : nat :=
  match t with
  | Created _ _ => 5
  | Chosen _ _ => 4
  | Configured _ _ => 3
  | Prepared _ _ _ => 2
  | Transferred _ _ _ => 1
  | Finished | Died _ _ => 0
  end.

(** A thread that was not ended by an exception and probes a valid address. *)
Definition healthy (t : thread) : Prop :=
  match t with
  | Created p _ | Chosen p _ | Configured p _ | Prepared p _ _ | Transferred p _ _ =>
      Proxy.is_valid p = true
  | Finished => True
  | Died _ _ => False
  end.

(** The candidates the threads of a pool still owe an outcome for. *)
Definition charges (pool : list thread) : list Proxy := flat_map charge pool.

Definition pool_of (c : config) : list thread := fst (fst c).

Definition shared_of (c : config) : Shared := snd (fst c).

(** The bookkeeping of a run over the candidates [init] it was started on. *)
Definition accounts (init : list Proxy) (c : config) : Prop :=
  valid_proxies (shared_of c) = survivors (trace (shared_of c)) /\
  Permutation (charges (pool_of c) ++ probed (trace (shared_of c))) init.

(** The request a thread holds is for the site, and the exception a thread
    carries was raised by its probe. *)
Definition failure_accounted (env : Env) (site : string) (t : thread) : Prop :=
  match t with
  | Prepared _ _ (Ok (_, req)) => full_url req = site
  | Prepared _ _ (Raise e) | Transferred _ _ (Raise e) => raised_by_probe env site e
  | _ => True
  end.

(** Every failure in sight is an exception a probe raised, and every call
    that returned a failure returned that exception with time 0. *)
Definition failures_accounted (env : Env) (site : string) (c : config) : Prop :=
  Forall (failure_accounted env site) (pool_of c) /\
  forall p ua t err,
    In (Returned p ua (false, t, err)) (trace (shared_of c)) ->
    t = 0%Z /\ exists e, err = Some e /\ raised_by_probe env site e.

(** A thread whose request did not succeed. *)
Definition not_transferred (t : thread) : Prop :=
  match t with
  | Transferred _ _ (Ok _) => False
  | _ => True
  end.

(** No request has succeeded and no call has returned valid. *)
Definition none_succeeded (c : config) : Prop :=
  Forall not_transferred (pool_of c) /\
  Forall (fun call => exists e, snd call = (false, 0%Z, Some e)) (returned (trace (shared_of c))).

(** The test of [Proxy.__init__]: the method, in lower case, is one of four. *)
Definition supported (method : string) : bool :=
  Py.mem (Py.lower method) ["http"; "https"; "socks4"; "socks5"].

(** The candidates the list comprehension builds from the lines of the file. *)
Definition candidates (method : string) (lines : list string) : list Proxy :=
  map (fun line => {| method := Py.lower method; proxy := Py.strip line |}) lines.

(** What the file holds after a run that left the trace [tr]. *)
Definition written (tr : list event) : string :=
  String.concat "" (map (fun p => (Proxy.__str__ p ++ newline)%string) (survivors tr)).

(** The same content, line by line: the address of each survivor, then a
    line feed. *)
Definition survivor_lines (tr : list event) : string :=
  String.concat "" (map (fun p => (proxy p ++ newline)%string) (survivors tr)).

(** The state a run that returns leaves behind. *)
Definition final_state (file : string) (sh : Shared) (st : State) : State :=
  let st1 := set_files (fun f => if String.eqb f file then
                                   Some (String.concat ""
                                           (map (fun p => (Proxy.__str__ p ++ newline)%string)
                                                (valid_proxies sh)))
                                 else files st f) st in
  set_stdout (stdout st1 ++ [Found (length (valid_proxies sh))]) st1.

(** ** The adapters of a scrape *)

(** The adapters [scrape] selects for a method: its list [proxy_scrapers]. *)
Definition matching (scrapers : list proxyScraper.Scraper) (method_ : string) : list proxyScraper.Scraper :=
  filter (fun s => Py.mem (proxyScraper.method s)
                          (if String.eqb method_ "socks" then [method_; "socks4"; "socks5"]
                           else [method_])) scrapers.

(** The adapters a scrape is meant for: those of the method asked for and,
    when "socks" is asked for, those of "socks4" and "socks5" as well. *)
Definition selected (method_ : string) (s : proxyScraper.Scraper) : bool :=
  String.eqb (proxyScraper.method s) method_ ||
  (String.eqb method_ "socks" &&
   (String.eqb (proxyScraper.method s) "socks4" || String.eqb (proxyScraper.method s) "socks5")).

(** What the task of an adapter ends with. *)
Definition adapter_result (web : proxyScraper.Web) (s : proxyScraper.Scraper) : result (list string) :=
  snd (fst (proxyScraper.Scraper_scrape web s)).

(** What each task of a gather ends with, and when. *)
Definition task_outcomes (web : proxyScraper.Web) (tasks : list proxyScraper.Scraper) : list (result (list string) * Z) :=
  map (fun r => (snd (fst r), snd r)) (map (proxyScraper.Scraper_scrape web) tasks).

(** ** Mocked transports and the runs the examples use *)

(** The transport answers by the forward proxy the request goes through:
    1.1.1.1:80 relays it, 2.2.2.2:81 refuses the connection, anything else
    never answers. *)
Definition mock_network (now : Z) (r : route) (req : request) : exchange * Z :=
  match forward r with
  | Some url =>
      if String.eqb url "http://1.1.1.1:80" then (Response 200, 7%Z)
      else if String.eqb url "http://2.2.2.2:81" then (Failure ConnectionRefusedError, 1%Z)
      else (Failure SocketTimeout, request_timeout req)
  | None => (Failure SocketTimeout, request_timeout req)
  end.

(** The pool of user agents and the mocked transport. *)
Definition mock_env : Env :=
  {| user_agents := ["Mozilla/5.0"; "curl/8.0"]; network := mock_network;
     proxy_bypass := fun _ => false |}.

(** A transport on which every exchange completes with status 404. *)
Definition status_404_env : Env :=
  {| user_agents := ["Mozilla/5.0"];
     network := fun _ _ _ => (Response 404, 5%Z);
     proxy_bypass := fun _ => false |}.

(** The contents of the list file in the examples. *)
Definition three_lines : string :=
  ("1.1.1.1:80" ++ newline ++ "2.2.2.2:81" ++ newline ++ "3.3.3.3:82" ++ newline)%string.


Definition three_lines_swapped : string :=
  ("2.2.2.2:81" ++ newline ++ "1.1.1.1:80" ++ newline ++ "3.3.3.3:82" ++ newline)%string.

Definition two_socks_lines : string :=
  ("1.1.1.1:1080" ++ newline ++ "2.2.2.2:1080" ++ newline)%string.

(** The interpreter at the start of a run: the list file "output.txt" holds
    [content], the random generator will draw [draws]. *)
Definition boot (content : string) (draws : list nat) : State :=
  {| clock := 1000; rng := draws; default_proxy := None; socket_socket := plain_socket;
     opener := None;
     files := fun f => if String.eqb f "output.txt" then Some content else None;
     stdout := []; wire := [] |}.

(** The candidates of the examples. *)
Definition http_A : Proxy := {| method := "http"; proxy := "1.1.1.1:80" |}.

Definition http_B : Proxy := {| method := "http"; proxy := "2.2.2.2:81" |}.

Definition http_C : Proxy := {| method := "http"; proxy := "3.3.3.3:82" |}.

Definition socks_X : Proxy := {| method := "socks5"; proxy := "1.1.1.1:1080" |}.

Definition socks_Y : Proxy := {| method := "socks5"; proxy := "2.2.2.2:1080" |}.

(** The three probes run one after the other (the schedule is empty, the
    joins run each thread in turn). *)
Definition serial_run : result (list event) * State :=
  check_proxies mock_env "http://example.com/" 20 false false []
                "output.txt" "http" (boot three_lines [0; 0; 0]).

Definition serial_trace : list event :=
  match fst serial_run with Ok tr => tr | Raise _ => [] end.



(** The ten adapters of the module's list that can be built. *)
Definition built_scrapers : list proxyScraper.Scraper :=
  match proxyScraper.all_ok
          [ proxyScraper.SpysMeScraper "http";
            proxyScraper.SpysMeScraper "socks";
            proxyScraper.ProxyScrapeScraper "http";
            proxyScraper.ProxyScrapeScraper "socks4";
            proxyScraper.ProxyScrapeScraper "socks5";
            proxyScraper.GeoNodeScraper "socks";
            proxyScraper.ProxyListDownloadScraper "https" "elite";
            proxyScraper.ProxyListDownloadScraper "http" "elite";
            proxyScraper.ProxyListDownloadScraper "http" "transparent";
            proxyScraper.ProxyListDownloadScraper "http" "anonymous" ] with
  | Ok l => l
  | Raise _ => []
  end.

(** spys.me answers with two addresses; proxyscrape.com cannot be reached;
    every other provider answers with an empty page. *)
Definition flaky_web : proxyScraper.Web :=
  {| proxyScraper.http_get := fun url =>
       if String.eqb url "https://spys.me/proxy.txt"
       then (Ok "1.2.3.4:80 5.6.7.8:9999", 3%Z)
       else if String.eqb url
                 "https://api.proxyscrape.com/?request=getproxies&proxytype=http&timeout=1000&country=All"
            then (Raise (ConnectError "api.proxyscrape.com"), 2%Z)
            else (Ok "", 4%Z);
     proxyScraper.html_table := fun _ => None;
     proxyScraper.set_order := fun l => l |}.

(** Every provider answers, with one address each. *)
Definition steady_web : proxyScraper.Web :=
  {| proxyScraper.http_get := fun url => (Ok "10.0.0.1:3128", 3%Z);
     proxyScraper.html_table := fun _ => None;
     proxyScraper.set_order := fun l => l |}.

(** ** Further observations *)

(** A matching step is sound for a language: what it returns, the
    continuation returned after a prefix in the language was consumed. *)
Definition step_sound (A : Type)
           (step : nat -> string -> (nat -> string -> option A) -> option A)
           (L : nat -> string -> string -> Prop) : Prop :=
  forall pos s k a,
    step pos s k = Some a ->
    exists s1 s2, s = (s1 ++ s2)%string /\ L pos s1 s2 /\
                  k (pos + String.length s1) s2 = Some a.

(** The string does not begin with a digit. *)
Definition no_digit_ahead (s : string) : bool :=
  match s with
  | EmptyString => true
  | String c _ => negb (Py.isdigit c)
  end.

(** A provider that answers every request with the same three lines. *)
Definition listing_web : proxyScraper.Web :=
  {| proxyScraper.http_get := fun url =>
       (Ok ("1.2.3.4:80" ++ newline ++ "5.6.7.8:9999" ++ newline ++ "1.2.3.4:80" ++ newline)%string,
        3%Z);
     proxyScraper.html_table := fun _ => None;
     proxyScraper.set_order := fun l => l |}.

(** No character of the string is white space. *)
Fixpoint no_space (s : string) : bool :=
  match s with
  | EmptyString => true
  | String c s' => negb (Py.isspace c) && no_space s'
  end.

(** What the table adapter reads off one row: its first two cells, if it
    has that many. *)
Definition row_address (cells : list string) : list string :=
  match cells with
  | c0 :: c1 :: _ => [(Py.strip c0 ++ ":" ++ Py.strip c1)%string]
  | _ => []
  end.

(** A page with a table of four rows: a header without cells, two rows for
    the same address and one for another. *)
Definition table_rows : list (list string) :=
  [ []; [" 1.2.3.4"; "80 "; "US"]; ["5.6.7.8"; "9999"]; ["1.2.3.4"; "80"; "DE"; "elite"] ].

Definition table_web : proxyScraper.Web :=
  {| proxyScraper.http_get := fun url => (Ok "<html>", 3%Z);
     proxyScraper.html_table := fun _ => Some table_rows;
     proxyScraper.set_order := fun l => rev l |}.

(** ** One probe, seen from outside *)

(** The request a call of [check] hands to [urlopen]: for [site], with the
    time limit it was given; the User-Agent header is set on the HTTP and
    HTTPS branch only. *)
Definition probe_request (self : Proxy) (site : string) (timeout : Z)
           (user_agent : string) : request :=
  {| full_url := site;
     user_agent_header := if Py.mem (method self) ["http"; "https"]
                          then Some user_agent else None;
     request_timeout := timeout |}.

(** What a call leaves of the state it does not own: it handed [sent] to
    the transport, printed [msgs], and read nothing off the random generator
    or the files. *)
Definition footprint (st st' : State) (sent : list packet) (msgs : list message) : Prop :=
  wire st' = wire st ++ sent /\ stdout st' = stdout st ++ msgs /\
  files st' = files st /\ rng st' = rng st.

(** ** A run, seen from outside *)

(** The calls of [urlopen] of a trace: the candidate whose thread made the
    call, and the route in force when it made it. *)
Definition urlopen_calls (tr : list event) : list (Proxy * route) :=
  flat_map (fun e => match e with
                     | Connected p r => [(p, r)]
                     | Returned _ _ _ => []
                     end) tr.

(** The candidates whose threads have called [urlopen], call by call. *)
Definition callers (tr : list event) : list Proxy := map fst (urlopen_calls tr).

(** The line a returned call prints under [verbose]. *)
Definition report_of (call : Proxy * string * outcome) : list message :=
  match call with
  | (p, _, (true, t, _)) => [IsValid (proxy p) t]
  | (p, _, (false, _, Some e)) => [IsNotValid (proxy p) e]
  | (p, _, (false, _, None)) => []
  end.

Definition reports (verbose : bool) (tr : list event) : list message :=
  if verbose then flat_map report_of (returned tr) else [].

(** The candidate of a thread that has not come to its call of [urlopen]. *)
Definition yet_to_call (t : thread) : list Proxy :=
  match t with
  | Created p _ | Chosen p _ | Configured p _ | Prepared p _ _ => [p]
  | Transferred _ _ _ | Finished | Died _ _ => []
  end.

(** A packet is the request of a call of [urlopen]: the probe request of the
    candidate whose thread made the call, on the route the trace has. *)
Definition sent_for (site : string) (timeout : Z) (pkt : packet) (c : Proxy * route) : Prop :=
  exists user_agent, pkt = Sent (snd c) (probe_request (fst c) site timeout user_agent).

(** A thread that stands at [urlopen] holds the request of its candidate. *)
Definition holds_request (site : string) (timeout : Z) (t : thread) : Prop :=
  match t with
  | Prepared p ua (Ok (_, req)) => req = probe_request p site timeout ua
  | _ => True
  end.

Definition Proxy_eq_dec (p q : Proxy) : {p = q} + {p <> q}.
Proof. decide equality; apply string_dec. Defined.

(** How often a candidate occurs in a list. *)
Definition occurrences (p : Proxy) (l : list Proxy) : nat := count_occ Proxy_eq_dec l p.

(** What the threads of a run started in [st0] on the candidates [init]
    have done so far, as the outside sees it: no file touched, one line
    printed per returned call under [verbose], one request handed over per
    call of [urlopen], and for no candidate more calls of [urlopen] than
    the candidate has entries in [init]. *)
Definition outside (site : string) (timeout : Z) (verbose : bool)
           (st0 : State) (init : list Proxy) (c : config) : Prop :=
  Forall (holds_request site timeout) (pool_of c) /\
  files (snd c) = files st0 /\
  stdout (snd c) = stdout st0 ++ reports verbose (trace (shared_of c)) /\
  (exists sent, wire (snd c) = wire st0 ++ sent /\
                Forall2 (sent_for site timeout) sent (urlopen_calls (trace (shared_of c)))) /\
  forall p, occurrences p (callers (trace (shared_of c))) +
            occurrences p (flat_map yet_to_call (pool_of c)) <= occurrences p init.



(** A thread on a run against a site whose URL has no scheme: it never
    holds a request. *)
Definition no_request (e : exn) (t : thread) : Prop :=
  match t with
  | Prepared _ _ r | Transferred _ _ r => r = Raise e
  | _ => True
  end.

(** On such a run [urlopen] is never called and no call returns valid. *)
Definition all_fail (e : exn) (st0 : State) (c : config) : Prop :=
  Forall (no_request e) (pool_of c) /\
  wire (snd c) = wire st0 /\
  Forall (fun call => snd call = (false, 0%Z, Some e)) (returned (trace (shared_of c))).

(** Every user agent in sight is one of the pool. *)
Definition agent_of (t : thread) : list string :=
  match t with
  | Created _ ua | Chosen _ ua | Configured _ ua | Prepared _ ua _ | Transferred _ ua _ => [ua]
  | Finished | Died _ _ => []
  end.

Definition agents_from (pool_ua : list string) (c : config) : Prop :=
  Forall (fun t => forall ua, In ua (agent_of t) -> In ua pool_ua) (pool_of c) /\
  Forall (fun call => In (snd (fst call)) pool_ua) (returned (trace (shared_of c))).

(** The list file of the examples, checked against a site given without a
    scheme, as the help of the option has it. *)
Definition schemeless_run : result (list event) * State :=
  check_proxies mock_env "google.com" 20 true false []
                "output.txt" "http" (boot three_lines [0; 0; 0]).

Definition schemeless_trace : list event :=
  match fst schemeless_run with Ok tr => tr | Raise _ => [] end.

(** ** A thread left alone *)

(** [n] steps of one thread, no other thread moving. *)
Fixpoint alone (env : Env) (site : string) (timeout : Z) (verbose random_user_agent : bool)
         (n : nat) (c : thread * Shared * State) : thread * Shared * State :=
  match n with
  | O => c
  | S n' =>
      let '(t, sh, st) := c in
      alone env site timeout verbose random_user_agent n'
            (thread_step env site timeout verbose random_user_agent t sh st)
  end.








(** The process-wide routing: the SOCKS default, the socket class and the
    installed opener. *)
Definition same_routing (st st' : State) : Prop :=
  default_proxy st' = default_proxy st /\ socket_socket st' = socket_socket st /\
  opener st' = opener st.

(** ** A scrape, seen from outside *)

(** The lines a scrape that returns prints under [verbose]. *)
Definition scrape_messages (verbose : bool) (n : nat) (elapsed : Z) : list message :=
  if verbose then [Scraping; Writing n; Done; Took elapsed] else [].

(** ** The port of a SOCKS candidate *)

(** A candidate whose port is above any TCP port. *)
Definition socks_high_port : Proxy := {| method := "socks4"; proxy := "1.1.1.1:99999" |}.

(** * Facts about strings *)

Lemma sapp_assoc (a b c : string) : ((a ++ b) ++ c = a ++ (b ++ c))%string.
Proof. induction a; simpl; congruence. Qed.

Lemma sapp_nil_r (a : string) : (a ++ "" = a)%string.
Proof. induction a; simpl; congruence. Qed.

Lemma slength_app (a b : string) :
  String.length (a ++ b) = String.length a + String.length b.
Proof. induction a; simpl; congruence. Qed.

Lemma slength_zero (a : string) : String.length a = 0 -> a = EmptyString.
Proof. destruct a; simpl; congruence. Qed.

Lemma all_digits_app (a b : string) :
  all_digits (a ++ b) = all_digits a && all_digits b.
Proof. induction a; simpl; [reflexivity | rewrite IHa, andb_assoc; reflexivity]. Qed.

(** * The matcher against the denotation of patterns *)

Section MatcherCorrect.
Variable A : Type.
Implicit Types (k : nat -> string -> option A).

Lemma rep_correct step L (Hstep : step_ok A step L) k :
  forall hi lo pos s,
    Re.rep step k lo hi pos s <> None <->
    exists n s1 s2, lo <= n <= hi /\ s = (s1 ++ s2)%string /\
                    Re.iter_lang L n pos s1 s2 /\
                    k (pos + String.length s1) s2 <> None.
Proof.
  induction hi as [|hi IH]; intros lo pos s; simpl.
  - split.
    + destruct (Nat.eqb_spec lo 0) as [->|]; [|congruence].
      intros Hk. exists 0, EmptyString, s. simpl. rewrite Nat.add_0_r. auto.
    + intros (n & s1 & s2 & Hn & -> & Hit & Hk).
      assert (n = 0) by lia. subst n. simpl in Hit. subst s1.
      assert (lo = 0) by lia. subst lo. simpl in *. rewrite Nat.add_0_r in Hk. exact Hk.
  - split.
    + destruct (step pos s (Re.rep step k (Nat.pred lo) hi)) eqn:E.
      * intros _.
        assert (Hne : step pos s (Re.rep step k (Nat.pred lo) hi) <> None) by congruence.
        apply Hstep in Hne. destruct Hne as (u & rest & -> & Hu & Hrest).
        apply IH in Hrest. destruct Hrest as (n & v & s2 & Hn & -> & Hit & Hk).
        exists (S n), (u ++ v)%string, s2. repeat split.
        -- lia.
        -- lia.
        -- symmetry. apply sapp_assoc.
        -- simpl. exists u, v. auto.
        -- rewrite slength_app, Nat.add_assoc. exact Hk.
      * destruct (Nat.eqb_spec lo 0) as [->|]; [|congruence].
        intros Hk. exists 0, EmptyString, s. simpl. rewrite Nat.add_0_r.
        repeat split; auto; lia.
    + intros (n & s1 & s2 & Hn & -> & Hit & Hk).
      destruct n as [|n]; simpl in Hit.
      * subst s1. assert (lo = 0) by lia. subst lo. simpl in *.
        rewrite Nat.add_0_r in Hk.
        destruct (step pos s2 (Re.rep step k 0 hi)); congruence.
      * destruct Hit as (u & v & -> & Hu & Hit).
        assert (Hne : step pos ((u ++ v) ++ s2)%string (Re.rep step k (Nat.pred lo) hi) <> None).
        { apply Hstep. exists u, (v ++ s2)%string. repeat split.
          - apply sapp_assoc.
          - exact Hu.
          - apply IH. exists n, v, s2. repeat split; auto; try lia.
            rewrite slength_app, Nat.add_assoc in Hk. exact Hk. }
        destruct (step pos ((u ++ v) ++ s2)%string (Re.rep step k (Nat.pred lo) hi));
          congruence.
Qed.

Lemma run_correct (r : Re.regex) : step_ok A (Re.run (A:=A) r) (Re.lang r).
Proof.
  induction r as [| | |a|r1 IH1 r2 IH2|r0 IH0 lo hi]; intros pos s k; simpl.
  - destruct (Nat.eqb_spec pos 0) as [->|Hp]; split.
    + intros Hk. exists EmptyString, s. auto.
    + intros (s1 & s2 & -> & [-> _] & Hk). exact Hk.
    + congruence.
    + intros (s1 & s2 & _ & [_ ?] & _). congruence.
  - split.
    + destruct (Re.at_eol s) eqn:E; [|congruence].
      intros Hk. exists EmptyString, s. rewrite Nat.add_0_r. auto.
    + intros (s1 & s2 & -> & [-> He] & Hk). simpl in *. rewrite He.
      rewrite Nat.add_0_r in Hk. exact Hk.
  - split.
    + destruct s as [|c s']; [congruence|].
      destruct (Py.isdigit c) eqn:E; [|congruence].
      intros Hk. exists (String c EmptyString), s'. simpl. rewrite Nat.add_1_r.
      repeat split; eauto.
    + intros (s1 & s2 & -> & (c & -> & Hc) & Hk). simpl in *. rewrite Hc.
      rewrite Nat.add_1_r in Hk. exact Hk.
  - split.
    + destruct s as [|c s']; [congruence|].
      destruct (Ascii.eqb_spec c a) as [->|]; [|congruence].
      intros Hk. exists (String a EmptyString), s'. simpl. rewrite Nat.add_1_r. auto.
    + intros (s1 & s2 & -> & -> & Hk). simpl in *. rewrite Ascii.eqb_refl.
      rewrite Nat.add_1_r in Hk. exact Hk.
  - split.
    + intros H. apply IH1 in H. destruct H as (u & rest & -> & Hu & H).
      apply IH2 in H. destruct H as (v & s2 & -> & Hv & Hk).
      exists (u ++ v)%string, s2. repeat split.
      * symmetry. apply sapp_assoc.
      * exists u, v. auto.
      * rewrite slength_app, Nat.add_assoc. exact Hk.
    + intros (s1 & s2 & -> & (u & v & -> & Hu & Hv) & Hk).
      apply IH1. exists u, (v ++ s2)%string. repeat split.
      * apply sapp_assoc.
      * exact Hu.
      * apply IH2. exists v, s2. repeat split; auto.
        rewrite slength_app, Nat.add_assoc in Hk. exact Hk.
  - rewrite (rep_correct _ _ IH0). split.
    + intros (n & s1 & s2 & Hn & -> & Hit & Hk). exists s1, s2. eauto.
    + intros (s1 & s2 & -> & (n & Hn & Hit) & Hk). exists n, s1, s2. auto.
Qed.
End MatcherCorrect.

(** * The address pattern *)

Lemma iter_digit_iff n : forall pos x rest,
  Re.iter_lang (Re.lang Re.Digit) n pos x rest <->
  String.length x = n /\ all_digits x = true.
Proof.
  induction n as [|n IH]; intros pos x rest; simpl.
  - split.
    + intros ->. auto.
    + intros [H _]. apply slength_zero. exact H.
  - split.
    + intros (u & v & -> & (c & -> & Hc) & Hit). apply IH in Hit.
      destruct Hit as [Hl Hd]. simpl. rewrite Hc, Hl, Hd. auto.
    + intros [Hl Hd]. destruct x as [|c x]; simpl in *; [discriminate|].
      apply andb_true_iff in Hd. destruct Hd as [Hc Hd].
      exists (String c EmptyString), x. repeat split; eauto.
      apply IH. split; [congruence | exact Hd].
Qed.

Lemma lang_digits lo hi pos x rest :
  Re.lang (Re.Rep Re.Digit lo hi) pos x rest <-> digit_group lo hi x.
Proof.
  simpl. unfold digit_group. split.
  - intros (n & Hn & Hit). apply iter_digit_iff in Hit. destruct Hit as [<- Hd]. auto.
  - intros [Hn Hd]. exists (String.length x). split; [exact Hn|].
    apply iter_digit_iff. auto.
Qed.

Lemma lang_dot_group pos x rest :
  Re.lang (Re.Seq (Re.Lit ".") (Re.Rep Re.Digit 1 3)) pos x rest <->
  exists g, x = String "." g /\ digit_group 1 3 g.
Proof.
  split.
  - intros (u & v & -> & Hu & Hv). simpl in Hu. subst u.
    apply lang_digits in Hv. exists v. auto.
  - intros (g & -> & Hg). exists (String "." EmptyString), g. repeat split.
    apply lang_digits. exact Hg.
Qed.

Lemma lang_address_body pos x rest :
  Re.lang Re.address_body pos x rest <-> ipv4_port x.
Proof.
  unfold Re.address_body, ipv4_port. split.
  - intros (a & r1 & -> & Ha & (g & r2 & -> & (n & Hn & Hg) & (col & p & -> & Hcol & Hp))).
    apply lang_digits in Ha. apply lang_digits in Hp.
    assert (n = 3) by lia. subst n.
    destruct Hg as (g1 & t1 & -> & H1 & (g2 & t2 & -> & H2 & (g3 & t3 & -> & H3 & Ht))).
    simpl in Ht. subst t3.
    apply lang_dot_group in H1. apply lang_dot_group in H2. apply lang_dot_group in H3.
    destruct H1 as (b & -> & Hb). destruct H2 as (c & -> & Hc). destruct H3 as (d & -> & Hd).
    simpl in Hcol. subst col.
    exists a, b, c, d, p. split; [|tauto].
    f_equal. simpl. rewrite sapp_nil_r.
    rewrite !sapp_assoc. simpl. rewrite !sapp_assoc. reflexivity.
  - intros (a & b & c & d & p & -> & Ha & Hb & Hc & Hd & Hp).
    exists a, (String "." b ++ String "." c ++ String "." d ++ String ":" p)%string.
    split; [reflexivity|]. split; [apply lang_digits; exact Ha|].
    exists (String "." b ++ String "." c ++ String "." d)%string, (String ":" p).
    split; [rewrite !sapp_assoc; reflexivity|]. split.
    + exists 3. split; [lia|].
      exists (String "." b), (String "." c ++ String "." d)%string.
      split; [reflexivity|]. split; [apply lang_dot_group; eauto|].
      exists (String "." c), (String "." d).
      split; [reflexivity|]. split; [apply lang_dot_group; eauto|].
      exists (String "." d), EmptyString.
      split; [rewrite sapp_nil_r; reflexivity|]. split; [apply lang_dot_group; eauto|].
      reflexivity.
    + exists (String ":" EmptyString), p. split; [reflexivity|].
      split; [reflexivity | apply lang_digits; exact Hp].
Qed.

Lemma at_eol_iff (s : string) :
  Re.at_eol s = true <-> s = EmptyString \/ s = newline.
Proof.
  unfold Re.at_eol, newline, LF. split.
  - destruct s as [|c [|d s]]; auto; [|discriminate].
    intros H. apply Ascii.eqb_eq in H. subst c. auto.
  - intros [-> | ->]; reflexivity.
Qed.

(** What [Proxy.is_valid] accepts: an address, with a line feed after it or
    nothing. *)
Lemma is_valid_iff (self : proxyChecker.Proxy) :
  proxyChecker.Proxy.is_valid self = true <->
  exists x tail, proxyChecker.proxy self = (x ++ tail)%string /\ ipv4_port x /\
                 (tail = EmptyString \/ tail = newline).
Proof.
  unfold proxyChecker.Proxy.is_valid, Re.match_.
  set (k := fun (pos : nat) (_ : string) => Some pos).
  assert (Hiff : Re.run proxyChecker.Proxy.pattern 0 (proxyChecker.proxy self) k <> None <->
                 exists x tail, proxyChecker.proxy self = (x ++ tail)%string /\ ipv4_port x /\
                                (tail = EmptyString \/ tail = newline)).
  { rewrite (run_correct nat proxyChecker.Proxy.pattern 0 (proxyChecker.proxy self) k).
    unfold proxyChecker.Proxy.pattern. split.
    - intros (s1 & s2 & Hs & (u & v & -> & [-> _] & (x & e & -> & Hx & [-> He])) & _).
      simpl in Hs. rewrite sapp_nil_r in Hs.
      exists x, s2. split; [exact Hs|]. split.
      + apply lang_address_body in Hx. exact Hx.
      + apply at_eol_iff. exact He.
    - intros (x & tail & Hs & Hx & Ht).
      exists x, tail. split; [exact Hs|]. split; [|unfold k; discriminate].
      exists EmptyString, x. split; [reflexivity|]. split; [split; reflexivity|].
      exists x, EmptyString. split; [rewrite sapp_nil_r; reflexivity|]. split.
      + apply lang_address_body. exact Hx.
      + split; [reflexivity | apply at_eol_iff; exact Ht]. }
  destruct (Re.run proxyChecker.Proxy.pattern 0 (proxyChecker.proxy self) k) eqn:E.
  - split; [intros _; apply Hiff; discriminate | reflexivity].
  - split; [discriminate | intros H; apply Hiff in H; congruence].
Qed.

Lemma address_chars_app (a b : string) :
  address_chars (a ++ b) = address_chars a && address_chars b.
Proof. induction a; simpl; [reflexivity | rewrite IHa, andb_assoc; reflexivity]. Qed.

Lemma digits_address_chars (s : string) : all_digits s = true -> address_chars s = true.
Proof.
  induction s as [|c s IH]; simpl; [reflexivity|].
  intros H. apply andb_true_iff in H. destruct H as [Hc Hs].
  unfold address_char. rewrite Hc, (IH Hs). reflexivity.
Qed.

(** An address is made of digits, dots and one colon: no other character. *)
Lemma ipv4_port_chars (raw : string) : ipv4_port raw -> address_chars raw = true.
Proof.
  intros (a & b & c & d & p & -> & [_ Ha] & [_ Hb] & [_ Hc] & [_ Hd] & [_ Hp]).
  repeat (rewrite address_chars_app; simpl).
  rewrite !digits_address_chars by assumption. reflexivity.
Qed.

(** C5, as the code has it: [Proxy.is_valid] accepts exactly the strings made
    of four dot-separated groups of 1-3 digits, a colon and 1-5 digits, with
    nothing before, and after them nothing or one final line feed (the [$] of
    the pattern); "1.2.3.4:80" and "999.999.999.999:99999" are accepted,
    "1.2.3:80" and "1.2.3.4" rejected. *)
Theorem is_valid_spec :
  (forall self : proxyChecker.Proxy,
      proxyChecker.Proxy.is_valid self = true <->
      (ipv4_port (proxyChecker.proxy self) \/
       exists r, proxyChecker.proxy self = (r ++ newline)%string /\ ipv4_port r)) /\
  (forall m : string,
      proxyChecker.Proxy.is_valid
        {| proxyChecker.method := m; proxyChecker.proxy := "1.2.3.4:80" |} = true /\
      proxyChecker.Proxy.is_valid
        {| proxyChecker.method := m; proxyChecker.proxy := "999.999.999.999:99999" |} = true /\
      proxyChecker.Proxy.is_valid
        {| proxyChecker.method := m; proxyChecker.proxy := "1.2.3:80" |} = false /\
      proxyChecker.Proxy.is_valid
        {| proxyChecker.method := m; proxyChecker.proxy := "1.2.3.4" |} = false).
Proof.
  split.
  - intros self. rewrite is_valid_iff. split.
    + intros (x & tail & Hs & Hx & [-> | ->]).
      * left. rewrite sapp_nil_r in Hs. rewrite Hs. exact Hx.
      * right. exists x. auto.
    + intros [Hx | (r & Hs & Hr)].
      * exists (proxyChecker.proxy self), EmptyString. rewrite sapp_nil_r. auto.
      * exists r, newline. auto.
  - intros m. repeat split; reflexivity.
Qed.

(** C5, the claim as it stands fails: the address followed by a line feed is
    accepted, although something comes after the port. *)
Lemma is_valid_trailing_newline :
  proxyChecker.Proxy.is_valid
    {| proxyChecker.method := "http";
       proxyChecker.proxy := ("1.2.3.4:80" ++ newline)%string |} = true /\
  ~ ipv4_port ("1.2.3.4:80" ++ newline)%string.
Proof.
  split; [reflexivity|].
  intros H. apply ipv4_port_chars in H. discriminate H.
Qed.

(** * [Proxy.check], one call on its own *)


Lemma check_phases env self site timeout user_agent verbose st :
  Proxy.check env self site timeout user_agent verbose st =
  match Proxy.check_configure self st with
  | (Ok _, st0) => check_after_configure env self site timeout user_agent verbose st0
  | (Raise e, st0) => (Raise e, st0)
  end.
Proof.
  unfold Proxy.check, Proxy.check_configure, check_after_configure, Proxy.check_prepare,
    Proxy.check_finish, try_except, bind, lift.
  destruct (Py.unpack2 (Py.split ":" (proxy self))) as [[proxy_host proxy_port]|e];
    [|reflexivity].
  assert (Hopen : forall req st0 start_time,
    match
      match urlopen env req st0 with
      | (Ok _, st4) =>
          match verbose_print verbose
                  (IsValid (proxy self) (clock st4 - start_time)) st4 with
          | (Ok _, st6) => (Ok (true, (clock st4 - start_time)%Z, None), st6)
          | (Raise e, st6) => (Raise e, st6)
          end
      | (Raise e, st4) => (Raise e, st4)
      end
    with
    | (Ok a, st') => (Ok a, st')
    | (Raise e, st') =>
        match verbose_print verbose (IsNotValid (proxy self) e) st' with
        | (Ok _, st'') => (Ok (false, 0%Z, Some e), st'')
        | (Raise e', st'') => (Raise e', st'')
        end
    end =
    match urlopen env req st0 with
    | (Ok _, st2) =>
        match verbose_print verbose
                (IsValid (proxy self) (clock st2 - start_time)) st2 with
        | (Ok _, st4) => (Ok (true, (clock st2 - start_time)%Z, None), st4)
        | (Raise e, st4) => (Raise e, st4)
        end
    | (Raise e, st2) =>
        match verbose_print verbose (IsNotValid (proxy self) e) st2 with
        | (Ok _, st3) => (Ok (false, 0%Z, Some e), st3)
        | (Raise e', st3) => (Raise e', st3)
        end
    end).
  { intros req st0 start_time.
    destruct (urlopen env req st0) as [[[]|e] st1]; [|reflexivity].
    unfold verbose_print, print, ret. destruct verbose; reflexivity. }
  destruct (Py.mem (method self) ["socks4"; "socks5"]);
    [destruct (Py.int proxy_port); [|reflexivity]|];
    unfold set_default_proxy, set_socket_socket, time, install_opener, ret;
    cbv beta iota;
    destruct (Py.mem (method self) ["http"; "https"]);
    match goal with
    | |- context [Request site ?ua timeout] =>
        destruct (Request site ua timeout) as [req|e]; [apply Hopen | reflexivity]
    end.
Qed.

(** ** A valid address never makes [check] raise *)

Lemma no_colon_app (a b : string) : no_colon (a ++ b) = no_colon a && no_colon b.
Proof. induction a; simpl; [reflexivity | rewrite IHa, andb_assoc; reflexivity]. Qed.

Lemma isdigit_cases (c : ascii) :
  Py.isdigit c = true ->
  In c ["0"; "1"; "2"; "3"; "4"; "5"; "6"; "7"; "8"; "9"]%char.
Proof.
  destruct c as [[] [] [] [] [] [] [] []]; intros H; try discriminate H; simpl; tauto.
Qed.

Lemma digits_no_colon (s : string) : all_digits s = true -> no_colon s = true.
Proof.
  induction s as [|c s IH]; simpl; [reflexivity|].
  intros H. apply andb_true_iff in H. destruct H as [Hc Hs]. rewrite (IH Hs).
  apply isdigit_cases in Hc. simpl in Hc.
  repeat (destruct Hc as [<-|Hc]; [reflexivity|]). contradiction.
Qed.

Lemma split_no_colon (s : string) : no_colon s = true -> Py.split ":" s = [s].
Proof.
  induction s as [|c s IH]; simpl; [reflexivity|].
  intros H. apply andb_true_iff in H. destruct H as [Hc Hs].
  apply negb_true_iff in Hc. rewrite Hc, (IH Hs). reflexivity.
Qed.

Lemma split_at_colon (h rest : string) :
  no_colon h = true -> Py.split ":" (h ++ String ":" rest) = h :: Py.split ":" rest.
Proof.
  induction h as [|c h IH]; simpl; [reflexivity|].
  intros H. apply andb_true_iff in H. destruct H as [Hc Hs].
  apply negb_true_iff in Hc. rewrite Hc, (IH Hs). reflexivity.
Qed.

Lemma rstrip_digits (d : string) : all_digits d = true -> Py.rstrip d = d.
Proof.
  induction d as [|c d IH]; simpl; [reflexivity|].
  intros H. apply andb_true_iff in H. destruct H as [Hc Hd]. rewrite (IH Hd).
  destruct d; [|reflexivity].
  apply isdigit_cases in Hc. simpl in Hc.
  repeat (destruct Hc as [<-|Hc]; [reflexivity|]). contradiction.
Qed.

Lemma rstrip_digits_newline (d : string) :
  all_digits d = true -> Py.rstrip (d ++ newline) = d.
Proof.
  induction d as [|c d IH]; simpl; [reflexivity|].
  intros H. apply andb_true_iff in H. destruct H as [Hc Hd]. rewrite (IH Hd).
  destruct d; [|reflexivity].
  apply isdigit_cases in Hc. simpl in Hc.
  repeat (destruct Hc as [<-|Hc]; [reflexivity|]). contradiction.
Qed.

Lemma int_rstrip_digits (d : string) : all_digits d = true -> Py.int_rstrip d = d.
Proof.
  induction d as [|c d IH]; simpl; [reflexivity|].
  intros H. apply andb_true_iff in H. destruct H as [Hc Hd]. rewrite (IH Hd).
  destruct d; [|reflexivity].
  apply isdigit_cases in Hc. simpl in Hc.
  repeat (destruct Hc as [<-|Hc]; [reflexivity|]). contradiction.
Qed.

Lemma int_rstrip_digits_newline (d : string) :
  all_digits d = true -> Py.int_rstrip (d ++ newline) = d.
Proof.
  induction d as [|c d IH]; simpl; [reflexivity|].
  intros H. apply andb_true_iff in H. destruct H as [Hc Hd]. rewrite (IH Hd).
  destruct d; [|reflexivity].
  apply isdigit_cases in Hc. simpl in Hc.
  repeat (destruct Hc as [<-|Hc]; [reflexivity|]). contradiction.
Qed.

(** The white space [int] skips leaves a group of digits, and the line feed
    after it, as [str.strip] would. *)
Lemma int_strip_digits (d tail : string) :
  all_digits d = true -> d <> EmptyString ->
  tail = EmptyString \/ tail = newline ->
  Py.int_rstrip (Py.int_lstrip (d ++ tail)) = d.
Proof.
  intros Hd Hne Ht. destruct d as [|c d]; [congruence|].
  assert (Hl : Py.int_lstrip (String c d ++ tail) = (String c d ++ tail)%string).
  { simpl in Hd. apply andb_true_iff in Hd. destruct Hd as [Hc _].
    apply isdigit_cases in Hc. simpl in Hc.
    repeat (destruct Hc as [<-|Hc]; [reflexivity|]). contradiction. }
  rewrite Hl. destruct Ht as [-> | ->].
  - rewrite sapp_nil_r. apply int_rstrip_digits. exact Hd.
  - apply int_rstrip_digits_newline. exact Hd.
Qed.

Lemma digits_value_some (d : string) :
  all_digits d = true -> forall acc, exists z, Py.digits_value acc d = Some z.
Proof.
  induction d as [|c d IH]; simpl; intros H acc; [eauto|].
  apply andb_true_iff in H. destruct H as [Hc Hd]. rewrite Hc. apply IH. exact Hd.
Qed.

(** [int] reads a group of digits, also when a line feed follows it. *)
Lemma int_digits (d tail : string) :
  all_digits d = true -> d <> EmptyString ->
  tail = EmptyString \/ tail = newline ->
  exists z, Py.int (d ++ tail) = Ok z.
Proof.
  intros Hd Hne Ht.
  unfold Py.int. rewrite (int_strip_digits d tail Hd Hne Ht).
  destruct d as [|c d]; [congruence|].
  destruct (digits_value_some _ Hd 0%Z) as [z Hz].
  simpl in Hd. apply andb_true_iff in Hd. destruct Hd as [Hc _].
  exists z. apply isdigit_cases in Hc. simpl in Hc.
  repeat (destruct Hc as [<-|Hc]; [rewrite Hz; reflexivity|]). contradiction.
Qed.

Lemma configure_valid (self : Proxy) :
  Proxy.is_valid self = true ->
  forall st, exists st', Proxy.check_configure self st = (Ok tt, st').
Proof.
  intros Hv st. apply is_valid_iff in Hv.
  destruct Hv as (x & tail & Hs & (a & b & c & d & p & -> & Ha & Hb & Hc & Hd & Hp) & Ht).
  unfold Proxy.check_configure, bind, lift. rewrite Hs.
  replace ((a ++ "." ++ b ++ "." ++ c ++ "." ++ d ++ ":" ++ p) ++ tail)%string
    with ((a ++ "." ++ b ++ "." ++ c ++ "." ++ d) ++ String ":" (p ++ tail))%string
    by (repeat (rewrite ?sapp_assoc; simpl); reflexivity).
  destruct Ha as [_ Ha], Hb as [_ Hb], Hc as [_ Hc], Hd as [_ Hd], Hp as [Hlp Hp].
  rewrite split_at_colon, split_no_colon.
  - simpl Py.unpack2. cbv beta iota.
    destruct (Py.mem (method self) ["socks4"; "socks5"]).
    + destruct (int_digits p tail Hp) as [z Hz]; auto.
      { intros ->. simpl in Hlp. lia. }
      rewrite Hz. unfold set_default_proxy, set_socket_socket. eauto.
    + unfold ret. eauto.
  - rewrite no_colon_app, (digits_no_colon _ Hp).
    destruct Ht as [-> | ->]; reflexivity.
  - repeat (rewrite no_colon_app; simpl).
    rewrite !digits_no_colon by assumption. reflexivity.
Qed.

Lemma finish_total self verbose r st :
  exists o st', Proxy.check_finish self verbose r st = (Ok o, st').
Proof.
  unfold Proxy.check_finish, bind, time, verbose_print, print, ret.
  destruct r; destruct verbose; eauto.
Qed.

Lemma check_after_configure_total env self site timeout user_agent verbose st :
  exists o st', check_after_configure env self site timeout user_agent verbose st = (Ok o, st').
Proof.
  unfold check_after_configure.
  destruct (Proxy.check_prepare self site timeout user_agent st) as [[[start_time req]|e] st1].
  - destruct (urlopen env req st1) as [[[]|e] st2]; apply finish_total.
  - apply finish_total.
Qed.

(** A call of [check] on a valid address returns a triple, whatever the state
    and the network. *)
Lemma check_total env self site timeout user_agent verbose st :
  Proxy.is_valid self = true ->
  exists o st', Proxy.check env self site timeout user_agent verbose st = (Ok o, st').
Proof.
  intros Hv. rewrite check_phases.
  destruct (configure_valid self Hv st) as [st0 ->].
  apply check_after_configure_total.
Qed.

(** The triple [check] returns has one of two shapes. *)
Lemma finish_shape self verbose r st b t err st' :
  Proxy.check_finish self verbose r st = (Ok (b, t, err), st') ->
  (b = true /\ err = None) \/ (b = false /\ t = 0%Z /\ exists e, err = Some e /\ r = Raise e).
Proof.
  unfold Proxy.check_finish, bind, time, verbose_print, print, ret.
  destruct r as [start_time|e]; destruct verbose; intros H; inversion H; subst; eauto 6.
Qed.

(** * The threads of [check_proxies] *)

Lemma returned_app tr1 tr2 : returned (tr1 ++ tr2) = returned tr1 ++ returned tr2.
Proof. unfold returned. apply flat_map_app. Qed.

Lemma probed_app tr1 tr2 : probed (tr1 ++ tr2) = probed tr1 ++ probed tr2.
Proof. unfold probed. rewrite returned_app. apply map_app. Qed.

Lemma survivors_app tr1 tr2 : survivors (tr1 ++ tr2) = survivors tr1 ++ survivors tr2.
Proof. unfold survivors. rewrite returned_app, filter_app. apply map_app. Qed.

Section ThreadSteps.
Variable env : Env.
Variables (site : string) (timeout : Z) (verbose random_user_agent : bool).

Abbreviation step := (thread_step env site timeout verbose random_user_agent).

(** [valid_proxies] holds the candidates of the successful calls, in the
    order the calls returned. *)
Lemma step_survivors t sh st t' sh' st' :
  step t sh st = (t', sh', st') ->
  valid_proxies sh = survivors (trace sh) ->
  valid_proxies sh' = survivors (trace sh').
Proof.
  intros Hstep Hinv. destruct t as [p ua|p ua|p ua|p ua [[start_time req]|e]|p ua r| |p e];
    simpl in Hstep.
  - destruct (if random_user_agent then _ else _) as [[ua'|e] st1];
      inversion Hstep; subst; exact Hinv.
  - destruct (Proxy.check_configure p st) as [[[]|e] st1];
      inversion Hstep; subst; exact Hinv.
  - destruct (Proxy.check_prepare p site timeout ua st) as [r st1].
    inversion Hstep; subst; exact Hinv.
  - destruct (urlopen env req st) as [r st1]. inversion Hstep; subst. simpl.
    rewrite survivors_app. simpl. rewrite app_nil_r. exact Hinv.
  - inversion Hstep; subst; exact Hinv.
  - destruct (Proxy.check_finish p verbose r st) as [[[[b t0] err]|e] st1];
      inversion Hstep; subst; simpl; [|exact Hinv].
    rewrite survivors_app, Hinv. unfold survivors. simpl.
    destruct b; simpl; [reflexivity | rewrite app_nil_r; reflexivity].
  - inversion Hstep; subst; exact Hinv.
  - inversion Hstep; subst; exact Hinv.
Qed.

(** A step moves a candidate from the thread to the trace, or leaves it. *)
Lemma step_charge t sh st t' sh' st' :
  step t sh st = (t', sh', st') ->
  Permutation (charge t' ++ probed (trace sh')) (charge t ++ probed (trace sh)).
Proof.
  intros Hstep. destruct t as [p ua|p ua|p ua|p ua [[start_time req]|e]|p ua r| |p e];
    simpl in Hstep.
  - destruct (if random_user_agent then _ else _) as [[ua'|e] st1];
      inversion Hstep; subst; reflexivity.
  - destruct (Proxy.check_configure p st) as [[[]|e] st1];
      inversion Hstep; subst; reflexivity.
  - destruct (Proxy.check_prepare p site timeout ua st) as [r st1].
    inversion Hstep; subst; reflexivity.
  - destruct (urlopen env req st) as [r st1]. inversion Hstep; subst. simpl.
    rewrite probed_app. simpl. rewrite app_nil_r. reflexivity.
  - inversion Hstep; subst; reflexivity.
  - destruct (Proxy.check_finish p verbose r st) as [[[[b t0] err]|e] st1];
      inversion Hstep; subst; simpl; [|reflexivity].
    rewrite probed_app. simpl. apply Permutation_sym, Permutation_cons_append.
  - inversion Hstep; subst; reflexivity.
  - inversion Hstep; subst; reflexivity.
Qed.

Lemma step_rank t sh st t' sh' st' :
  step t sh st = (t', sh', st') -> rank t' <= Nat.pred (rank t).
Proof.
  intros Hstep. destruct t as [p ua|p ua|p ua|p ua [[start_time req]|e]|p ua r| |p e];
    simpl in Hstep.
  - destruct (if random_user_agent then _ else _) as [[ua'|e] st1];
      inversion Hstep; subst; simpl; lia.
  - destruct (Proxy.check_configure p st) as [[[]|e] st1];
      inversion Hstep; subst; simpl; lia.
  - destruct (Proxy.check_prepare p site timeout ua st) as [r st1].
    inversion Hstep; subst; simpl; lia.
  - destruct (urlopen env req st) as [r st1]. inversion Hstep; subst. simpl. lia.
  - inversion Hstep; subst; simpl; lia.
  - destruct (Proxy.check_finish p verbose r st) as [[[[b t0] err]|e] st1];
      inversion Hstep; subst; simpl; lia.
  - inversion Hstep; subst; simpl; lia.
  - inversion Hstep; subst; simpl; lia.
Qed.

(** With a user agent to choose from, a thread probing a valid address is
    never ended by an exception. *)
Lemma step_healthy t sh st t' sh' st' :
  (random_user_agent = true -> user_agents env <> []) ->
  step t sh st = (t', sh', st') -> healthy t -> healthy t'.
Proof.
  intros Hua Hstep Ht.
  destruct t as [p ua|p ua|p ua|p ua [[start_time req]|e]|p ua r| |p e]; simpl in Hstep, Ht.
  - destruct random_user_agent.
    + unfold random_choice in Hstep. destruct (user_agents env) as [|x uas].
      * exfalso. apply Hua; reflexivity.
      * inversion Hstep; subst; exact Ht.
    + inversion Hstep; subst; exact Ht.
  - destruct (configure_valid p Ht st) as [st1 Hc]. rewrite Hc in Hstep.
    inversion Hstep; subst; exact Ht.
  - destruct (Proxy.check_prepare p site timeout ua st) as [r st1].
    inversion Hstep; subst; exact Ht.
  - destruct (urlopen env req st) as [r st1]. inversion Hstep; subst. exact Ht.
  - inversion Hstep; subst; exact Ht.
  - destruct (finish_total p verbose r st) as ([[b t0] err] & st1 & Hf). rewrite Hf in Hstep.
    inversion Hstep; subst. exact I.
  - inversion Hstep; subst; exact I.
  - contradiction.
Qed.

End ThreadSteps.

Section Pool.
Variable env : Env.
Variables (site : string) (timeout : Z) (verbose random_user_agent : bool).

Abbreviation step := (thread_step env site timeout verbose random_user_agent).
Abbreviation step_at' := (step_at env site timeout verbose random_user_agent).
Abbreviation join' := (join env site timeout verbose random_user_agent).
Abbreviation run_threads' := (run_threads env site timeout verbose random_user_agent).

Lemma set_nth_split t' t l2 : forall l1,
  set_nth (length l1) t' (l1 ++ t :: l2) = l1 ++ t' :: l2.
Proof. induction l1 as [|t0 l1 IH]; simpl; [reflexivity | rewrite IH; reflexivity]. Qed.

Lemma step_at_split l1 t l2 sh st :
  step_at' (length l1) (l1 ++ t :: l2, sh, st) =
  let '(t', sh', st') := step t sh st in (l1 ++ t' :: l2, sh', st').
Proof.
  unfold step_at. rewrite nth_error_app2 by lia. rewrite Nat.sub_diag. simpl.
  destruct (step t sh st) as [[t' sh'] st']. rewrite set_nth_split. reflexivity.
Qed.

(** A scheduler step changes nothing, or steps one thread in place. *)
Lemma step_at_cases k c :
  step_at' k c = c \/
  exists l1 t l2 sh st t' sh' st',
    c = (l1 ++ t :: l2, sh, st) /\ step t sh st = (t', sh', st') /\
    step_at' k c = (l1 ++ t' :: l2, sh', st').
Proof.
  destruct c as [[pool sh] st].
  destruct (nth_error pool k) as [t|] eqn:E.
  - right. apply nth_error_split in E. destruct E as (l1 & l2 & -> & <-).
    destruct (step t sh st) as [[t' sh'] st'] eqn:Es.
    exists l1, t, l2, sh, st, t', sh', st'. repeat split; auto.
    rewrite step_at_split, Es. reflexivity.
  - left. unfold step_at. rewrite E. reflexivity.
Qed.

Section Preserved.
Variable P : config -> Prop.
Hypothesis P_step : forall l1 t l2 sh st t' sh' st',
  P (l1 ++ t :: l2, sh, st) -> step t sh st = (t', sh', st') ->
  P (l1 ++ t' :: l2, sh', st').

Lemma step_at_preserves k c : P c -> P (step_at' k c).
Proof.
  intros Hc. destruct (step_at_cases k c) as [-> | H]; [exact Hc|].
  destruct H as (l1 & t & l2 & sh & st & t' & sh' & st' & -> & Hs & ->). eauto.
Qed.

Lemma join_preserves k c : P c -> P (join' k c).
Proof. intros Hc. unfold join. repeat apply step_at_preserves. exact Hc. Qed.

Lemma run_threads_preserves sched pool st :
  P (pool, {| valid_proxies := []; trace := [] |}, st) -> P (run_threads' sched pool st).
Proof.
  intros H0. unfold run_threads.
  assert (Hs : forall sched c, P c -> P (fold_left (fun c k => step_at' k c) sched c)).
  { intros sc. induction sc as [|k sc IH]; simpl; auto using step_at_preserves. }
  assert (Hj : forall ks c, P c -> P (fold_left (fun c k => join' k c) ks c)).
  { intros ks. induction ks as [|k ks IH]; simpl; auto using join_preserves. }
  apply Hj, Hs, H0.
Qed.
End Preserved.

Lemma accounts_step init l1 t l2 sh st t' sh' st' :
  accounts init (l1 ++ t :: l2, sh, st) -> step t sh st = (t', sh', st') ->
  accounts init (l1 ++ t' :: l2, sh', st').
Proof.
  unfold accounts, charges, pool_of, shared_of. simpl. intros [Hv Hp] Hs. split.
  - eapply step_survivors; eauto.
  - etransitivity; [|exact Hp]. rewrite !flat_map_app. simpl.
    rewrite <- !app_assoc. apply Permutation_app_head.
    etransitivity; [apply Permutation_app_swap_app|].
    etransitivity; [|apply Permutation_app_swap_app].
    apply Permutation_app_head. eapply step_charge; eauto.
Qed.

Lemma healthy_step l1 t l2 sh st t' sh' st' :
  (random_user_agent = true -> user_agents env <> []) ->
  Forall healthy (pool_of (l1 ++ t :: l2, sh, st)) -> step t sh st = (t', sh', st') ->
  Forall healthy (pool_of (l1 ++ t' :: l2, sh', st')).
Proof.
  unfold pool_of. simpl. intros Hua H Hs.
  apply Forall_app in H. destruct H as [H1 H2]. inversion H2; subst.
  apply Forall_app. split; [exact H1|]. constructor; [|assumption].
  eapply step_healthy; eauto.
Qed.

(** ** Every thread ends *)

Lemma join_split l1 t l2 sh st :
  exists t' sh' st',
    join' (length l1) (l1 ++ t :: l2, sh, st) = (l1 ++ t' :: l2, sh', st') /\ rank t' = 0.
Proof.
  unfold join.
  assert (Hone : forall t sh st, exists t' sh' st',
             step_at' (length l1) (l1 ++ t :: l2, sh, st) = (l1 ++ t' :: l2, sh', st') /\
             rank t' <= Nat.pred (rank t)).
  { intros t0 sh0 st0. rewrite step_at_split.
    destruct (step t0 sh0 st0) as [[t' sh'] st'] eqn:E.
    exists t', sh', st'. split; [reflexivity|]. eapply step_rank; eauto. }
  destruct (Hone t sh st) as (t1 & sh1 & st1 & -> & H1).
  destruct (Hone t1 sh1 st1) as (t2 & sh2 & st2 & -> & H2).
  destruct (Hone t2 sh2 st2) as (t3 & sh3 & st3 & -> & H3).
  destruct (Hone t3 sh3 st3) as (t4 & sh4 & st4 & -> & H4).
  destruct (Hone t4 sh4 st4) as (t5 & sh5 & st5 & -> & H5).
  exists t5, sh5, st5. split; [reflexivity|].
  assert (rank t <= 5) by (destruct t; simpl; lia). lia.
Qed.

Lemma joins_end : forall todo done sh st,
  Forall (fun t => rank t = 0) done ->
  Forall (fun t => rank t = 0)
         (pool_of (fold_left (fun c k => join' k c)
                             (seq (length done) (length todo)) (done ++ todo, sh, st))).
Proof.
  induction todo as [|t todo IH]; intros done sh st Hd; simpl.
  - unfold pool_of. simpl. rewrite app_nil_r. exact Hd.
  - destruct (join_split done t todo sh st) as (t' & sh' & st' & -> & Ht').
    replace (done ++ t' :: todo) with ((done ++ [t']) ++ todo)
      by (rewrite <- app_assoc; reflexivity).
    replace (S (length done)) with (length (done ++ [t']))
      by (rewrite length_app; simpl; lia).
    apply IH. apply Forall_app. split; [exact Hd | constructor; auto].
Qed.

Lemma length_preserved c k : length (pool_of (step_at' k c)) = length (pool_of c).
Proof.
  destruct (step_at_cases k c) as [-> | H]; [reflexivity|].
  destruct H as (l1 & t & l2 & sh & st & t' & sh' & st' & -> & _ & ->).
  unfold pool_of. simpl. rewrite !length_app. reflexivity.
Qed.

Lemma steps_length sched : forall c,
  length (pool_of (fold_left (fun c k => step_at' k c) sched c)) = length (pool_of c).
Proof.
  induction sched as [|k sched IH]; intros c; simpl; [reflexivity|].
  rewrite IH. apply length_preserved.
Qed.

(** After the joins every thread has returned or died. *)
Lemma run_threads_ends sched pool st :
  Forall (fun t => rank t = 0) (pool_of (run_threads' sched pool st)).
Proof.
  unfold run_threads.
  pose proof (steps_length sched (pool, {| valid_proxies := []; trace := [] |}, st)) as Hlen.
  destruct (fold_left (fun c k => step_at' k c) sched
                      (pool, {| valid_proxies := []; trace := [] |}, st))
    as [[pool1 sh1] st1].
  unfold pool_of in Hlen. simpl in Hlen. rewrite <- Hlen.
  apply (joins_end pool1 [] sh1 st1). constructor.
Qed.

End Pool.

(** * A whole run of [check_proxies] *)

Lemma mapM_lift_ok {A B} (f : A -> result B) (g : A -> B) (l : list A) st :
  (forall a, f a = Ok (g a)) -> mapM (fun a => lift (f a)) l st = (Ok (map g l), st).
Proof.
  intros Hf. induction l as [|a l IH]; [reflexivity|].
  cbn [mapM]. unfold bind at 1. unfold lift at 1. rewrite Hf.
  unfold bind at 1. rewrite IH. reflexivity.
Qed.

Lemma init_supported method raw :
  supported method = true ->
  Proxy.__init__ method raw = Ok {| method := Py.lower method; proxy := raw |}.
Proof. unfold Proxy.__init__. fold (supported method). intros ->. reflexivity. Qed.

Lemma init_unsupported method raw :
  supported method = false ->
  Proxy.__init__ method raw =
  Raise (NotImplementedError "Only HTTP, HTTPS, SOCKS4, and SOCKS5 are supported").
Proof. unfold Proxy.__init__. fold (supported method). intros ->. reflexivity. Qed.

Lemma construct_supported method lines st :
  supported method = true ->
  mapM (fun line => lift (Proxy.__init__ method (Py.strip line))) lines st =
  (Ok (candidates method lines), st).
Proof.
  intros Hm. unfold candidates.
  apply (mapM_lift_ok (fun line => Proxy.__init__ method (Py.strip line))).
  intros line. apply init_supported. exact Hm.
Qed.

Lemma construct_unsupported method line lines st :
  supported method = false ->
  mapM (fun line => lift (Proxy.__init__ method (Py.strip line))) (line :: lines) st =
  (Raise (NotImplementedError "Only HTTP, HTTPS, SOCKS4, and SOCKS5 are supported"), st).
Proof.
  intros Hm. cbn [mapM]. unfold bind at 1. unfold lift at 1.
  rewrite (init_unsupported _ _ Hm). reflexivity.
Qed.

Lemma construct_cases method lines st :
  (mapM (fun line => lift (Proxy.__init__ method (Py.strip line))) lines st =
   (Ok (candidates method lines), st) /\ (supported method = true \/ lines = [])) \/
  (mapM (fun line => lift (Proxy.__init__ method (Py.strip line))) lines st =
   (Raise (NotImplementedError "Only HTTP, HTTPS, SOCKS4, and SOCKS5 are supported"), st) /\
   supported method = false /\ lines <> []).
Proof.
  destruct (supported method) eqn:Hm.
  - left. split; [apply construct_supported; exact Hm | auto].
  - destruct lines as [|line lines].
    + left. split; [reflexivity | auto].
    + right. split; [apply construct_unsupported; exact Hm|]. split; congruence.
Qed.

Section WholeRun.
Variable env : Env.
Variables (site : string) (timeout : Z) (verbose random_user_agent : bool).

Abbreviation spawn :=
  (mapM (fun proxy =>
           bind (if random_user_agent then random_choice (user_agents env)
                 else random_choice (user_agents env))
                (fun user_agent => ret (Created proxy user_agent)))).

Lemma spawn_cases proxies : forall st,
  (exists threads st1,
      spawn proxies st = (Ok threads, st1) /\ charges threads = proxies /\
      Forall (fun t => exists ua, In ua (user_agents env) /\
                                  exists p, t = Created p ua) threads /\
      (proxies = [] \/ user_agents env <> []) /\
      files st1 = files st /\ stdout st1 = stdout st /\ wire st1 = wire st) \/
  (spawn proxies st = (Raise (IndexError "Cannot choose from an empty sequence"), st) /\
   user_agents env = [] /\ proxies <> []).
Proof.
  induction proxies as [|p proxies IH]; intros st.
  - left. exists [], st. simpl. unfold ret. repeat split; auto.
  - simpl. unfold bind at 1 2.
    assert (Hsame : (if random_user_agent then random_choice (user_agents env)
                     else random_choice (user_agents env)) = random_choice (user_agents env))
      by (destruct random_user_agent; reflexivity).
    rewrite Hsame. unfold random_choice at 1.
    destruct (user_agents env) as [|x uas] eqn:Hua.
    + right. repeat split; congruence.
    + left. unfold ret at 1.
      set (st1 := set_rng (tl (rng st)) st).
      destruct (IH st1) as [(threads & st2 & Hsp & Hch & Hall & _ & Hf & Ho & Hw) | (_ & Hnil & _)];
        [|congruence].
      rewrite Hsame in Hsp. unfold bind at 1. rewrite Hsp. unfold ret.
      eexists; eexists. split; [reflexivity|]. repeat split.
      * unfold charges in *. simpl. rewrite Hch. reflexivity.
      * constructor; [|exact Hall].
        eexists. split; [|eexists; reflexivity].
        apply nth_In. apply Nat.mod_upper_bound. simpl. lia.
      * right. congruence.
      * rewrite Hf. reflexivity.
      * rewrite Ho. reflexivity.
      * rewrite Hw. reflexivity.
Qed.

Lemma run_threads_nil sched st :
  run_threads env site timeout verbose random_user_agent sched [] st =
  ([], {| valid_proxies := []; trace := [] |}, st).
Proof.
  unfold run_threads. simpl.
  induction sched as [|k sched IH]; simpl; [reflexivity|].
  destruct k; exact IH.
Qed.

(** The bookkeeping at the end of the threads: the list [valid_proxies] is
    the survivors of the trace; and when the addresses are valid every
    candidate has exactly one returned call. *)
Lemma run_threads_accounts sched threads st pool sh st' :
  run_threads env site timeout verbose random_user_agent sched threads st = (pool, sh, st') ->
  valid_proxies sh = survivors (trace sh) /\
  exists lost, Permutation (lost ++ probed (trace sh)) (charges threads) /\
               (Forall healthy threads -> threads = [] \/ user_agents env <> [] ->
                lost = []).
Proof.
  intros Hrun.
  pose proof (run_threads_preserves env site timeout verbose random_user_agent
                (accounts (charges threads))
                (accounts_step env site timeout verbose random_user_agent (charges threads))
                sched threads st) as Hacc.
  rewrite Hrun in Hacc. unfold accounts, pool_of, shared_of in Hacc. simpl in Hacc.
  destruct Hacc as [Hv Hp].
  { split; [reflexivity|]. simpl. rewrite app_nil_r. reflexivity. }
  split; [exact Hv|]. exists (charges pool). split; [exact Hp|].
  intros Hh [-> | Hua].
  - rewrite run_threads_nil in Hrun. inversion Hrun; subst. reflexivity.
  - assert (Hua' : random_user_agent = true -> user_agents env <> []) by auto.
    pose proof (run_threads_preserves env site timeout verbose random_user_agent
                  (fun c => Forall healthy (pool_of c))
                  (fun l1 t l2 sh0 st0 t' sh1 st1 =>
                     healthy_step env site timeout verbose random_user_agent
                                  l1 t l2 sh0 st0 t' sh1 st1 Hua')
                  sched threads st Hh) as Hhealthy.
    pose proof (run_threads_ends env site timeout verbose random_user_agent sched threads st)
      as Hends.
    rewrite Hrun in Hhealthy, Hends. unfold pool_of in *. simpl in *.
    clear - Hhealthy Hends. unfold charges.
    induction pool as [|t pool IH]; [reflexivity|].
    inversion Hhealthy; subst. inversion Hends; subst. simpl.
    rewrite IH by assumption.
    destruct t; simpl in *; try discriminate; try contradiction; reflexivity.
Qed.

End WholeRun.

Section CheckProxies.
Variable env : Env.
Variables (site : string) (timeout : Z) (verbose random_user_agent : bool).

Abbreviation check_proxies' := (check_proxies env site timeout verbose random_user_agent).

Lemma check_proxies_unfold sched file method st :
  check_proxies' sched file method st =
  match files st file with
  | None => (Raise (FileNotFoundError file), st)
  | Some content =>
      match mapM (fun line => lift (Proxy.__init__ method (Py.strip line)))
                 (lines_of EmptyString content) st with
      | (Raise e, st0) => (Raise e, st0)
      | (Ok proxies, st0) =>
          match mapM (fun proxy =>
                        bind (if random_user_agent then random_choice (user_agents env)
                              else random_choice (user_agents env))
                             (fun user_agent => ret (Created proxy user_agent)))
                     (filter Proxy.is_valid proxies)
                     (set_stdout (stdout st0 ++ [Checking (length proxies)]) st0) with
          | (Raise e, st1) => (Raise e, st1)
          | (Ok threads, st1) =>
              let '(_, sh, st2) :=
                run_threads env site timeout verbose random_user_agent sched threads st1 in
              (Ok (trace sh), final_state file sh st2)
          end
      end
  end.
Proof.
  unfold check_proxies, read_lines. unfold bind at 1.
  destruct (files st file) as [content|]; [|reflexivity].
  unfold bind at 1.
  destruct (mapM _ (lines_of EmptyString content) st) as [[proxies|e] st0]; [|reflexivity].
  unfold bind at 1. unfold print at 1. unfold bind at 1.
  destruct (mapM _ (filter Proxy.is_valid proxies) _) as [[threads|e] st1]; [|reflexivity].
  unfold bind at 1. unfold start_and_join.
  destruct (run_threads _ _ _ _ _ _ _ _) as [[pool sh] st2].
  reflexivity.
Qed.

(** A run that returns: what it read, what it probed, what it wrote. *)
Lemma check_proxies_returns sched file method st tr st' :
  check_proxies' sched file method st = (Ok tr, st') ->
  exists content threads st1 pool sh st2,
    files st file = Some content /\
    (supported method = true \/ lines_of EmptyString content = []) /\
    charges threads = filter Proxy.is_valid (candidates method (lines_of EmptyString content)) /\
    Forall (fun t => exists ua, In ua (user_agents env) /\ exists p, t = Created p ua) threads /\
    run_threads env site timeout verbose random_user_agent sched threads st1 = (pool, sh, st2) /\
    tr = trace sh /\
    Permutation (probed tr)
                (filter Proxy.is_valid (candidates method (lines_of EmptyString content))) /\
    files st' file = Some (written tr).
Proof.
  rewrite check_proxies_unfold. intros Hrun.
  destruct (files st file) as [content|] eqn:Hfile; [|discriminate].
  destruct (construct_cases method (lines_of EmptyString content) st)
    as [[Hc Hm] | [Hc _]]; rewrite Hc in Hrun; [|discriminate].
  set (proxies := filter Proxy.is_valid (candidates method (lines_of EmptyString content))) in *.
  destruct (spawn_cases env random_user_agent proxies
              (set_stdout (stdout st ++ [Checking (length (candidates method
                 (lines_of EmptyString content)))]) st))
    as [(threads & st1 & Hsp & Hch & Hall & Hua & _) | (Hsp & _)];
    rewrite Hsp in Hrun; [|discriminate].
  destruct (run_threads env site timeout verbose random_user_agent sched threads st1)
    as [[pool sh] st2] eqn:Hth.
  inversion Hrun; subst tr st'. clear Hrun.
  destruct (run_threads_accounts env site timeout verbose random_user_agent
              sched threads st1 pool sh st2 Hth) as [Hv (lost & Hp & Hlost)].
  assert (lost = []) as ->.
  { apply Hlost.
    - apply Forall_forall. intros t Ht.
      rewrite Forall_forall in Hall. destruct (Hall t Ht) as (ua & _ & p & ->). simpl.
      assert (Hin : In p (charges threads)).
      { unfold charges. apply in_flat_map. exists (Created p ua). simpl. auto. }
      rewrite Hch in Hin. unfold proxies in Hin. apply filter_In in Hin. tauto.
    - destruct Hua as [Hnil | Hne]; [left | right; exact Hne].
      rewrite Hnil in Hch. destruct threads as [|t threads]; [reflexivity|].
      inversion Hall as [|? ? (ua & _ & p & ->) _]; subst. discriminate Hch. }
  exists content, threads, st1, pool, sh, st2. repeat split; auto.
  - simpl in Hp. rewrite Hp, Hch. reflexivity.
  - unfold final_state, written. simpl. rewrite String.eqb_refl, Hv. reflexivity.
Qed.

End CheckProxies.

(** A run on a supported method, with a user agent to choose, returns. *)
Lemma check_proxies_total env site timeout verbose random_user_agent sched file method st content :
  files st file = Some content ->
  supported method = true ->
  user_agents env <> [] ->
  exists tr st',
    check_proxies env site timeout verbose random_user_agent sched file method st = (Ok tr, st').
Proof.
  intros Hfile Hm Hua. rewrite check_proxies_unfold, Hfile, (construct_supported _ _ _ Hm).
  match goal with
  | |- context [mapM ?f ?l ?s] =>
      destruct (spawn_cases env random_user_agent l s)
        as [(threads & st1 & -> & _) | (_ & Hnil & _)]; [|contradiction]
  end.
  destruct (run_threads env site timeout verbose random_user_agent sched threads st1)
    as [[pool sh] st2].
  eauto.
Qed.

(** * The surviving set *)

Lemma returned_In tr p ua o :
  In (p, ua, o) (returned tr) <-> In (Returned p ua o) tr.
Proof.
  unfold returned. rewrite in_flat_map. split.
  - intros (e & He & Hin). destruct e as [p' r|p' ua' o']; simpl in Hin; [contradiction|].
    destruct Hin as [Heq|[]]. inversion Heq; subst. exact He.
  - intros H. exists (Returned p ua o). simpl. auto.
Qed.



Lemma survivors_probed tr p : In p (survivors tr) -> In p (probed tr).
Proof.
  unfold survivors, probed. rewrite !in_map_iff.
  intros (c & Hc & Hin). apply filter_In in Hin. exists c. tauto.
Qed.



(** ** A run on three candidates against a mocked transport *)

(** C1, at the input where the code departs from it.  The mocked transport
    relays what comes through A, refuses what comes through B and never
    answers what comes through C, whenever it is asked.  The list file names
    A, B and C.  When the thread of A has installed its opener and the
    thread of B installs its own before A's request is opened, that request
    goes through B and is refused: the run returns, no candidate survives,
    and the file is rewritten empty, although A works. *)
Theorem working_proxy_is_dropped :
  (forall now tunnel_ req,
      mock_network now {| tunnel := tunnel_; forward := Some "http://1.1.1.1:80" |} req
      = (Response 200, 7%Z) /\
      mock_network now {| tunnel := tunnel_; forward := Some "http://2.2.2.2:81" |} req
      = (Failure ConnectionRefusedError, 1%Z) /\
      mock_network now {| tunnel := tunnel_; forward := Some "http://3.3.3.3:82" |} req
      = (Failure SocketTimeout, request_timeout req)) /\
  filter Proxy.is_valid (candidates "http" (lines_of EmptyString three_lines))
  = [http_A; http_B; http_C] /\
  exists tr st',
    check_proxies mock_env "http://example.com/" 20 false false [0; 0; 0; 1; 1; 1; 1; 1]
                  "output.txt" "http" (boot three_lines [0; 0; 0]) = (Ok tr, st') /\
    In (Connected http_A {| tunnel := None; forward := Some "http://2.2.2.2:81" |}) tr /\
    In (Returned http_A "Mozilla/5.0" (false, 0%Z, Some ConnectionRefusedError)) tr /\
    survivors tr = [] /\
    files st' "output.txt" = Some EmptyString.
Proof.
  split; [intros now tunnel_ req; repeat split|].
  split; [reflexivity|].
  eexists. eexists. split; [vm_compute; reflexivity|].
  split; [simpl; auto 10|]. split; [simpl; auto 10|]. split; reflexivity.
Qed.

(** * What one probe reports *)

(** C2, as the code has it: a probe whose exchange ends with a final status
    in 200..299 returns success with the time the exchange took; an exchange
    that ends with any other status makes [urlopen] raise [HTTPError], and
    like every other exception it is returned as a failure with time 0 and
    the exception itself as the reason. *)
Theorem check_reports_exchange :
  forall env self site timeout user_agent verbose st x dt,
    probe_exchange env self site timeout user_agent st = Some (x, dt) ->
    fst (Proxy.check env self site timeout user_agent verbose st) = Ok (verdict x dt).
Proof.
  intros env self site timeout ua verbose st x dt. unfold probe_exchange.
  rewrite check_phases. unfold check_after_configure.
  destruct (Proxy.check_configure self st) as [[[]|e] st0]; [|discriminate].
  destruct (Proxy.check_prepare self site timeout ua st0) as [[[start_time req]|e] st1] eqn:Hprep;
    [|discriminate].
  intros Hx. inversion Hx as [Hnet]. clear Hx.
  assert (Hstart : start_time = clock st1).
  { unfold Proxy.check_prepare, bind, time, install_opener, lift, ret in Hprep.
    destruct (Py.mem (method self) ["http"; "https"]);
      match type of Hprep with
      | context [Request site ?h timeout] => destruct (Request site h timeout)
      end; inversion Hprep; reflexivity. }
  unfold urlopen. rewrite Hnet.
  unfold verdict, Proxy.check_finish, bind, time, verbose_print, print, ret.
  destruct x as [status|e].
  - destruct ((200 <=? status) && (status <? 300))%Z; destruct verbose; simpl;
      rewrite ?Hstart;
      try replace (clock st1 + dt - clock st1)%Z with dt by lia; reflexivity.
  - destruct verbose; reflexivity.
Qed.

(** C2, the claim as it stands fails: the exchange through the proxy
    completes, with status 404, and the probe is reported as failed. *)
Lemma check_404_is_failure :
  probe_exchange status_404_env http_A "http://example.com/" 20 "Mozilla/5.0" (boot "" [])
  = Some (Response 404, 5%Z) /\
  fst (Proxy.check status_404_env http_A "http://example.com/" 20 "Mozilla/5.0" false
                   (boot "" []))
  = Ok (false, 0%Z, Some (HTTPError 404)).
Proof. split; reflexivity. Qed.

Lemma check_reports_exchange_witness :
  fst (Proxy.check mock_env http_A "http://example.com/" 20 "Mozilla/5.0" false
                   (boot "" []))
  = Ok (true, 7%Z, None).
Proof.
  apply (check_reports_exchange mock_env http_A "http://example.com/" 20 "Mozilla/5.0"
           false (boot "" []) (Response 200) 7%Z).
  reflexivity.
Defined.

Lemma finish_well_shaped self verbose r st o st' :
  Proxy.check_finish self verbose r st = (Ok o, st') -> well_shaped o.
Proof.
  destruct o as [[b t] err]. intros H. apply finish_shape in H.
  destruct H as [[-> ->] | (-> & -> & e & -> & _)]; split; intros; try discriminate; auto.
  split; [discriminate | reflexivity].
Qed.

Lemma check_well_shaped env self site timeout user_agent verbose st o :
  fst (Proxy.check env self site timeout user_agent verbose st) = Ok o -> well_shaped o.
Proof.
  rewrite check_phases.
  destruct (Proxy.check_configure self st) as [[[]|e] st0]; [|discriminate].
  unfold check_after_configure.
  destruct (Proxy.check_prepare self site timeout user_agent st0)
    as [[[start_time req]|e] st1].
  - destruct (urlopen env req st1) as [[[]|e] st2];
      match goal with
      | |- context [Proxy.check_finish ?s ?v ?r ?st] =>
          destruct (Proxy.check_finish s v r st) as [[o'|e'] st3] eqn:Hf
      end; simpl; intros H; inversion H; subst; eapply finish_well_shaped; eauto.
  - destruct (Proxy.check_finish self verbose (Raise e) st1) as [[o'|e'] st3] eqn:Hf;
      simpl; intros H; inversion H; subst; eapply finish_well_shaped; eauto.
Qed.

Lemma trace_well_shaped env site timeout verbose random_user_agent sched threads st p ua o :
  In (Returned p ua o)
     (trace (shared_of (run_threads env site timeout verbose random_user_agent
                                    sched threads st))) ->
  well_shaped o.
Proof.
  revert p ua o.
  apply (run_threads_preserves env site timeout verbose random_user_agent
           (fun c => forall p ua o, In (Returned p ua o) (trace (shared_of c)) ->
                                    well_shaped o)).
  - unfold shared_of. simpl.
    intros l1 th l2 sh st0 th' sh' st1 Hinv Hstep p ua o Hin.
    destruct th as [q ua0|q ua0|q ua0|q ua0 [[start_time req]|e]|q ua0 r| |q e];
      simpl in Hstep.
    + destruct (if random_user_agent then _ else _) as [[ua'|e] st2];
        inversion Hstep; subst; eauto.
    + destruct (Proxy.check_configure q st0) as [[[]|e] st2]; inversion Hstep; subst; eauto.
    + destruct (Proxy.check_prepare q site timeout ua0 st0) as [r st2].
      inversion Hstep; subst; eauto.
    + destruct (urlopen env req st0) as [r st2]. inversion Hstep; subst. simpl in Hin.
      apply in_app_or in Hin. destruct Hin as [Hin|[Hin|[]]]; [eauto | discriminate Hin].
    + inversion Hstep; subst; eauto.
    + destruct (Proxy.check_finish q verbose r st0) as [[[[b0 t0] err0]|e] st2] eqn:Hf;
        inversion Hstep; subst; eauto.
      simpl in Hin. apply in_app_or in Hin. destruct Hin as [Hin|[Hin|[]]]; [eauto|].
      inversion Hin; subst. eapply finish_well_shaped; eauto.
    + inversion Hstep; subst; eauto.
    + inversion Hstep; subst; eauto.
  - simpl. intros p ua o [].
Qed.

(** C10: the triple [check] returns carries no error when it says valid, and
    when it says not valid it carries an error and the time 0; in a call on
    its own and in every call a run of the threads records. *)
Theorem check_outcome_shape :
  (forall env self site timeout user_agent verbose st b t err,
      fst (Proxy.check env self site timeout user_agent verbose st) = Ok (b, t, err) ->
      (b = true -> err = None) /\ (b = false -> err <> None /\ t = 0%Z)) /\
  (forall env site timeout verbose random_user_agent sched threads st p ua b t err,
      In (Returned p ua (b, t, err))
         (trace (shared_of (run_threads env site timeout verbose random_user_agent
                                        sched threads st))) ->
      (b = true -> err = None) /\ (b = false -> err <> None /\ t = 0%Z)).
Proof.
  split.
  - intros env self site timeout ua verbose st b t err H.
    apply (check_well_shaped env self site timeout ua verbose st (b, t, err) H).
  - intros env site timeout verbose rua sched threads st p ua b t err H.
    apply (trace_well_shaped env site timeout verbose rua sched threads st p ua (b, t, err) H).
Qed.

Lemma check_outcome_shape_witness :
  (false = true -> Some ConnectionRefusedError = None) /\
  (false = false -> Some ConnectionRefusedError <> None /\ 0%Z = 0%Z).
Proof.
  apply (proj1 check_outcome_shape mock_env http_B "http://example.com/" 20%Z "Mozilla/5.0"
           false (boot "" []) false 0%Z (Some ConnectionRefusedError)).
  reflexivity.
Defined.

(** * Runs that return, whatever the probes meet *)


Lemma finish_returns self verbose r st :
  exists st',
    Proxy.check_finish self verbose r st =
    (Ok (match r with
         | Ok start_time => (true, (clock st - start_time)%Z, None)
         | Raise e => (false, 0%Z, Some e)
         end), st') /\
    files st' = files st /\ wire st' = wire st /\
    stdout st' = stdout st ++
                 (if verbose
                  then [match r with
                        | Ok start_time => IsValid (proxy self) (clock st - start_time)
                        | Raise e => IsNotValid (proxy self) e
                        end]
                  else []).
Proof.
  unfold Proxy.check_finish, verbose_print, bind, time, print, ret.
  destruct r as [t0|e]; destruct verbose; eexists; (split; [reflexivity|]);
    simpl; rewrite ?app_nil_r; auto.
Qed.

(** [check] is its configuration, then the [try] with its [except]. *)
Lemma check_is_try env self site timeout user_agent verbose st :
  Proxy.check env self site timeout user_agent verbose st =
  match Proxy.check_configure self st with
  | (Ok _, st0) =>
      try_except (check_try env self site timeout user_agent verbose)
                 (check_except self verbose) st0
  | (Raise e, st0) => (Raise e, st0)
  end.
Proof.
  unfold Proxy.check, Proxy.check_configure, check_try, check_except, bind, lift.
  destruct (Py.unpack2 (Py.split ":" (proxy self))) as [[proxy_host proxy_port]|e];
    [|reflexivity].
  destruct (Py.mem (method self) ["socks4"; "socks5"]);
    [destruct (Py.int proxy_port); [|reflexivity]|]; reflexivity.
Qed.

Lemma check_try_succeeds env self site timeout user_agent verbose st o st' :
  check_try env self site timeout user_agent verbose st = (Ok o, st') ->
  exists t, o = (true, t, None).
Proof.
  unfold check_try, bind, time, install_opener, lift, verbose_print, print, ret.
  destruct (Py.mem (method self) ["http"; "https"]);
    match goal with
    | |- context [Request site ?ua timeout] =>
        destruct (Request site ua timeout) as [req|e]; [|discriminate]
    end;
    match goal with
    | |- context [urlopen env ?r ?s] => destruct (urlopen env r s) as [[[]|e0] st1]
    end; try discriminate;
    destruct verbose; intros H; inversion H; eauto.
Qed.

Lemma urlopen_raises env site req st e st' :
  full_url req = site ->
  urlopen env req st = (Raise e, st') -> raised_by_probe env site e.
Proof.
  intros Hsite. unfold urlopen.
  destruct (network env (clock st) (current_route env st req) req) as [x dt] eqn:E.
  destruct x as [status|e0].
  - destruct ((200 <=? status) && (status <? 300))%Z eqn:Hs; [discriminate|].
    intros H. inversion H; subst. right. right.
    exists (clock st), (current_route env st req), req, dt, status. auto.
  - intros H. inversion H; subst. right. left.
    exists (clock st), (current_route env st req), req, dt. exact E.
Qed.

Lemma urlopen_fails env req st :
  every_exchange_fails env -> exists e st', urlopen env req st = (Raise e, st').
Proof.
  intros Hfail. unfold urlopen.
  specialize (Hfail (clock st) (current_route env st req) req).
  destruct (network env (clock st) (current_route env st req) req) as [x dt].
  destruct x as [status|e]; simpl in Hfail; [rewrite Hfail|]; eauto.
Qed.

Section Failures.
Variable env : Env.
Variables (site : string) (timeout : Z) (verbose random_user_agent : bool).

Abbreviation step_f := (thread_step env site timeout verbose random_user_agent).

Lemma prepare_request self ua st r st1 :
  Proxy.check_prepare self site timeout ua st = (r, st1) ->
  match r with
  | Ok (_, req) => full_url req = site
  | Raise e => url_scheme site = Raise e
  end.
Proof.
  unfold Proxy.check_prepare, bind, time, install_opener, lift, Request, ret.
  destruct (Py.mem (method self) ["http"; "https"]);
    destruct (url_scheme site) as [sc|e]; intros H; inversion H; reflexivity.
Qed.

(** One step of a thread: the exception it comes to carry was raised by
    its probe, and a failure it returns is that exception, with time 0. *)
Lemma step_accounted t sh st t' sh' st' :
  step_f t sh st = (t', sh', st') ->
  failure_accounted env site t ->
  failure_accounted env site t' /\
  exists events,
    trace sh' = trace sh ++ events /\
    forall p ua tm err,
      In (Returned p ua (false, tm, err)) events ->
      tm = 0%Z /\ exists e, err = Some e /\ raised_by_probe env site e.
Proof.
  intros Hstep Hacc.
  destruct t as [p ua|p ua|p ua|p ua [[t0 req]|e]|p ua r| |p e]; cbn [thread_step] in Hstep.
  - destruct ((if random_user_agent then random_choice (user_agents env) else ret ua) st)
      as [[ua'|e] st1]; injection Hstep as <- <- <-; (split; [exact I|]);
      (exists []; rewrite app_nil_r; split; [reflexivity | intros ? ? ? ? []]).
  - destruct (Proxy.check_configure p st) as [[[]|e] st1]; injection Hstep as <- <- <-;
      (split; [exact I|]);
      (exists []; rewrite app_nil_r; split; [reflexivity | intros ? ? ? ? []]).
  - destruct (Proxy.check_prepare p site timeout ua st) as [r st1] eqn:E.
    apply prepare_request in E. injection Hstep as <- <- <-.
    split; [destruct r as [[t0 req]|e]; [exact E | left; exact E]|].
    exists []. rewrite app_nil_r. split; [reflexivity | intros ? ? ? ? []].
  - destruct (urlopen env req st) as [[[]|e] st1] eqn:E; injection Hstep as <- <- <-.
    + split; [exact I|]. eexists. split; [reflexivity|].
      intros ? ? ? ? [H|[]]. discriminate H.
    + split; [exact (urlopen_raises env site req st e st1 Hacc E)|].
      eexists. split; [reflexivity|]. intros ? ? ? ? [H|[]]. discriminate H.
  - injection Hstep as <- <- <-. split; [exact Hacc|].
    exists []. rewrite app_nil_r. split; [reflexivity | intros ? ? ? ? []].
  - destruct r as [t0|e];
      match type of Hstep with
      | context [Proxy.check_finish p verbose ?r0 st] =>
          destruct (finish_returns p verbose r0 st) as (st1 & E & _)
      end;
      rewrite E in Hstep; injection Hstep as <- <- <-;
      (split; [exact I|]);
      (eexists; split; [reflexivity|]); intros ? ? ? ? [H|[]]; inversion H; subst.
    split; [reflexivity|]. eexists. split; [reflexivity | exact Hacc].
  - injection Hstep as <- <- <-. split; [exact I|].
    exists []. rewrite app_nil_r. split; [reflexivity | intros ? ? ? ? []].
  - injection Hstep as <- <- <-. split; [exact I|].
    exists []. rewrite app_nil_r. split; [reflexivity | intros ? ? ? ? []].
Qed.

Lemma failures_accounted_step l1 t l2 sh st t' sh' st' :
  failures_accounted env site (l1 ++ t :: l2, sh, st) ->
  step_f t sh st = (t', sh', st') ->
  failures_accounted env site (l1 ++ t' :: l2, sh', st').
Proof.
  unfold failures_accounted, pool_of, shared_of. cbn [fst snd].
  intros [Ha Hr] Hstep.
  apply Forall_app in Ha. destruct Ha as [Ha1 Ha2].
  inversion Ha2 as [|? ? Hat Ha2']; subst.
  destruct (step_accounted t sh st t' sh' st' Hstep Hat) as (Hat' & events & Htr & Hev).
  split; [apply Forall_app; split; [exact Ha1 | constructor; assumption]|].
  intros p ua tm err Hin. rewrite Htr in Hin. apply in_app_or in Hin.
  destruct Hin as [Hin|Hin]; [exact (Hr p ua tm err Hin) | exact (Hev p ua tm err Hin)].
Qed.

(** One step of a thread on a network where every exchange fails: its
    request does not succeed, and a call that returns has failed. *)
Lemma step_not_transferred t sh st t' sh' st' :
  every_exchange_fails env ->
  step_f t sh st = (t', sh', st') ->
  not_transferred t ->
  not_transferred t' /\
  exists events,
    trace sh' = trace sh ++ events /\
    Forall (fun call => exists e, snd call = (false, 0%Z, Some e)) (returned events).
Proof.
  intros Hfail Hstep Hn.
  destruct t as [p ua|p ua|p ua|p ua [[t0 req]|e]|p ua [t0|e]| |p e];
    cbn [thread_step] in Hstep.
  - destruct ((if random_user_agent then random_choice (user_agents env) else ret ua) st)
      as [[ua'|e] st1]; injection Hstep as <- <- <-; (split; [exact I|]);
      (exists []; rewrite app_nil_r; split; [reflexivity | simpl; constructor]).
  - destruct (Proxy.check_configure p st) as [[[]|e] st1]; injection Hstep as <- <- <-;
      (split; [exact I|]);
      (exists []; rewrite app_nil_r; split; [reflexivity | simpl; constructor]).
  - destruct (Proxy.check_prepare p site timeout ua st) as [r st1].
    injection Hstep as <- <- <-. split; [exact I|].
    exists []. rewrite app_nil_r. split; [reflexivity | simpl; constructor].
  - destruct (urlopen_fails env req st Hfail) as (e & st1 & E). rewrite E in Hstep.
    injection Hstep as <- <- <-. split; [exact I|].
    eexists. split; [reflexivity | simpl; constructor].
  - injection Hstep as <- <- <-. split; [exact I|].
    exists []. rewrite app_nil_r. split; [reflexivity | simpl; constructor].
  - contradiction.
  - destruct (finish_returns p verbose (Raise e) st) as (st1 & E & _).
    rewrite E in Hstep. injection Hstep as <- <- <-. split; [exact I|].
    eexists. split; [reflexivity|]. simpl. constructor; [exists e; reflexivity | constructor].
  - injection Hstep as <- <- <-. split; [exact I|].
    exists []. rewrite app_nil_r. split; [reflexivity | simpl; constructor].
  - injection Hstep as <- <- <-. split; [exact I|].
    exists []. rewrite app_nil_r. split; [reflexivity | simpl; constructor].
Qed.

Lemma none_succeeded_step l1 t l2 sh st t' sh' st' :
  every_exchange_fails env ->
  none_succeeded (l1 ++ t :: l2, sh, st) ->
  step_f t sh st = (t', sh', st') ->
  none_succeeded (l1 ++ t' :: l2, sh', st').
Proof.
  unfold none_succeeded, pool_of, shared_of. cbn [fst snd].
  intros Hfail [Hn Hr] Hstep.
  apply Forall_app in Hn. destruct Hn as [Hn1 Hn2].
  inversion Hn2 as [|? ? Hnt Hn2']; subst.
  destruct (step_not_transferred t sh st t' sh' st' Hfail Hstep Hnt)
    as (Hnt' & events & Htr & Hev).
  split; [apply Forall_app; split; [exact Hn1 | constructor; assumption]|].
  rewrite Htr, returned_app. apply Forall_app. split; assumption.
Qed.

End Failures.

(** C4: an exception raised in the probe of a candidate is caught where
    [check] ends and becomes a failed outcome.  For a candidate that passed
    [is_valid], nothing before the [try] raises; when the body of the [try]
    raises [e], [check] returns [(False, 0, e)], and when it does not,
    [check] returns what the body returned, a success.  A run of
    [check_proxies] on a supported method is not ended by its probes,
    whatever the network does and however the threads are scheduled: it
    returns, with one returned call for each candidate dispatched; every call
    that returned a failure returned, with time 0, an exception its probe
    raised; the survivors are written line by line; and when every exchange
    fails, every call has returned a failure and the file is rewritten
    empty. *)
Theorem probe_failures_contained :
  (forall env self site timeout user_agent verbose st,
      Proxy.is_valid self = true ->
      exists st0,
        Proxy.check_configure self st = (Ok tt, st0) /\
        (forall e st1,
            check_try env self site timeout user_agent verbose st0 = (Raise e, st1) ->
            Proxy.check env self site timeout user_agent verbose st =
            check_except self verbose e st1 /\
            fst (Proxy.check env self site timeout user_agent verbose st)
            = Ok (false, 0%Z, Some e)) /\
        (forall o st1,
            check_try env self site timeout user_agent verbose st0 = (Ok o, st1) ->
            Proxy.check env self site timeout user_agent verbose st = (Ok o, st1) /\
            exists t, o = (true, t, None))) /\
  (forall env site timeout verbose random_user_agent sched file method st content,
      files st file = Some content ->
      supported method = true ->
      user_agents env <> [] ->
      exists tr st',
        check_proxies env site timeout verbose random_user_agent sched file method st
        = (Ok tr, st') /\
        Permutation (probed tr)
                    (filter Proxy.is_valid (candidates method (lines_of EmptyString content))) /\
        (forall p ua t err,
            In (Returned p ua (false, t, err)) tr ->
            t = 0%Z /\ exists e, err = Some e /\ raised_by_probe env site e) /\
        files st' file = Some (survivor_lines tr) /\
        (every_exchange_fails env ->
         (forall p ua o, In (Returned p ua o) tr -> exists e, o = (false, 0%Z, Some e)) /\
         survivors tr = [] /\
         files st' file = Some EmptyString)).
Proof.
  split.
  - intros env self site timeout ua verbose st Hv.
    destruct (configure_valid self Hv st) as [st0 Hc].
    exists st0. split; [exact Hc|].
    split.
    + intros e st1 Hbody. rewrite check_is_try, Hc. unfold try_except. rewrite Hbody.
      split; [reflexivity|].
      unfold check_except, verbose_print, print, ret, bind. destruct verbose; reflexivity.
    + intros o st1 Hbody. rewrite check_is_try, Hc. unfold try_except. rewrite Hbody.
      split; [reflexivity|]. exact (check_try_succeeds _ _ _ _ _ _ _ _ _ Hbody).
  - intros env site timeout verbose rua sched file method st content Hfile Hm Hua.
    destruct (check_proxies_total env site timeout verbose rua sched file method st content
                Hfile Hm Hua) as (tr & st' & Hrun).
    exists tr, st'. split; [exact Hrun|].
    destruct (check_proxies_returns env site timeout verbose rua sched file method st tr st' Hrun)
      as (content' & threads & st1 & pool & sh & st2 & Hfile' & _ & _ & Hall & Hth & Htr
          & Hp & Hw).
    rewrite Hfile in Hfile'. inversion Hfile'; subst content'. clear Hfile'.
    split; [exact Hp|].
    assert (Hcreated : forall P : thread -> Prop,
               (forall p ua, P (Created p ua)) -> Forall P threads).
    { intros P HP. eapply Forall_impl; [|exact Hall]. intros t (ua & _ & p & ->). apply HP. }
    split; [|split; [exact Hw|]].
    + pose proof (run_threads_preserves env site timeout verbose rua
                    (failures_accounted env site)
                    (failures_accounted_step env site timeout verbose rua)
                    sched threads st1) as Hacc.
      rewrite Hth in Hacc. unfold failures_accounted, pool_of, shared_of in Hacc.
      cbn [fst snd] in Hacc. subst tr. apply Hacc.
      split; [apply Hcreated; intros; exact I | intros ? ? ? ? []].
    + intros Hfail.
      pose proof (run_threads_preserves env site timeout verbose rua
                    none_succeeded
                    (fun l1 t l2 sh0 s0 t' sh1 s1 =>
                       none_succeeded_step env site timeout verbose rua
                                           l1 t l2 sh0 s0 t' sh1 s1 Hfail)
                    sched threads st1) as Hnone.
      rewrite Hth in Hnone. unfold none_succeeded, pool_of, shared_of in Hnone.
      cbn [fst snd] in Hnone. destruct Hnone as [_ Hr].
      { split; [apply Hcreated; intros; exact I | constructor]. }
      rewrite <- Htr in Hr.
      assert (Hsurv : survivors tr = []).
      { unfold survivors.
        replace (filter succeeded (returned tr)) with (@nil (Proxy * string * outcome));
          [reflexivity|].
        symmetry. clear - Hr. induction Hr as [|call l Hc Hl IH]; [reflexivity|].
        cbn [filter].
        replace (succeeded call) with false
          by (destruct call as [[p0 ua0] o0]; destruct Hc as [e Hc]; simpl in Hc; subst o0;
              reflexivity).
        exact IH. }
      split; [|split; [exact Hsurv|]].
      * intros p ua o Hin. apply returned_In in Hin.
        rewrite Forall_forall in Hr. exact (Hr _ Hin).
      * rewrite Hw. unfold written. rewrite Hsurv. reflexivity.
Qed.

Lemma probe_failures_contained_witness :
  fst (Proxy.check mock_env http_C "http://example.com/" 20 "Mozilla/5.0" true (boot "" []))
  = Ok (false, 0%Z, Some SocketTimeout) /\
  stdout (snd (Proxy.check mock_env http_C "http://example.com/" 20 "Mozilla/5.0" true
                           (boot "" [])))
  = [IsNotValid "3.3.3.3:82" SocketTimeout].
Proof.
  destruct (proj1 probe_failures_contained mock_env http_C "http://example.com/" 20%Z
              "Mozilla/5.0" true (boot "" []) eq_refl) as (st0 & Hc & Hraise & _).
  vm_compute in Hc. injection Hc as <-.
  destruct (Hraise SocketTimeout
              (snd (check_try mock_env http_C "http://example.com/" 20 "Mozilla/5.0" true
                              (boot "" []))) eq_refl) as [Hcheck Hfst].
  split; [exact Hfst|]. rewrite Hcheck. reflexivity.
Defined.

(** * Order of dispatch *)

(** C8, at the input where the code departs from it.  The transport is the
    same function of the route and the request in every run.  The same
    request run twice, once with the probes one after the other and once
    with the second thread moving between the first thread's installation of
    its opener and its request, leaves A in the file the first time and
    nothing the second: A's request went through B.  Scheduled in that same
    way with B listed before A, the run leaves A and B: B's request went
    through A. *)
Theorem survivors_depend_on_schedule :
  exists tr1 st1 tr2 st2 tr3 st3,
    check_proxies mock_env "http://example.com/" 20 false false []
                  "output.txt" "http" (boot three_lines [0; 0; 0]) = (Ok tr1, st1) /\
    check_proxies mock_env "http://example.com/" 20 false false [0; 0; 0; 1; 1; 1; 1; 1]
                  "output.txt" "http" (boot three_lines [0; 0; 0]) = (Ok tr2, st2) /\
    check_proxies mock_env "http://example.com/" 20 false false [0; 0; 0; 1; 1; 1; 1; 1]
                  "output.txt" "http" (boot three_lines_swapped [0; 0; 0]) = (Ok tr3, st3) /\
    Permutation (lines_of EmptyString three_lines) (lines_of EmptyString three_lines_swapped) /\
    survivors tr1 = [http_A] /\ survivors tr2 = [] /\ survivors tr3 = [http_A; http_B] /\
    In (Connected http_A {| tunnel := None; forward := Some "http://2.2.2.2:81" |}) tr2 /\
    In (Connected http_B {| tunnel := None; forward := Some "http://1.1.1.1:80" |}) tr3 /\
    files st1 "output.txt" = Some ("1.1.1.1:80" ++ newline)%string /\
    files st2 "output.txt" = Some EmptyString /\
    files st3 "output.txt" =
    Some ("1.1.1.1:80" ++ newline ++ "2.2.2.2:81" ++ newline)%string /\
    ~ Permutation (survivors tr1) (survivors tr2) /\
    ~ Permutation (survivors tr2) (survivors tr3) /\
    ~ Permutation (survivors tr1) (survivors tr3).
Proof.
  do 6 eexists.
  split; [vm_compute; reflexivity|]. split; [vm_compute; reflexivity|].
  split; [vm_compute; reflexivity|].
  split; [vm_compute; apply perm_swap|].
  do 3 (split; [reflexivity|]).
  split; [simpl; auto 10|]. split; [simpl; auto 10|].
  do 3 (split; [reflexivity|]).
  repeat split; intros H; apply Permutation_length in H; discriminate H.
Qed.

(** * The user agent of a probe *)

(** C9, the code at a run without the random-agent flag: the three probes of
    one run are handed "Mozilla/5.0", "curl/8.0" and "Mozilla/5.0", one draw
    from the pool for each thread created, and not one agent for the run. *)
Theorem user_agent_drawn_per_probe :
  exists tr st',
    check_proxies mock_env "http://example.com/" 20 false false []
                  "output.txt" "http" (boot three_lines [0; 1; 0]) = (Ok tr, st') /\
    map (fun call => snd (fst call)) (returned tr) = ["Mozilla/5.0"; "curl/8.0"; "Mozilla/5.0"].
Proof. eexists. eexists. split; vm_compute; reflexivity. Qed.

(** * The route of a SOCKS probe *)


(** C3, the code at two concurrent SOCKS probes: the thread of X sets the
    default proxy, the thread of Y sets it again, and X's connection, opened
    after that, tunnels through Y's host and port, as Y's own does. *)
Theorem socks_probe_uses_other_target :
  exists tr st',
    check_proxies mock_env "http://example.com/" 20 false false [0; 0; 1; 1]
                  "output.txt" "socks5" (boot two_socks_lines [0; 0]) = (Ok tr, st') /\
    In (Connected socks_X {| tunnel := Some (SOCKS5, "2.2.2.2", 1080%Z); forward := None |}) tr /\
    In (Connected socks_Y {| tunnel := Some (SOCKS5, "2.2.2.2", 1080%Z); forward := None |}) tr.
Proof. eexists. eexists. split; [vm_compute; reflexivity | simpl; auto]. Qed.

(** The HTTP branch shares the hazard: the opener is installed for the whole
    process and looked up when [urlopen] is called.  With the thread of A
    stopped between the two and the thread of B run meanwhile, A's request
    goes through B's proxy, is refused, and A does not survive, although the
    transport relays whatever goes through A. *)
Lemma http_probe_routed_through_other :
  exists tr st',
    check_proxies mock_env "http://example.com/" 20 false false [0; 0; 0; 1; 1; 1; 1; 1]
                  "output.txt" "http" (boot three_lines [0; 0; 0]) = (Ok tr, st') /\
    In (Connected http_A {| tunnel := None; forward := Some "http://2.2.2.2:81" |}) tr /\
    survivors tr = [].
Proof. eexists. eexists. split; [vm_compute; reflexivity | split; [simpl; auto | reflexivity]]. Qed.

(** * The scraper *)

Lemma first_failure_none {A} (outs : list (result A * Z)) :
  proxyScraper.first_failure outs = None <-> forall r t, In (r, t) outs -> exists a, r = Ok a.
Proof.
  induction outs as [|[[a|e] t] outs IH]; simpl.
  - split; [intros _ r t [] | reflexivity].
  - rewrite IH. split.
    + intros H r t0 [Heq|Hin]; [inversion Heq; eauto | eauto].
    + intros H r t0 Hin. eauto.
  - split.
    + destruct (proxyScraper.first_failure outs) as [[e' t']|]; [destruct (t' <? t)%Z|]; discriminate.
    + intros H. destruct (H (Raise e) t) as [a Ha]; [auto | discriminate].
Qed.

Lemma first_failure_some {A} (outs : list (result A * Z)) e t :
  proxyScraper.first_failure outs = Some (e, t) -> In (Raise e, t) outs.
Proof.
  induction outs as [|[[a|e0] t0] outs IH]; simpl; [discriminate | auto |].
  destruct (proxyScraper.first_failure outs) as [[e' t']|].
  - destruct (t' <? t0)%Z; intros H; inversion H; subst; auto.
  - intros H; inversion H; subst; auto.
Qed.

Lemma successes_all_ok {A} (outs : list (result A * Z)) (f : result A * Z -> result A) :
  (forall o, f o = fst o) ->
  proxyScraper.first_failure outs = None -> map f outs = map Ok (proxyScraper.successes outs).
Proof.
  intros Hf. induction outs as [|[[a|e] t] outs IH]; simpl; intros H.
  - reflexivity.
  - rewrite Hf, IH by exact H. reflexivity.
  - destruct (proxyScraper.first_failure outs) as [[e' t']|]; [destruct (t' <? t)%Z|]; discriminate.
Qed.

Lemma scrape_unfold scrapers web method_ output verbose st :
  proxyScraper.scrape scrapers web method_ output verbose st =
  match matching scrapers method_ with
  | [] => (Raise (ValueError "Method not supported"), st)
  | tasks =>
      match proxyScraper.verbose_print verbose Scraping st with
      | (Ok _, st0) =>
          match proxyScraper.gather web tasks st0 with
          | (Ok results, st1) =>
              (write_file output (String.concat newline (concat results)) ;;
               proxyScraper.verbose_print verbose Done ;;
               end_time <- time ;;
               proxyScraper.verbose_print verbose (Took (end_time - clock st)%Z))%py
                (snd (proxyScraper.verbose_print verbose (Writing (length (concat results))) st1))
          | (Raise e, st1) => (Raise e, st1)
          end
      | (Raise e, st0) => (Raise e, st0)
      end
  end.
Proof.
  unfold proxyScraper.scrape, matching, bind at 1, time at 1.
  destruct (filter _ scrapers) as [|s tasks]; [reflexivity|].
  unfold bind at 1. destruct (proxyScraper.verbose_print verbose Scraping st) as [[[]|e] st0]; [|reflexivity].
  unfold bind at 1. destruct (proxyScraper.gather web (s :: tasks) st0) as [[results|e] st1]; [|reflexivity].
  unfold bind at 1. unfold proxyScraper.verbose_print at 1, print, ret.
  destruct verbose; reflexivity.
Qed.

(** * Unsupported methods *)

Lemma supported_iff (method : string) :
  supported method = true <-> In (Py.lower method) ["http"; "https"; "socks4"; "socks5"].
Proof.
  unfold supported, Py.mem. rewrite existsb_exists. split.
  - intros (s & Hin & Heq). apply String.eqb_eq in Heq. subst s. exact Hin.
  - intros Hin. exists (Py.lower method). split; [exact Hin | apply String.eqb_refl].
Qed.

(** C7: constructing a candidate raises for every method whose lower-case
    form is not http, https, socks4 or socks5, and for no other; so a run of
    the checker on such a method and a file with at least one line raises
    before anything is printed, written or sent; and [scrape] raises, the
    state untouched, for every method that selects no adapter. *)
Theorem unsupported_method_fails_fast :
  (forall method raw,
      ~ In (Py.lower method) ["http"; "https"; "socks4"; "socks5"] ->
      Proxy.__init__ method raw =
      Raise (NotImplementedError "Only HTTP, HTTPS, SOCKS4, and SOCKS5 are supported")) /\
  (forall method raw,
      In (Py.lower method) ["http"; "https"; "socks4"; "socks5"] ->
      Proxy.__init__ method raw = Ok {| method := Py.lower method; proxy := raw |}) /\
  (forall env site timeout verbose random_user_agent sched file method st content,
      files st file = Some content ->
      lines_of EmptyString content <> [] ->
      ~ In (Py.lower method) ["http"; "https"; "socks4"; "socks5"] ->
      check_proxies env site timeout verbose random_user_agent sched file method st =
      (Raise (NotImplementedError "Only HTTP, HTTPS, SOCKS4, and SOCKS5 are supported"), st)) /\
  (forall scrapers web method_ output verbose st,
      matching scrapers method_ = [] ->
      proxyScraper.scrape scrapers web method_ output verbose st =
      (Raise (ValueError "Method not supported"), st)).
Proof.
  assert (Hno : forall method,
             ~ In (Py.lower method) ["http"; "https"; "socks4"; "socks5"] ->
             supported method = false).
  { intros method Hn. destruct (supported method) eqn:E; [|reflexivity].
    apply supported_iff in E. contradiction. }
  repeat split.
  - intros method raw Hn. apply init_unsupported. auto.
  - intros method raw Hin. apply init_supported. apply supported_iff. exact Hin.
  - intros env site timeout verbose rua sched file method st content Hfile Hne Hn.
    rewrite check_proxies_unfold, Hfile.
    destruct (lines_of EmptyString content) as [|line lines]; [congruence|].
    rewrite construct_unsupported by auto. reflexivity.
  - intros scrapers web method_ output verbose st Hnone.
    rewrite scrape_unfold, Hnone. reflexivity.
Qed.

Lemma unsupported_method_fails_fast_witness :
  check_proxies mock_env "http://example.com/" 20 true true [] "output.txt" "socks"
                (boot three_lines [0; 0; 0]) =
  (Raise (NotImplementedError "Only HTTP, HTTPS, SOCKS4, and SOCKS5 are supported"),
   boot three_lines [0; 0; 0]).
Proof.
  apply (proj1 (proj2 (proj2 unsupported_method_fails_fast))
           mock_env "http://example.com/" 20%Z true true [] "output.txt" "socks"
           (boot three_lines [0; 0; 0]) three_lines).
  - reflexivity.
  - vm_compute. discriminate.
  - simpl. intros [H|[H|[H|[H|[]]]]]; discriminate H.
Defined.

(** As the module stands its list of adapters cannot be built: the two
    [GeneralTableScraper] entries are given no URL template, so loading the
    script raises before [scrape] is reached, whatever the method. *)
Lemma main_raises_at_load web proxy output verbose st :
  proxyScraper.main web proxy output verbose st =
  (Raise (TypeError "Scraper.__init__() missing 1 required positional argument: 'url_template'"),
   st).
Proof. reflexivity. Qed.

(** * One adapter failing *)

Lemma gather_unfold web tasks st :
  proxyScraper.gather web tasks st =
  match proxyScraper.first_failure (task_outcomes web tasks) with
  | Some (e, t) => (Raise e, snd (proxyScraper.gather web tasks st))
  | None => (Ok (proxyScraper.successes (task_outcomes web tasks)), snd (proxyScraper.gather web tasks st))
  end.
Proof.
  unfold proxyScraper.gather, task_outcomes.
  destruct (proxyScraper.first_failure _) as [[e t]|]; reflexivity.
Qed.

Lemma gather_files web tasks st : files (snd (proxyScraper.gather web tasks st)) = files st.
Proof.
  unfold proxyScraper.gather. destruct (proxyScraper.first_failure _) as [[e t]|]; reflexivity.
Qed.

(** C6, as the code has it: the adapters selected for a method are gathered
    without [return_exceptions] and none of them catches anything, so the
    scrape is all or nothing.  When one of them raises, [scrape] raises the
    exception of an adapter that failed and the output file is left as it
    was; when all of them return, their addresses are written, in the order
    of the adapters, joined by line feeds. *)
Theorem scrape_all_or_nothing :
  forall scrapers web method_ output verbose st,
    matching scrapers method_ <> [] ->
    ((exists s e, In s (matching scrapers method_) /\ adapter_result web s = Raise e) ->
     exists s e,
       In s (matching scrapers method_) /\ adapter_result web s = Raise e /\
       fst (proxyScraper.scrape scrapers web method_ output verbose st) = Raise e /\
       files (snd (proxyScraper.scrape scrapers web method_ output verbose st)) = files st) /\
    ((forall s, In s (matching scrapers method_) -> exists l, adapter_result web s = Ok l) ->
     exists found,
       map (adapter_result web) (matching scrapers method_) = map Ok found /\
       fst (proxyScraper.scrape scrapers web method_ output verbose st) = Ok tt /\
       files (snd (proxyScraper.scrape scrapers web method_ output verbose st)) output =
       Some (String.concat newline (concat found))).
Proof.
  intros scrapers web method_ output verbose st Hne.
  rewrite scrape_unfold.
  destruct (matching scrapers method_) as [|s0 tasks0] eqn:Htasks; [congruence|].
  set (tasks := s0 :: tasks0) in *. clearbody tasks. clear Hne Htasks s0 tasks0.
  assert (Hv : forall m st0, exists st1, proxyScraper.verbose_print verbose m st0 = (Ok tt, st1) /\
                                         files st1 = files st0).
  { intros m st0. unfold proxyScraper.verbose_print, print, ret. destruct verbose; eauto. }
  destruct (Hv Scraping st) as (st0 & -> & Hf0).
  rewrite gather_unfold.
  assert (Hin : forall r t, In (r, t) (task_outcomes web tasks) ->
                            exists s, In s tasks /\ adapter_result web s = r).
  { intros r t H. unfold task_outcomes in H. rewrite map_map in H.
    apply in_map_iff in H. destruct H as (s & Heq & Hs). inversion Heq; subst. eauto. }
  split.
  - intros (s & e & Hs & He).
    destruct (proxyScraper.first_failure (task_outcomes web tasks)) as [[e' t']|] eqn:Hff.
    + apply first_failure_some in Hff. destruct (Hin _ _ Hff) as (s' & Hs' & Hr').
      exists s', e'. repeat split; auto.
      simpl. rewrite gather_files. exact Hf0.
    + exfalso. rewrite first_failure_none in Hff.
      destruct (Hff (adapter_result web s) (snd (proxyScraper.Scraper_scrape web s))) as [a Ha].
      * unfold task_outcomes. rewrite map_map. apply in_map_iff. exists s. auto.
      * congruence.
  - intros Hall.
    destruct (proxyScraper.first_failure (task_outcomes web tasks)) as [[e' t']|] eqn:Hff.
    + exfalso. apply first_failure_some in Hff. destruct (Hin _ _ Hff) as (s' & Hs' & Hr').
      destruct (Hall s' Hs') as [l Hl]. congruence.
    + exists (proxyScraper.successes (task_outcomes web tasks)). split.
      * rewrite <- (successes_all_ok (task_outcomes web tasks) fst) by auto.
        unfold task_outcomes. rewrite !map_map. reflexivity.
      * unfold bind, write_file, time, proxyScraper.verbose_print, print, ret.
        destruct verbose; simpl; rewrite String.eqb_refl; auto.
Qed.

(** C6, the claim as it stands fails: with the spys.me adapter returning two
    addresses and the proxyscrape adapter failing, [scrape] raises and writes
    no file: the addresses that were found are lost. *)
Lemma one_failure_aborts_scrape :
  In (proxyScraper.SpysMe "http" "https://spys.me/{mode}.txt") (matching built_scrapers "http") /\
  adapter_result flaky_web (proxyScraper.SpysMe "http" "https://spys.me/{mode}.txt")
  = Ok ["1.2.3.4:80"; "5.6.7.8:9999"] /\
  fst (proxyScraper.scrape built_scrapers flaky_web "http" "scraped.txt" false (boot "" []))
  = Raise (ConnectError "api.proxyscrape.com") /\
  files (snd (proxyScraper.scrape built_scrapers flaky_web "http" "scraped.txt" false
                                  (boot "" []))) "scraped.txt" = None.
Proof. repeat split; vm_compute; auto. Qed.

Lemma scrape_all_or_nothing_witness :
  exists found,
    map (adapter_result steady_web) (matching built_scrapers "http") = map Ok found /\
    fst (proxyScraper.scrape built_scrapers steady_web "http" "scraped.txt" false (boot "" []))
    = Ok tt /\
    files (snd (proxyScraper.scrape built_scrapers steady_web "http" "scraped.txt" false
                                    (boot "" []))) "scraped.txt" =
    Some (String.concat newline (concat found)).
Proof.
  apply (proj2 (scrape_all_or_nothing built_scrapers steady_web "http" "scraped.txt" false
                  (boot "" []) ltac:(vm_compute; discriminate))).
  intros s Hs. vm_compute in Hs.
  repeat (destruct Hs as [<-|Hs]; [eexists; vm_compute; reflexivity|]).
  contradiction.
Defined.

(** A thread left alone does what [check_proxy] does: its five steps leave
    the state and the list [valid_proxies] that an uninterrupted call of the
    closure leaves. *)
Lemma thread_alone_runs_check_proxy env site timeout verbose random_user_agent p ua sh st :
  let '(pool, sh', st') :=
    join env site timeout verbose random_user_agent 0 ([Created p ua], sh, st) in
  let '(r, st'') :=
    check_proxy env site timeout verbose random_user_agent p ua (valid_proxies sh) st in
  st' = st'' /\
  match r with
  | Ok valid => pool = [Finished] /\ valid_proxies sh' = valid
  | Raise e => pool = [Died p e] /\ valid_proxies sh' = valid_proxies sh
  end.
Proof.
  unfold join, check_proxy. unfold bind at 1.
  unfold step_at at 5. cbn [nth_error thread_step set_nth].
  destruct ((if random_user_agent then random_choice (user_agents env) else ret ua) st)
    as [[ua'|e] st1]; [|cbn; auto].
  unfold bind at 1. rewrite check_phases.
  unfold step_at at 4. cbn [nth_error thread_step set_nth].
  destruct (Proxy.check_configure p st1) as [[[]|e] st2]; [|cbn; auto].
  unfold check_after_configure.
  unfold step_at at 3. cbn [nth_error thread_step set_nth].
  destruct (Proxy.check_prepare p site timeout ua' st2) as [[[start_time req]|e] st3].
  - unfold step_at at 2. cbn [nth_error thread_step set_nth].
    destruct (urlopen env req st3) as [[[]|e] st4];
      unfold step_at; cbn [nth_error thread_step set_nth];
      match goal with
      | |- context [Proxy.check_finish ?s ?v ?r ?st] =>
          destruct (finish_total s v r st) as ([[b t] err] & st5 & ->)
      end; destruct b; cbn; auto.
  - unfold step_at at 2. cbn [nth_error thread_step set_nth].
    unfold step_at; cbn [nth_error thread_step set_nth].
    destruct (finish_total p verbose (Raise e) st3) as ([[b t] err] & st5 & ->).
    destruct b; cbn; auto.
Qed.

(** * What the scraper extracts *)

Section MatcherSound.
Variable A : Type.
Implicit Types (k : nat -> string -> option A).

Lemma rep_sound step L (Hstep : step_sound A step L) k :
  forall hi lo pos s a,
    Re.rep step k lo hi pos s = Some a ->
    exists n s1 s2, lo <= n <= hi /\ s = (s1 ++ s2)%string /\
                    Re.iter_lang L n pos s1 s2 /\
                    k (pos + String.length s1) s2 = Some a.
Proof.
  induction hi as [|hi IH]; intros lo pos s a; simpl.
  - destruct (Nat.eqb_spec lo 0) as [->|]; [|discriminate].
    intros Hk. exists 0, EmptyString, s. simpl. rewrite Nat.add_0_r. auto.
  - destruct (step pos s (Re.rep step k (Nat.pred lo) hi)) as [a'|] eqn:E.
    + intros Ha. inversion Ha; subst a'. clear Ha.
      apply Hstep in E. destruct E as (u & rest & -> & Hu & Hrest).
      apply IH in Hrest. destruct Hrest as (n & v & s2 & Hn & -> & Hit & Hk).
      exists (S n), (u ++ v)%string, s2. repeat split.
      * lia.
      * lia.
      * symmetry. apply sapp_assoc.
      * simpl. exists u, v. auto.
      * rewrite slength_app, Nat.add_assoc. exact Hk.
    + destruct (Nat.eqb_spec lo 0) as [->|]; [|discriminate].
      intros Hk. exists 0, EmptyString, s. simpl. rewrite Nat.add_0_r.
      repeat split; auto; lia.
Qed.

Lemma run_sound (r : Re.regex) : step_sound A (Re.run (A:=A) r) (Re.lang r).
Proof.
  induction r as [| | |c|r1 IH1 r2 IH2|r0 IH0 lo hi]; intros pos s k a; simpl.
  - destruct (Nat.eqb_spec pos 0) as [->|]; [|discriminate].
    intros Hk. exists EmptyString, s. auto.
  - destruct (Re.at_eol s) eqn:E; [|discriminate].
    intros Hk. exists EmptyString, s. rewrite Nat.add_0_r. auto.
  - destruct s as [|d s']; [discriminate|].
    destruct (Py.isdigit d) eqn:E; [|discriminate].
    intros Hk. exists (String d EmptyString), s'. simpl. rewrite Nat.add_1_r.
    repeat split; eauto.
  - destruct s as [|d s']; [discriminate|].
    destruct (Ascii.eqb_spec d c) as [->|]; [|discriminate].
    intros Hk. exists (String c EmptyString), s'. simpl. rewrite Nat.add_1_r. auto.
  - intros H. apply IH1 in H. destruct H as (u & rest & -> & Hu & H).
    apply IH2 in H. destruct H as (v & s2 & -> & Hv & Hk).
    exists (u ++ v)%string, s2. repeat split.
    + symmetry. apply sapp_assoc.
    + exists u, v. auto.
    + rewrite slength_app, Nat.add_assoc. exact Hk.
  - intros H. apply (rep_sound _ _ IH0) in H.
    destruct H as (n & s1 & s2 & Hn & -> & Hit & Hk). exists s1, s2. eauto.
Qed.
End MatcherSound.

Lemma substring_prefix (s1 s2 : string) :
  substring 0 (String.length s1) (s1 ++ s2) = s1.
Proof.
  induction s1 as [|c s1 IH]; simpl; [destruct s2; reflexivity | rewrite IH; reflexivity].
Qed.

Lemma drop_prefix (s1 s2 : string) : Re.drop (String.length s1) (s1 ++ s2) = s2.
Proof. induction s1 as [|c s1 IH]; simpl; [reflexivity | exact IH]. Qed.

Lemma findall_from_step fuel r pos s :
  Re.findall_from (S fuel) r pos s =
  match Re.run r pos s (fun e _ => Some e) with
  | Some e =>
      substring 0 (e - pos) s ::
        match s with
        | EmptyString => []
        | String _ s' =>
            if Nat.eqb (e - pos) 0 then Re.findall_from fuel r (S pos) s'
            else Re.findall_from fuel r e (Re.drop (e - pos) s)
        end
  | None =>
      match s with
      | EmptyString => []
      | String _ s' => Re.findall_from fuel r (S pos) s'
      end
  end.
Proof. reflexivity. Qed.

Lemma findall_from_addresses fuel : forall pos s,
  Forall ipv4_port (Re.findall_from fuel Re.address_body pos s).
Proof.
  induction fuel as [|fuel IH]; intros pos s; [constructor|].
  rewrite findall_from_step.
  destruct (Re.run Re.address_body pos s (fun e _ => Some e)) as [e|] eqn:E.
  - apply (run_sound nat) in E. destruct E as (s1 & s2 & -> & Hl & He).
    inversion He; subst e. clear He.
    replace (pos + String.length s1 - pos) with (String.length s1) by lia.
    constructor.
    + rewrite substring_prefix. apply lang_address_body in Hl. exact Hl.
    + destruct (s1 ++ s2)%string; [constructor|].
      destruct (Nat.eqb (String.length s1) 0); apply IH.
  - destruct s; [constructor | apply IH].
Qed.

Lemma ipv4_port_is_valid (a m : string) :
  ipv4_port a -> Proxy.is_valid {| method := m; proxy := a |} = true.
Proof.
  intros Ha. apply is_valid_iff. exists a, EmptyString. simpl.
  rewrite sapp_nil_r. auto.
Qed.

(** X1: whatever page an adapter is served, every string its [scrape]
    returns is an address of four groups of 1-3 digits, a colon and 1-5
    digits, so each one passes [Proxy.is_valid] when the checker reads it. *)
Theorem scraped_addresses_are_valid :
  forall web s found,
    adapter_result web s = Ok found ->
    Forall (fun a => ipv4_port a /\
                     forall m, Proxy.is_valid {| method := m; proxy := a |} = true) found.
Proof.
  intros web s found. unfold adapter_result, proxyScraper.Scraper_scrape.
  destruct (proxyScraper.get_url s []) as [url|e]; [|discriminate].
  destruct (proxyScraper.http_get web url) as [[text|e] t]; [|discriminate].
  simpl. intros H. inversion H; subst found. clear H.
  unfold Re.findall.
  eapply Forall_impl; [|apply findall_from_addresses].
  intros a Ha. split; [exact Ha | intros m; apply ipv4_port_is_valid; exact Ha].
Qed.

Lemma scraped_addresses_are_valid_witness :
  Forall (fun a => ipv4_port a /\
                   forall m, Proxy.is_valid {| method := m; proxy := a |} = true)
         ["1.2.3.4:80"; "5.6.7.8:9999"].
Proof.
  apply (scraped_addresses_are_valid flaky_web
           (proxyScraper.SpysMe "http" "https://spys.me/{mode}.txt")).
  vm_compute. reflexivity.
Defined.

(** ** Every address of a line list is found *)

Section Greedy.
Variable A : Type.
Implicit Types (k : nat -> string -> option A).

Lemma rep_step_some step k lo hi pos s v :
  step pos s (Re.rep step k (Nat.pred lo) hi) = Some v ->
  Re.rep step k lo (S hi) pos s = Some v.
Proof. intros H. simpl. rewrite H. reflexivity. Qed.

(** A repetition of [\d] followed by something that is not a digit takes all
    the digits there are, when the rest of the pattern then matches. *)
Lemma greedy_digits k v : forall d lo hi pos rest,
  all_digits d = true -> lo <= String.length d <= hi ->
  no_digit_ahead rest = true ->
  k (pos + String.length d) rest = Some v ->
  Re.rep (Re.run Re.Digit) k lo hi pos (d ++ rest) = Some v.
Proof.
  induction d as [|c d IH]; intros lo hi pos rest Hd Hlen Hrest Hk.
  - simpl in *. assert (lo = 0) by lia. subst lo. rewrite Nat.add_0_r in Hk.
    destruct hi as [|hi]; simpl; [exact Hk|].
    destruct rest as [|c rest]; [exact Hk|].
    simpl in Hrest. apply negb_true_iff in Hrest. rewrite Hrest. exact Hk.
  - simpl in Hd. apply andb_true_iff in Hd. destruct Hd as [Hc Hd].
    simpl in Hlen. destruct hi as [|hi]; [lia|].
    apply rep_step_some. simpl. rewrite Hc.
    apply IH; auto; [lia|].
    simpl in Hk. rewrite Nat.add_succ_r in Hk. exact Hk.
Qed.

Lemma run_dot_group k v b rest pos :
  digit_group 1 3 b -> no_digit_ahead rest = true ->
  k (S pos + String.length b) rest = Some v ->
  Re.run (Re.Seq (Re.Lit ".") (Re.Rep Re.Digit 1 3)) pos (String "." (b ++ rest)) k = Some v.
Proof.
  intros [Hlen Hb] Hrest Hk. cbn [Re.run]. rewrite Ascii.eqb_refl.
  apply greedy_digits; auto.
Qed.

(** The address pattern, tried where an address stands that no digit
    follows, consumes the whole address. *)
Lemma run_address k v a rest pos :
  ipv4_port a -> no_digit_ahead rest = true ->
  k (pos + String.length a) rest = Some v ->
  Re.run Re.address_body pos (a ++ rest) k = Some v.
Proof.
  intros (a1 & b & c & d & p & -> & [Hl1 H1] & Hb & Hc & Hd & [Hlp Hp]) Hrest Hk.
  unfold Re.address_body. cbn [Re.run].
  replace ((a1 ++ "." ++ b ++ "." ++ c ++ "." ++ d ++ ":" ++ p) ++ rest)%string
    with (a1 ++ String "." (b ++ String "." (c ++ String "." (d ++ String ":" (p ++ rest)))))%string
    by (repeat (rewrite ?sapp_assoc; simpl); reflexivity).
  apply greedy_digits; auto.
  apply rep_step_some. apply run_dot_group; auto.
  apply rep_step_some. apply run_dot_group; auto.
  apply rep_step_some. apply run_dot_group; auto.
  change (Re.rep (Re.run Re.Digit) k 1 5
            (S (S (S (S (pos + String.length a1) + String.length b) + String.length c)
                + String.length d))
            (p ++ rest) = Some v).
  apply greedy_digits; auto.
  rewrite <- Hk. f_equal. repeat (rewrite ?slength_app; simpl String.length). lia.
Qed.
End Greedy.

Lemma address_not_empty (a : string) : ipv4_port a -> 1 <= String.length a.
Proof.
  intros (a1 & b & c & d & p & -> & [Hl _] & _). rewrite slength_app. lia.
Qed.

Lemma findall_from_tail fuel pos tl :
  tl = EmptyString \/ tl = newline ->
  Re.findall_from fuel Re.address_body pos tl = [].
Proof.
  intros [-> | ->].
  - destruct fuel; reflexivity.
  - destruct fuel as [|[|fuel]]; reflexivity.
Qed.

Lemma concat_two (sep a b : string) (l : list string) :
  String.concat sep (a :: b :: l) = (a ++ sep ++ String.concat sep (b :: l))%string.
Proof. reflexivity. Qed.

Lemma findall_from_lines tl (Htl : tl = EmptyString \/ tl = newline) : forall l fuel pos,
  Forall ipv4_port l ->
  S (String.length (String.concat newline l ++ tl)) <= fuel ->
  Re.findall_from fuel Re.address_body pos (String.concat newline l ++ tl) = l.
Proof.
  induction l as [|a l IH]; intros fuel pos Hl Hfuel.
  - simpl. apply findall_from_tail. exact Htl.
  - inversion Hl as [|? ? Ha Hl']; subst.
    pose proof (address_not_empty a Ha) as Hlen.
    destruct fuel as [|fuel]; [lia|].
    destruct l as [|b l].
    + simpl String.concat in *. rewrite findall_from_step.
      rewrite (run_address nat _ (pos + String.length a) a tl pos Ha);
        [|destruct Htl as [-> | ->]; reflexivity | reflexivity].
      replace (pos + String.length a - pos) with (String.length a) by lia.
      rewrite substring_prefix, drop_prefix.
      destruct a as [|c a']; [simpl in Hlen; lia|].
      simpl. f_equal. apply findall_from_tail. exact Htl.
    + rewrite concat_two in *. rewrite !sapp_assoc in *.
      set (T := (String.concat newline (b :: l) ++ tl)%string) in *.
      rewrite findall_from_step.
      rewrite (run_address nat _ (pos + String.length a) a (newline ++ T) pos Ha);
        [|reflexivity | reflexivity].
      replace (pos + String.length a - pos) with (String.length a) by lia.
      rewrite substring_prefix, drop_prefix.
      rewrite slength_app in Hfuel. simpl in Hfuel.
      destruct a as [|c a']; [simpl in Hlen; lia|].
      simpl String.append at 1. cbv iota. simpl Nat.eqb. cbv iota.
      f_equal.
      destruct fuel as [|fuel]; [simpl in Hfuel; lia|].
      change (newline ++ T)%string with (String LF T).
      rewrite findall_from_step.
      change (Re.run Re.address_body (pos + String.length (String c a')) (String LF T)
                     (fun e _ => Some e)) with (@None nat).
      apply IH; [exact Hl'|]. simpl in Hfuel. lia.
Qed.

(** A concrete string is an address: its five groups are given. *)
Ltac address_by a b c d p :=
  exists a, b, c, d, p; unfold digit_group; simpl; repeat split; lia.

(** X2: an adapter that takes the page as it is (every one but the table
    adapter), served a list of addresses, one per line, with or without a
    final line feed, returns exactly those addresses, in order and with their
    repetitions. *)
Theorem line_list_is_extracted :
  forall web s url addresses tl t,
    (forall m u, s <> proxyScraper.GeneralTable m u) ->
    proxyScraper.get_url s [] = Ok url ->
    proxyScraper.http_get web url = (Ok (String.concat newline addresses ++ tl)%string, t) ->
    Forall ipv4_port addresses ->
    tl = EmptyString \/ tl = newline ->
    adapter_result web s = Ok addresses.
Proof.
  intros web s url l tl t Hs Hurl Hget Hl Htl.
  unfold adapter_result, proxyScraper.Scraper_scrape. rewrite Hurl, Hget. simpl.
  f_equal. unfold Re.findall.
  replace (proxyScraper.handle web s (String.concat newline l ++ tl))
    with (String.concat newline l ++ tl)%string
    by (destruct s; try reflexivity; exfalso; eapply Hs; reflexivity).
  apply findall_from_lines; auto.
Qed.

Lemma line_list_is_extracted_witness :
  adapter_result listing_web (proxyScraper.SpysMe "http" "https://spys.me/{mode}.txt")
  = Ok ["1.2.3.4:80"; "5.6.7.8:9999"; "1.2.3.4:80"].
Proof.
  refine (line_list_is_extracted listing_web _ "https://spys.me/proxy.txt"
            ["1.2.3.4:80"; "5.6.7.8:9999"; "1.2.3.4:80"] newline 3%Z _ _ _ _ _).
  - intros m u. discriminate.
  - reflexivity.
  - reflexivity.
  - repeat constructor.
    + address_by "1" "2" "3" "4" "80".
    + address_by "5" "6" "7" "8" "9999".
    + address_by "1" "2" "3" "4" "80".
  - right. reflexivity.
Defined.

(** * White space, lines and the two files *)

Lemma address_char_no_space (c : ascii) : address_char c = true -> Py.isspace c = false.
Proof.
  destruct c as [[] [] [] [] [] [] [] []]; intros H; try discriminate H; reflexivity.
Qed.

Lemma address_chars_no_space (s : string) : address_chars s = true -> no_space s = true.
Proof.
  induction s as [|c s IH]; simpl; [reflexivity|].
  intros H. apply andb_true_iff in H. destruct H as [Hc Hs].
  rewrite (address_char_no_space c Hc), (IH Hs). reflexivity.
Qed.

Lemma ipv4_port_no_space (a : string) : ipv4_port a -> no_space a = true.
Proof. intros H. apply address_chars_no_space, ipv4_port_chars, H. Qed.

Lemma no_space_break (c : ascii) :
  Py.isspace c = false -> Ascii.eqb c LF = false /\ Ascii.eqb c CR = false.
Proof.
  destruct c as [[] [] [] [] [] [] [] []]; intros H; try discriminate H; split; reflexivity.
Qed.

Lemma rstrip_no_space (s : string) : no_space s = true -> Py.rstrip s = s.
Proof.
  induction s as [|c s IH]; simpl; [reflexivity|].
  intros H. apply andb_true_iff in H. destruct H as [Hc Hs]. rewrite (IH Hs).
  destruct s; [|reflexivity].
  apply negb_true_iff in Hc. rewrite Hc. reflexivity.
Qed.

Lemma rstrip_no_space_newline (s : string) :
  no_space s = true -> Py.rstrip (s ++ newline) = s.
Proof.
  induction s as [|c s IH]; simpl; [reflexivity|].
  intros H. apply andb_true_iff in H. destruct H as [Hc Hs]. rewrite (IH Hs).
  destruct s; [|reflexivity].
  apply negb_true_iff in Hc. rewrite Hc. reflexivity.
Qed.

Lemma lstrip_no_space (s tail : string) :
  no_space s = true -> s <> EmptyString -> Py.lstrip (s ++ tail) = (s ++ tail)%string.
Proof.
  destruct s as [|c s]; [congruence|]. simpl.
  intros H _. apply andb_true_iff in H. destruct H as [Hc _].
  apply negb_true_iff in Hc. rewrite Hc. reflexivity.
Qed.

(** A line without white space, stripped of its terminator. *)
Lemma strip_line (s tail : string) :
  no_space s = true -> tail = EmptyString \/ tail = newline -> Py.strip (s ++ tail) = s.
Proof.
  intros Hs Ht. unfold Py.strip.
  destruct s as [|c s]; [destruct Ht as [-> | ->]; reflexivity|].
  rewrite lstrip_no_space by (auto; discriminate).
  destruct Ht as [-> | ->].
  - rewrite sapp_nil_r. apply rstrip_no_space, Hs.
  - apply rstrip_no_space_newline, Hs.
Qed.

(** What [rstrip] returns does not end with a line feed. *)
Lemma rstrip_no_final_newline (s : string) : forall x, Py.rstrip s <> (x ++ newline)%string.
Proof.
  induction s as [|c s IH]; intros x; simpl.
  - destruct x; discriminate.
  - destruct (Py.rstrip s) as [|d t] eqn:E.
    + destruct (Py.isspace c) eqn:Hc; [destruct x; discriminate|].
      destruct x as [|c' x]; simpl.
      * intros H. inversion H; subst c. discriminate Hc.
      * intros H. inversion H. destruct x; discriminate.
    + destruct x as [|c' x]; simpl.
      * discriminate.
      * intros H. inversion H; subst. eapply IH; eassumption.
Qed.

(** The candidates the checker keeps carry an address and nothing else:
    the line feed [$] would let through was stripped with the line. *)
Lemma stripped_valid_exact (m line : string) :
  Proxy.is_valid {| method := m; proxy := Py.strip line |} = true <->
  ipv4_port (Py.strip line).
Proof.
  split.
  - intros H. apply is_valid_iff in H. destruct H as (x & tail & Hs & Hx & [-> | ->]).
    + simpl in Hs. rewrite sapp_nil_r in Hs. rewrite Hs. exact Hx.
    + exfalso. simpl in Hs. unfold Py.strip in Hs.
      exact (rstrip_no_final_newline _ _ Hs).
  - apply ipv4_port_is_valid.
Qed.

Lemma lines_of_no_space (a : string) : forall cur rest,
  no_space a = true ->
  lines_of cur (a ++ rest) = lines_of (cur ++ a) rest.
Proof.
  induction a as [|c a IH]; intros cur rest H; simpl.
  - rewrite sapp_nil_r. reflexivity.
  - simpl in H. apply andb_true_iff in H. destruct H as [Hc Ha].
    apply negb_true_iff in Hc. destruct (no_space_break c Hc) as [H1 H2].
    rewrite H1, H2, IH by exact Ha.
    rewrite sapp_assoc. reflexivity.
Qed.

Lemma sconcat_cons (x : string) (l : list string) :
  String.concat "" (x :: l) = (x ++ String.concat "" l)%string.
Proof. destruct l; simpl; [rewrite sapp_nil_r|]; reflexivity. Qed.

(** Reading back a file of terminated lines gives the lines. *)
Lemma lines_of_terminated (l : list string) :
  Forall (fun a => no_space a = true) l ->
  lines_of EmptyString (String.concat "" (map (fun a => (a ++ newline)%string) l)) =
  map (fun a => (a ++ newline)%string) l.
Proof.
  induction 1 as [|a l Ha Hl IH]; [reflexivity|].
  cbn [map]. rewrite sconcat_cons, sapp_assoc, lines_of_no_space by exact Ha.
  simpl. rewrite IH. reflexivity.
Qed.

(** Reading back a file of lines joined by line feeds, the last one not
    terminated, and stripping each line gives the lines. *)
Lemma stripped_lines_of_joined (l : list string) :
  Forall ipv4_port l ->
  map Py.strip (lines_of EmptyString (String.concat newline l)) = l.
Proof.
  induction 1 as [|a l Ha Hl IH]; [reflexivity|].
  pose proof (ipv4_port_no_space a Ha) as Hs.
  pose proof (address_not_empty a Ha) as Hlen.
  destruct l as [|b l].
  - simpl String.concat. rewrite <- (sapp_nil_r a) at 1.
    rewrite lines_of_no_space by exact Hs. simpl.
    destruct a as [|c a]; [simpl in Hlen; lia|].
    cbn [map]. rewrite <- (sapp_nil_r (String c a)) at 1.
    rewrite strip_line; auto.
  - rewrite concat_two, lines_of_no_space by exact Hs.
    simpl lines_of. cbn [map]. rewrite strip_line by auto.
    f_equal. exact IH.
Qed.

(** * The table adapter *)

Lemma handle_table web m u text rows :
  proxyScraper.html_table web text = Some rows ->
  proxyScraper.handle web (proxyScraper.GeneralTable m u) text =
  String.concat newline
    (proxyScraper.set_order web (nodup string_dec (flat_map row_address rows))).
Proof. intros H. simpl. rewrite H. reflexivity. Qed.

(** X3: the table adapter on a table all of whose rows of two cells or more
    give an address (the first two cells, stripped and joined by a colon),
    the set being listed in some order of its elements: the adapter returns
    each distinct address of the table once, whatever that order; rows with
    fewer than two cells count for nothing; and a page without such a table
    gives the empty list. *)
Theorem table_rows_are_extracted :
  forall web m u url text t,
    proxyScraper.get_url (proxyScraper.GeneralTable m u) [] = Ok url ->
    proxyScraper.http_get web url = (Ok text, t) ->
    (proxyScraper.html_table web text = None ->
     adapter_result web (proxyScraper.GeneralTable m u) = Ok []) /\
    (forall rows,
        proxyScraper.html_table web text = Some rows ->
        Forall ipv4_port (flat_map row_address rows) ->
        Permutation (proxyScraper.set_order web (nodup string_dec (flat_map row_address rows)))
                    (nodup string_dec (flat_map row_address rows)) ->
        exists found,
          adapter_result web (proxyScraper.GeneralTable m u) = Ok found /\
          NoDup found /\
          forall a, In a found <-> In a (flat_map row_address rows)).
Proof.
  intros web m u url text t Hurl Hget.
  unfold adapter_result, proxyScraper.Scraper_scrape. rewrite Hurl, Hget.
  split.
  - intros Hnone. simpl. rewrite Hnone. reflexivity.
  - intros rows Hrows Haddr Hperm.
    set (distinct := nodup string_dec (flat_map row_address rows)) in *.
    exists (proxyScraper.set_order web distinct).
    split; [|split].
    + cbn [fst snd]. rewrite (handle_table web m u text rows Hrows). fold distinct.
      f_equal. unfold Re.findall.
      rewrite <- (sapp_nil_r (String.concat newline _)).
      apply findall_from_lines; auto.
      apply Forall_forall. intros a Ha.
      apply (Permutation_in _ Hperm) in Ha. apply nodup_In in Ha.
      revert a Ha. apply Forall_forall. exact Haddr.
    + apply (Permutation_NoDup (Permutation_sym Hperm)). apply NoDup_nodup.
    + intros a. split; intros Ha.
      * apply (nodup_In string_dec). apply (Permutation_in _ Hperm). exact Ha.
      * apply (Permutation_in _ (Permutation_sym Hperm)). apply nodup_In. exact Ha.
Qed.

Lemma table_rows_are_extracted_witness :
  exists found,
    adapter_result table_web (proxyScraper.GeneralTable "http" "https://example.com/{method}")
    = Ok found /\
    NoDup found /\
    forall a, In a found <-> In a ["1.2.3.4:80"; "5.6.7.8:9999"; "1.2.3.4:80"].
Proof.
  refine (proj2 (table_rows_are_extracted table_web "http" "https://example.com/{method}"
                   "https://example.com/http" "<html>" 3%Z _ _) table_rows _ _ _).
  - reflexivity.
  - reflexivity.
  - reflexivity.
  - repeat constructor.
    + address_by "1" "2" "3" "4" "80".
    + address_by "5" "6" "7" "8" "9999".
    + address_by "1" "2" "3" "4" "80".
  - vm_compute. apply perm_swap.
Defined.

(** * From the scraper's file to the checker, and from the checker's file
      to the next run *)

Lemma adapter_result_addresses web s found :
  adapter_result web s = Ok found -> Forall ipv4_port found.
Proof.
  unfold adapter_result, proxyScraper.Scraper_scrape.
  destruct (proxyScraper.get_url s []) as [url|e]; [|discriminate].
  destruct (proxyScraper.http_get web url) as [[text|e] t]; [|discriminate].
  simpl. intros H. inversion H. apply findall_from_addresses.
Qed.

Lemma successes_addresses web (tasks : list proxyScraper.Scraper) :
  Forall (Forall ipv4_port) (proxyScraper.successes (task_outcomes web tasks)).
Proof.
  induction tasks as [|s tasks IH]; [constructor|].
  unfold task_outcomes in *. cbn [map proxyScraper.successes].
  destruct (snd (fst (proxyScraper.Scraper_scrape web s))) as [found|e] eqn:E; [|exact IH].
  constructor; [|exact IH]. exact (adapter_result_addresses web s found E).
Qed.

Lemma filter_all {A} (f : A -> bool) (l : list A) :
  Forall (fun a => f a = true) l -> filter f l = l.
Proof. induction 1 as [|a l Ha Hl IH]; simpl; [|rewrite Ha, IH]; reflexivity. Qed.

Lemma candidates_of_joined (m : string) (addresses : list string) :
  Forall ipv4_port addresses ->
  filter Proxy.is_valid (candidates m (lines_of EmptyString (String.concat newline addresses))) =
  map (fun a => {| method := Py.lower m; proxy := a |}) addresses.
Proof.
  intros H. unfold candidates.
  rewrite <- (map_map Py.strip (fun a => {| method := Py.lower m; proxy := a |})).
  rewrite stripped_lines_of_joined by exact H.
  apply filter_all. apply Forall_forall. intros p Hp.
  apply in_map_iff in Hp. destruct Hp as (a & <- & Ha).
  apply ipv4_port_is_valid. revert a Ha. apply Forall_forall. exact H.
Qed.

Lemma scrape_returns scrapers web method_ output verbose st st' :
  proxyScraper.scrape scrapers web method_ output verbose st = (Ok tt, st') ->
  matching scrapers method_ <> [] /\
  proxyScraper.first_failure (task_outcomes web (matching scrapers method_)) = None /\
  files st' output =
  Some (String.concat newline
          (concat (proxyScraper.successes (task_outcomes web (matching scrapers method_))))).
Proof.
  intros H. rewrite scrape_unfold in H.
  destruct (matching scrapers method_) as [|s tasks] eqn:E; [discriminate|].
  split; [discriminate|]. cbv iota in H.
  assert (Hv : forall msg s0, exists s1,
               proxyScraper.verbose_print verbose msg s0 = (Ok tt, s1) /\
               files s1 = files s0).
  { intros msg s0. unfold proxyScraper.verbose_print, print, ret.
    destruct verbose; eexists; split; reflexivity. }
  destruct (Hv Scraping st) as (st0 & Hs & _). rewrite Hs in H.
  rewrite gather_unfold in H.
  destruct (proxyScraper.first_failure (task_outcomes web (s :: tasks))) as [[e t]|];
    [discriminate|].
  split; [reflexivity|].
  set (results := proxyScraper.successes (task_outcomes web (s :: tasks))) in *.
  destruct (Hv (Writing (length (concat results)))
               (snd (proxyScraper.gather web (s :: tasks) st0))) as (st2 & Hw & _).
  rewrite Hw in H. cbn [snd] in H.
  unfold bind at 1 in H. unfold write_file at 1 in H.
  unfold bind at 1 in H.
  match type of H with
  | context [proxyScraper.verbose_print verbose Done ?s0] =>
      destruct (Hv Done s0) as (st3 & Hd & Hf3); rewrite Hd in H
  end.
  unfold bind at 1 in H. unfold time at 1 in H.
  match type of H with
  | context [proxyScraper.verbose_print verbose ?msg ?s0] =>
      destruct (Hv msg s0) as (st4 & Ht & Hf4); rewrite Ht in H
  end.
  inversion H; subst st'. rewrite Hf4, Hf3. simpl. rewrite String.eqb_refl. reflexivity.
Qed.

Lemma joined_lines_not_empty (addresses : list string) :
  Forall ipv4_port addresses -> addresses <> [] ->
  lines_of EmptyString (String.concat newline addresses) <> [].
Proof.
  intros Ha Hne Hnil. apply stripped_lines_of_joined in Ha.
  rewrite Hnil in Ha. simpl in Ha. congruence.
Qed.

(** X4: when a scrape returns, the file it wrote holds addresses only, one
    per line.  A run of [check_proxies] on that file under a method of the
    checker (http, https, socks4, socks5) returns, and a run that returns has
    probed every one of the addresses and nothing else, repetitions kept.
    Under any other method, "socks" of the scraper among them, the run
    raises [NotImplementedError] at the first line and probes nothing. *)
Theorem scraped_file_feeds_checker :
  forall scrapers web method_ output verbose st st1,
    proxyScraper.scrape scrapers web method_ output verbose st = (Ok tt, st1) ->
    exists addresses,
      files st1 output = Some (String.concat newline addresses) /\
      Forall ipv4_port addresses /\
      (forall env site timeout v random_user_agent sched m,
          supported m = true -> user_agents env <> [] ->
          exists tr st2,
            check_proxies env site timeout v random_user_agent sched output m st1
            = (Ok tr, st2)) /\
      (forall env site timeout v random_user_agent sched m tr st2,
          check_proxies env site timeout v random_user_agent sched output m st1
          = (Ok tr, st2) ->
          Permutation (probed tr)
                      (map (fun a => {| method := Py.lower m; proxy := a |}) addresses)) /\
      (forall env site timeout v random_user_agent sched m,
          supported m = false -> addresses <> [] ->
          check_proxies env site timeout v random_user_agent sched output m st1 =
          (Raise (NotImplementedError "Only HTTP, HTTPS, SOCKS4, and SOCKS5 are supported"),
           st1)).
Proof.
  intros scrapers web method_ output verbose st st1 H.
  apply scrape_returns in H. destruct H as (_ & _ & Hf).
  eexists. split; [exact Hf|].
  set (addresses := concat (proxyScraper.successes
                              (task_outcomes web (matching scrapers method_)))) in *.
  assert (Ha : Forall ipv4_port addresses) by (apply Forall_concat, successes_addresses).
  split; [exact Ha|]. split; [|split].
  - intros env site timeout v rua sched m Hm Hua.
    exact (check_proxies_total env site timeout v rua sched output m st1 _ Hf Hm Hua).
  - intros env site timeout v rua sched m tr st2 Hrun.
    apply check_proxies_returns in Hrun.
    destruct Hrun as (content & _ & _ & _ & _ & _ & Hfile & _ & _ & _ & _ & _ & Hp & _).
    rewrite Hf in Hfile. inversion Hfile; subst content.
    rewrite Hp, (candidates_of_joined m addresses Ha). apply Permutation_refl.
  - intros env site timeout v rua sched m Hm Hne.
    rewrite check_proxies_unfold, Hf.
    destruct (construct_cases m (lines_of EmptyString (String.concat newline addresses)) st1)
      as [[_ [Hs | Hnil]] | [-> _]]; [congruence | | reflexivity].
    exfalso. exact (joined_lines_not_empty addresses Ha Hne Hnil).
Qed.

Lemma scraped_file_feeds_checker_witness :
  fst (proxyScraper.scrape built_scrapers listing_web "socks" "output.txt" true (boot "" []))
  = Ok tt /\
  fst (check_proxies mock_env "http://example.com/" 20 false false [] "output.txt" "socks"
                     (snd (proxyScraper.scrape built_scrapers listing_web "socks" "output.txt"
                                               true (boot "" []))))
  = Raise (NotImplementedError "Only HTTP, HTTPS, SOCKS4, and SOCKS5 are supported").
Proof.
  split; [vm_compute; reflexivity|].
  destruct (scraped_file_feeds_checker built_scrapers listing_web "socks" "output.txt" true
              (boot "" [])
              (snd (proxyScraper.scrape built_scrapers listing_web "socks" "output.txt" true
                                        (boot "" []))))
    as (addresses & Hf & _ & _ & _ & Hraise).
  { vm_compute. reflexivity. }
  rewrite (Hraise mock_env "http://example.com/" 20%Z false false [] "socks" eq_refl);
    [reflexivity|].
  intros ->. vm_compute in Hf. discriminate Hf.
Defined.

Lemma kept_candidate (m : string) (lines : list string) (p : Proxy) :
  In p (filter Proxy.is_valid (candidates m lines)) ->
  method p = Py.lower m /\ ipv4_port (proxy p).
Proof.
  intros H. apply filter_In in H. destruct H as [Hin Hv].
  apply in_map_iff in Hin. destruct Hin as (line & <- & _).
  split; [reflexivity|]. apply (stripped_valid_exact (Py.lower m) line), Hv.
Qed.

Lemma reread_written (m : string) (l : list Proxy) :
  Forall (fun p => method p = Py.lower m /\ ipv4_port (proxy p)) l ->
  filter Proxy.is_valid
         (candidates m (lines_of EmptyString
                          (String.concat "" (map (fun p => (Proxy.__str__ p ++ newline)%string) l))))
  = l.
Proof.
  intros H. unfold Proxy.__str__.
  rewrite <- (map_map proxy (fun a => (a ++ newline)%string)).
  rewrite lines_of_terminated.
  - unfold candidates. rewrite !map_map.
    assert (Hm : map (fun p => {| method := Py.lower m;
                                  proxy := Py.strip (proxy p ++ newline) |}) l = l).
    { induction H as [|p l [Hp1 Hp2] Hl IH]; [reflexivity|].
      cbn [map]. rewrite IH, strip_line by (auto using ipv4_port_no_space).
      rewrite <- Hp1. destruct p; reflexivity. }
    rewrite Hm. apply filter_all.
    eapply Forall_impl; [|exact H].
    intros p [_ Hp]. destruct p as [pm pp]. apply ipv4_port_is_valid. exact Hp.
  - apply Forall_forall. intros a Ha. apply in_map_iff in Ha.
    destruct Ha as (p & <- & Hp).
    apply ipv4_port_no_space.
    exact (proj2 (proj1 (Forall_forall _ _) H p Hp)).
Qed.

(** X5: the file a run of [check_proxies] leaves is read back as it was
    written: a next run under the same method takes exactly the survivors of
    this run as its candidates, in the order they were appended. *)
Theorem written_file_is_reread :
  forall env site timeout verbose random_user_agent sched file method st tr st',
    check_proxies env site timeout verbose random_user_agent sched file method st
    = (Ok tr, st') ->
    exists content,
      files st' file = Some content /\
      filter Proxy.is_valid (candidates method (lines_of EmptyString content)) = survivors tr.
Proof.
  intros env site timeout verbose rua sched file method st tr st' H.
  apply check_proxies_returns in H.
  destruct H as (content & threads & st1 & pool & sh & st2 & _ & _ & _ & _ & _ & _ & Hperm & Hf).
  exists (written tr). split; [exact Hf|].
  unfold written. apply reread_written.
  apply Forall_forall. intros p Hp.
  apply (kept_candidate method (lines_of EmptyString content)).
  eapply Permutation_in; [exact Hperm|]. apply survivors_probed, Hp.
Qed.

Lemma written_file_is_reread_witness :
  exists content,
    files (snd serial_run) "output.txt" = Some content /\
    filter Proxy.is_valid (candidates "http" (lines_of EmptyString content))
    = survivors serial_trace.
Proof.
  refine (written_file_is_reread mock_env "http://example.com/" 20%Z false false []
            "output.txt" "http" (boot three_lines [0; 0; 0]) serial_trace (snd serial_run) _).
  vm_compute. reflexivity.
Defined.

(** * The footprint of one probe *)

Lemma footprint_refl st : footprint st st [] [].
Proof. unfold footprint. rewrite !app_nil_r. auto. Qed.

Lemma footprint_trans st0 st1 st2 s1 m1 s2 m2 :
  footprint st0 st1 s1 m1 -> footprint st1 st2 s2 m2 ->
  footprint st0 st2 (s1 ++ s2) (m1 ++ m2).
Proof.
  unfold footprint. intros (Hw1 & Ho1 & Hf1 & Hr1) (Hw2 & Ho2 & Hf2 & Hr2).
  rewrite Hw2, Hw1, Ho2, Ho1, Hf2, Hf1, Hr2, Hr1, !app_assoc. auto.
Qed.

Lemma configure_footprint self st r st0 :
  Proxy.check_configure self st = (r, st0) ->
  footprint st st0 [] [] /\ clock st0 = clock st /\ opener st0 = opener st /\
  (forall e, r = Raise e -> st0 = st).
Proof.
  unfold Proxy.check_configure, bind, lift, set_default_proxy, set_socket_socket, ret.
  destruct (Py.unpack2 (Py.split ":" (proxy self))) as [[h p]|e].
  - destruct (Py.mem (method self) ["socks4"; "socks5"]).
    + destruct (Py.int p) as [z|e]; intros H; inversion H; subst; clear H;
        (split; [unfold footprint; simpl; rewrite !app_nil_r; auto|]);
        simpl; repeat split; auto; discriminate.
    + intros H; inversion H; subst; clear H.
      split; [apply footprint_refl|]. repeat split; auto; discriminate.
  - intros H; inversion H; subst; clear H.
    split; [apply footprint_refl|]. repeat split; auto.
Qed.

Lemma prepare_footprint self site timeout ua st r st1 :
  Proxy.check_prepare self site timeout ua st = (r, st1) ->
  footprint st st1 [] [] /\ clock st1 = clock st /\
  default_proxy st1 = default_proxy st /\ socket_socket st1 = socket_socket st /\
  opener st1 = (if Py.mem (method self) ["http"; "https"]
                then Some (method self, (method self ++ "://" ++ proxy self)%string)
                else opener st) /\
  match url_scheme site with
  | Ok _ => r = Ok (clock st, probe_request self site timeout ua)
  | Raise e => r = Raise e
  end.
Proof.
  unfold Proxy.check_prepare, bind, time, install_opener, lift, Request, ret, probe_request.
  destruct (Py.mem (method self) ["http"; "https"]);
    destruct (url_scheme site) as [sc|e]; intros H; inversion H; subst; clear H;
    (split; [unfold footprint; simpl; rewrite !app_nil_r; auto|]);
    simpl; repeat split; auto.
Qed.

Lemma urlopen_footprint env req st r st2 :
  urlopen env req st = (r, st2) ->
  footprint st st2 [Sent (current_route env st req) req] [].
Proof.
  unfold urlopen. destruct (network env (clock st) (current_route env st req) req) as [x dt].
  destruct x as [status|e]; [destruct ((200 <=? status) && (status <? 300))%Z|];
    intros H; inversion H; subst; clear H;
    unfold footprint; simpl; rewrite !app_nil_r; auto.
Qed.

Lemma finish_footprint self verbose r st o st' :
  Proxy.check_finish self verbose r st = (o, st') ->
  exists msgs, footprint st st' [] msgs /\ clock st' = clock st /\
               msgs = (if verbose
                       then [match r with
                             | Ok start_time => IsValid (proxy self) (clock st - start_time)
                             | Raise e => IsNotValid (proxy self) e
                             end]
                       else []).
Proof.
  unfold Proxy.check_finish, verbose_print, bind, time, print, ret.
  destruct r as [t0|e]; destruct verbose; intros H; inversion H; subst; clear H;
    eexists; (split; [|split; [|reflexivity]]);
    unfold footprint; simpl; rewrite ?app_nil_r; auto.
Qed.

(** X6: a call of [check] calls [urlopen] once at most; the request it
    hands over is for [site], under the time limit given, and has the
    User-Agent header only when the method is HTTP or HTTPS (a SOCKS probe
    does not pass on the user agent it was given).  A call that returns has
    printed one line when [verbose] is set and nothing otherwise, and it
    neither touches a file nor draws a random number.  When it raises (a
    malformed address), it has changed nothing. *)
Theorem check_footprint :
  forall env self site timeout user_agent verbose st r st',
    Proxy.check env self site timeout user_agent verbose st = (r, st') ->
    (exists sent msgs,
        footprint st st' sent msgs /\
        (sent = [] \/
         exists rt, sent = [Sent rt (probe_request self site timeout user_agent)]) /\
        length msgs = (if verbose then match r with Ok _ => 1 | Raise _ => 0 end else 0)) /\
    (forall e, r = Raise e -> st' = st).
Proof.
  intros env self site timeout ua verbose st r st' H.
  rewrite check_phases in H.
  destruct (Proxy.check_configure self st) as [[[]|e] st0] eqn:Ec;
    apply configure_footprint in Ec; destruct Ec as (F0 & C0 & O0 & R0).
  2: { inversion H; subst r st'. rewrite (R0 e eq_refl). split; [|reflexivity].
       exists [], []. split; [apply footprint_refl|]. split; [auto|].
       destruct verbose; reflexivity. }
  unfold check_after_configure in H.
  destruct (Proxy.check_prepare self site timeout ua st0) as [rp st1] eqn:Ep.
  apply prepare_footprint in Ep. destruct Ep as (F1 & _ & _ & _ & _ & Hreq).
  destruct (url_scheme site) as [sc|e0].
  - subst rp. destruct (urlopen env (probe_request self site timeout ua) st1)
      as [ru st2] eqn:Eu.
    apply urlopen_footprint in Eu.
    assert (Hfin : exists r0, Proxy.check_finish self verbose r0 st2 = (r, st')).
    { destruct ru; eauto. }
    destruct Hfin as [r0 Hfin].
    destruct (finish_total self verbose r0 st2) as (o & st3 & Ho).
    rewrite Ho in Hfin. inversion Hfin; subst r st'. clear Hfin.
    apply finish_footprint in Ho. destruct Ho as (msgs & F3 & _ & Hm).
    split; [|discriminate].
    exists ([] ++ [] ++ [Sent (current_route env st1 (probe_request self site timeout ua))
                              (probe_request self site timeout ua)] ++ []), ([] ++ [] ++ [] ++ msgs).
    split; [eauto using footprint_trans|].
    split; [right; eexists; reflexivity|].
    subst msgs. destruct verbose; reflexivity.
  - subst rp.
    destruct (finish_total self verbose (Raise e0) st1) as (o & st3 & Ho).
    rewrite Ho in H. inversion H; subst r st'. clear H.
    apply finish_footprint in Ho. destruct Ho as (msgs & F3 & _ & Hm).
    split; [|discriminate].
    exists ([] ++ [] ++ []), ([] ++ [] ++ msgs).
    split; [eauto using footprint_trans|].
    split; [left; reflexivity|].
    subst msgs. destruct verbose; reflexivity.
Qed.

Lemma check_footprint_witness :
  (exists sent msgs,
      footprint (boot "" [])
                (snd (Proxy.check mock_env socks_X "http://example.com/" 20 "curl/8.0" true
                                  (boot "" [])))
                sent msgs /\
      (sent = [] \/
       exists rt, sent = [Sent rt (probe_request socks_X "http://example.com/" 20 "curl/8.0")]) /\
      length msgs = 1) /\
  (forall e, Ok (false, 0%Z, Some SocketTimeout) = Raise e ->
             snd (Proxy.check mock_env socks_X "http://example.com/" 20 "curl/8.0" true
                              (boot "" [])) = boot "" []).
Proof.
  apply (check_footprint mock_env socks_X "http://example.com/" 20%Z "curl/8.0" true
           (boot "" []) (Ok (false, 0%Z, Some SocketTimeout))).
  vm_compute. reflexivity.
Defined.

(** * The threads, seen from outside *)

Lemma urlopen_calls_app tr1 tr2 : urlopen_calls (tr1 ++ tr2) = urlopen_calls tr1 ++ urlopen_calls tr2.
Proof. unfold urlopen_calls. apply flat_map_app. Qed.

Lemma callers_app tr1 tr2 : callers (tr1 ++ tr2) = callers tr1 ++ callers tr2.
Proof. unfold callers. rewrite urlopen_calls_app. apply map_app. Qed.

Lemma reports_app verbose tr1 tr2 :
  reports verbose (tr1 ++ tr2) = reports verbose tr1 ++ reports verbose tr2.
Proof.
  unfold reports. destruct verbose; [|reflexivity].
  rewrite returned_app. apply flat_map_app.
Qed.

Lemma occurrences_app p l1 l2 :
  occurrences p (l1 ++ l2) = occurrences p l1 + occurrences p l2.
Proof. unfold occurrences. apply count_occ_app. Qed.

Lemma random_choice_frame (uas : list string) st r st' :
  random_choice uas st = (r, st') ->
  files st' = files st /\ stdout st' = stdout st /\ wire st' = wire st /\
  forall ua, r = Ok ua -> In ua uas.
Proof.
  unfold random_choice. destruct uas as [|x uas]; intros H.
  - inversion H; subst; clear H. repeat split; auto. discriminate.
  - assert (Hin : In (nth (hd 0 (rng st) mod length (x :: uas)) (x :: uas) x) (x :: uas))
      by (apply nth_In, Nat.mod_upper_bound; discriminate).
    revert H Hin. generalize (nth (hd 0 (rng st) mod length (x :: uas)) (x :: uas) x).
    intros pick H Hin. inversion H; subst; clear H. repeat split; auto.
    intros ua Hua. inversion Hua; subst. exact Hin.
Qed.


Section Outside.
Variable env : Env.
Variables (site : string) (timeout : Z) (verbose random_user_agent : bool).

Abbreviation step_of := (thread_step env site timeout verbose random_user_agent).

Lemma reports_nil : reports verbose [] = [].
Proof. unfold reports. destruct verbose; reflexivity. Qed.

(** A step that shows nothing outside. *)
Ltac quiet Hf Ho Hw :=
  split; [exact Hf|]; exists [];
  rewrite reports_nil, !app_nil_r; split; [reflexivity|]; split; [exact Ho|];
  split; [exists []; rewrite app_nil_r; split; [exact Hw | constructor]|];
  intros q; simpl; lia.

(** What one step of one thread shows outside. *)
Lemma step_outside t sh st t' sh' st' :
  step_of t sh st = (t', sh', st') ->
  holds_request site timeout t ->
  holds_request site timeout t' /\ files st' = files st /\
  exists events,
    trace sh' = trace sh ++ events /\
    stdout st' = stdout st ++ reports verbose events /\
    (exists sent, wire st' = wire st ++ sent /\
                  Forall2 (sent_for site timeout) sent (urlopen_calls events)) /\
    forall q, occurrences q (callers events) + occurrences q (yet_to_call t') <=
              occurrences q (yet_to_call t).
Proof.
  intros Hstep Hreq.
  destruct t as [p ua|p ua|p ua|p ua [[t0 req]|e]|p ua r| |p e]; cbn [thread_step] in Hstep.
  - destruct ((if random_user_agent then random_choice (user_agents env) else ret ua) st)
      as [[ua'|e] st1] eqn:E; inversion Hstep; subst; clear Hstep;
      (assert (Hf : files st' = files st /\ stdout st' = stdout st /\ wire st' = wire st)
        by (destruct random_user_agent;
            [apply random_choice_frame in E; tauto | inversion E; auto]));
      destruct Hf as (Hf & Ho & Hw); (split; [exact I|]); quiet Hf Ho Hw.
  - destruct (Proxy.check_configure p st) as [[[]|e] st1] eqn:E;
      apply configure_footprint in E; destruct E as ((Hw & Ho & Hf & _) & _);
      rewrite app_nil_r in Hw, Ho;
      inversion Hstep; subst; clear Hstep; (split; [exact I|]); quiet Hf Ho Hw.
  - destruct (Proxy.check_prepare p site timeout ua st) as [r st1] eqn:E.
    apply prepare_footprint in E. destruct E as ((Hw & Ho & Hf & _) & _ & _ & _ & _ & Hr).
    rewrite app_nil_r in Hw, Ho.
    inversion Hstep; subst; clear Hstep.
    split.
    { simpl. destruct (url_scheme site); subst r; [reflexivity | exact I]. }
    quiet Hf Ho Hw.
  - destruct (urlopen env req st) as [r st1] eqn:E.
    apply urlopen_footprint in E. destruct E as (Hw & Ho & Hf & _).
    rewrite app_nil_r in Ho.
    inversion Hstep; subst; clear Hstep.
    split; [exact I|]. split; [exact Hf|].
    exists [Connected p (current_route env st req)].
    split; [reflexivity|]. split.
    { unfold reports. destruct verbose; simpl; rewrite app_nil_r; exact Ho. }
    split.
    { eexists. split; [exact Hw|]. simpl. constructor; [|constructor].
      exists ua. simpl in Hreq. subst req. reflexivity. }
    intros q. unfold occurrences. simpl. destruct (Proxy_eq_dec p q); lia.
  - injection Hstep as <- <- <-. split; [exact I|].
    quiet (eq_refl (files st)) (eq_refl (stdout st)) (eq_refl (wire st)).
  - destruct r as [t0|e];
      match type of Hstep with
      | context [Proxy.check_finish p verbose ?r0 st] =>
          destruct (finish_returns p verbose r0 st) as (st1 & E & Hf & Hw & Ho)
      end;
      rewrite E in Hstep; injection Hstep as <- <- <-;
      (split; [exact I|]); (split; [exact Hf|]);
      (eexists; split; [reflexivity|]; split;
       [rewrite Ho; unfold reports; destruct verbose; reflexivity|]);
      (split; [exists []; rewrite app_nil_r; split; [exact Hw | constructor]|]);
      intros q; simpl; lia.
  - injection Hstep as <- <- <-. split; [exact I|].
    quiet (eq_refl (files st)) (eq_refl (stdout st)) (eq_refl (wire st)).
  - injection Hstep as <- <- <-. split; [exact I|].
    quiet (eq_refl (files st)) (eq_refl (stdout st)) (eq_refl (wire st)).
Qed.

Lemma outside_step st0 init l1 t l2 sh st t' sh' st' :
  outside site timeout verbose st0 init (l1 ++ t :: l2, sh, st) ->
  step_of t sh st = (t', sh', st') ->
  outside site timeout verbose st0 init (l1 ++ t' :: l2, sh', st').
Proof.
  unfold outside, pool_of, shared_of. cbn [fst snd].
  intros (Hreq & Hf & Ho & (sent & Hw & Hs) & Hocc) Hstep.
  apply Forall_app in Hreq. destruct Hreq as [Hr1 Hr2].
  inversion Hr2 as [|? ? Hrt Hr2']; subst.
  destruct (step_outside t sh st t' sh' st' Hstep Hrt)
    as (Hrt' & Hf' & events & Htr & Ho' & (sent' & Hw' & Hs') & Hocc').
  split; [apply Forall_app; split; [exact Hr1 | constructor; assumption]|].
  split; [congruence|].
  split; [rewrite Ho', Ho, Htr, reports_app, app_assoc; reflexivity|].
  split.
  { exists (sent ++ sent'). split; [rewrite Hw', Hw, app_assoc; reflexivity|].
    rewrite Htr, urlopen_calls_app. apply Forall2_app; assumption. }
  intros q. specialize (Hocc q). specialize (Hocc' q).
  rewrite Htr, callers_app.
  rewrite !flat_map_app in *. cbn [flat_map] in *.
  rewrite !occurrences_app in *. lia.
Qed.

End Outside.

Section Courses.
Variable env : Env.
Variables (site : string) (timeout : Z) (verbose random_user_agent : bool).

Abbreviation step_in := (thread_step env site timeout verbose random_user_agent).



(** One step of a thread when the URL of the site has no scheme: no
    request is built, none is sent, and a call that returns has failed. *)
Lemma step_no_request e t sh st t' sh' st' :
  url_scheme site = Raise e ->
  step_in t sh st = (t', sh', st') ->
  no_request e t ->
  no_request e t' /\ wire st' = wire st /\
  exists events,
    trace sh' = trace sh ++ events /\
    Forall (fun call => snd call = (false, 0%Z, Some e)) (returned events).
Proof.
  intros Hs Hstep Hn.
  destruct t as [p ua|p ua|p ua|p ua r|p ua r| |p e0]; cbn [thread_step] in Hstep.
  - destruct ((if random_user_agent then random_choice (user_agents env) else ret ua) st)
      as [[ua'|e1] st1] eqn:E;
      (assert (Hw : wire st1 = wire st)
        by (destruct random_user_agent;
            [apply random_choice_frame in E; tauto | inversion E; auto]));
      injection Hstep as <- <- <-;
      (split; [exact I|]); (split; [exact Hw|]);
      (exists []; rewrite app_nil_r; split; [reflexivity | simpl; constructor]).
  - destruct (Proxy.check_configure p st) as [[[]|e1] st1] eqn:E;
      apply configure_footprint in E; destruct E as ((Hw & _) & _);
      rewrite app_nil_r in Hw; injection Hstep as <- <- <-;
      (split; [exact I|]); (split; [exact Hw|]);
      (exists []; rewrite app_nil_r; split; [reflexivity | simpl; constructor]).
  - destruct (Proxy.check_prepare p site timeout ua st) as [r st1] eqn:E.
    apply prepare_footprint in E. destruct E as ((Hw & _) & _ & _ & _ & _ & Hr).
    rewrite app_nil_r in Hw. rewrite Hs in Hr. injection Hstep as <- <- <-.
    split; [exact Hr|]. split; [exact Hw|].
    exists []. rewrite app_nil_r. split; [reflexivity | simpl; constructor].
  - simpl in Hn. subst r. injection Hstep as <- <- <-.
    split; [reflexivity|]. split; [reflexivity|].
    exists []. rewrite app_nil_r. split; [reflexivity | simpl; constructor].
  - simpl in Hn. subst r.
    destruct (finish_returns p verbose (Raise e) st) as (st1 & E & _ & Hw & _).
    rewrite E in Hstep. injection Hstep as <- <- <-.
    split; [exact I|]. split; [exact Hw|].
    eexists. split; [reflexivity|]. simpl. constructor; [reflexivity | constructor].
  - injection Hstep as <- <- <-.
    split; [exact I|]. split; [reflexivity|].
    exists []. rewrite app_nil_r. split; [reflexivity | simpl; constructor].
  - injection Hstep as <- <- <-.
    split; [exact I|]. split; [reflexivity|].
    exists []. rewrite app_nil_r. split; [reflexivity | simpl; constructor].
Qed.

Lemma all_fail_step e st0 l1 t l2 sh st t' sh' st' :
  url_scheme site = Raise e ->
  all_fail e st0 (l1 ++ t :: l2, sh, st) ->
  step_in t sh st = (t', sh', st') ->
  all_fail e st0 (l1 ++ t' :: l2, sh', st').
Proof.
  unfold all_fail, pool_of, shared_of. cbn [fst snd].
  intros Hs (Hn & Hw & Hr) Hstep.
  apply Forall_app in Hn. destruct Hn as [Hn1 Hn2].
  inversion Hn2 as [|? ? Hnt Hn2']; subst.
  destruct (step_no_request e t sh st t' sh' st' Hs Hstep Hnt)
    as (Hnt' & Hw' & events & Htr & Hr').
  split; [apply Forall_app; split; [exact Hn1 | constructor; assumption]|].
  split; [congruence|].
  rewrite Htr, returned_app. apply Forall_app. split; assumption.
Qed.

(** One step of a thread keeps its user agent in the pool. *)
Lemma step_agents t sh st t' sh' st' :
  step_in t sh st = (t', sh', st') ->
  (forall ua, In ua (agent_of t) -> In ua (user_agents env)) ->
  (forall ua, In ua (agent_of t') -> In ua (user_agents env)) /\
  exists events,
    trace sh' = trace sh ++ events /\
    Forall (fun call => In (snd (fst call)) (user_agents env)) (returned events).
Proof.
  intros Hstep Ha.
  destruct t as [p ua|p ua|p ua|p ua [[t0 req]|e]|p ua r| |p e]; cbn [thread_step] in Hstep.
  - destruct ((if random_user_agent then random_choice (user_agents env) else ret ua) st)
      as [[ua'|e1] st1] eqn:E; injection Hstep as <- <- <-.
    + split; [|exists []; rewrite app_nil_r; split; [reflexivity | simpl; constructor]].
      intros u [<-|[]]. destruct random_user_agent.
      * apply random_choice_frame in E. apply E. reflexivity.
      * inversion E; subst. apply Ha. left. reflexivity.
    + split; [intros u []|]. exists []. rewrite app_nil_r. split; [reflexivity | simpl; constructor].
  - destruct (Proxy.check_configure p st) as [[[]|e1] st1]; injection Hstep as <- <- <-.
    + split; [exact Ha|]. exists []. rewrite app_nil_r. split; [reflexivity | simpl; constructor].
    + split; [intros u []|]. exists []. rewrite app_nil_r. split; [reflexivity | simpl; constructor].
  - destruct (Proxy.check_prepare p site timeout ua st) as [r st1].
    injection Hstep as <- <- <-.
    split; [exact Ha|]. exists []. rewrite app_nil_r. split; [reflexivity | simpl; constructor].
  - destruct (urlopen env req st) as [r st1]. injection Hstep as <- <- <-.
    split; [exact Ha|]. eexists. split; [reflexivity | simpl; constructor].
  - injection Hstep as <- <- <-.
    split; [exact Ha|]. exists []. rewrite app_nil_r. split; [reflexivity | simpl; constructor].
  - destruct (finish_total p verbose r st) as ([[b t0] err] & st1 & E).
    rewrite E in Hstep. injection Hstep as <- <- <-.
    split; [intros u []|]. eexists. split; [reflexivity|].
    simpl. constructor; [|constructor]. apply Ha. left. reflexivity.
  - injection Hstep as <- <- <-.
    split; [exact Ha|]. exists []. rewrite app_nil_r. split; [reflexivity | simpl; constructor].
  - injection Hstep as <- <- <-.
    split; [exact Ha|]. exists []. rewrite app_nil_r. split; [reflexivity | simpl; constructor].
Qed.

Lemma agents_step l1 t l2 sh st t' sh' st' :
  agents_from (user_agents env) (l1 ++ t :: l2, sh, st) ->
  step_in t sh st = (t', sh', st') ->
  agents_from (user_agents env) (l1 ++ t' :: l2, sh', st').
Proof.
  unfold agents_from, pool_of, shared_of. cbn [fst snd].
  intros (Ha & Hr) Hstep.
  apply Forall_app in Ha. destruct Ha as [Ha1 Ha2].
  inversion Ha2 as [|? ? Hat Ha2']; subst.
  destruct (step_agents t sh st t' sh' st' Hstep Hat) as (Hat' & events & Htr & Hr').
  split; [apply Forall_app; split; [exact Ha1 | constructor; assumption]|].
  rewrite Htr, returned_app. apply Forall_app. split; assumption.
Qed.

End Courses.

(** * A whole run, seen from outside *)

Lemma created_yet_to_call (threads : list thread) :
  Forall (fun t => exists ua p, t = Created p ua) threads ->
  flat_map yet_to_call threads = charges threads /\
  Forall (fun t => rank t = 5) threads.
Proof.
  induction 1 as [|t threads (ua & p & ->) Hall [IH1 IH2]]; [split; [reflexivity|constructor]|].
  unfold charges in *. simpl. rewrite IH1. split; [reflexivity|]. constructor; auto.
Qed.

Lemma run_outside env site timeout verbose random_user_agent sched threads st :
  Forall (fun t => exists ua p, t = Created p ua) threads ->
  outside site timeout verbose st (charges threads)
          (run_threads env site timeout verbose random_user_agent sched threads st).
Proof.
  intros Hall.
  apply (run_threads_preserves env site timeout verbose random_user_agent
           (outside site timeout verbose st (charges threads))
           (outside_step env site timeout verbose random_user_agent st (charges threads))).
  unfold outside, pool_of, shared_of. cbn [fst snd trace].
  split.
  { eapply Forall_impl; [|exact Hall]. intros t (ua & p & ->). exact I. }
  split; [reflexivity|].
  split; [rewrite reports_nil, app_nil_r; reflexivity|].
  split; [exists []; rewrite app_nil_r; split; [reflexivity | constructor]|].
  intros q. rewrite (proj1 (created_yet_to_call threads Hall)). simpl. lia.
Qed.


(** A run that returns: the state the threads started in and the state they
    left. *)
Lemma check_proxies_run env site timeout verbose random_user_agent sched file method st tr st' :
  check_proxies env site timeout verbose random_user_agent sched file method st = (Ok tr, st') ->
  exists content threads st1,
    files st file = Some content /\
    (supported method = true \/ lines_of EmptyString content = []) /\
    charges threads = filter Proxy.is_valid (candidates method (lines_of EmptyString content)) /\
    Forall (fun t => exists ua, In ua (user_agents env) /\ exists p, t = Created p ua) threads /\
    (threads = [] \/ user_agents env <> []) /\
    files st1 = files st /\ wire st1 = wire st /\
    stdout st1 = stdout st ++ [Checking (length (lines_of EmptyString content))] /\
    tr = trace (shared_of (run_threads env site timeout verbose random_user_agent
                                       sched threads st1)) /\
    st' = final_state file
            (shared_of (run_threads env site timeout verbose random_user_agent sched threads st1))
            (snd (run_threads env site timeout verbose random_user_agent sched threads st1)).
Proof.
  rewrite check_proxies_unfold. intros Hrun.
  destruct (files st file) as [content|] eqn:Hfile; [|discriminate].
  destruct (construct_cases method (lines_of EmptyString content) st)
    as [[Hc Hm] | [Hc _]]; rewrite Hc in Hrun; [|discriminate].
  set (proxies := filter Proxy.is_valid (candidates method (lines_of EmptyString content))) in *.
  destruct (spawn_cases env random_user_agent proxies
              (set_stdout (stdout st ++ [Checking (length (candidates method
                 (lines_of EmptyString content)))]) st))
    as [(threads & st1 & Hsp & Hch & Hall & Hua & Hf & Ho & Hw) | (Hsp & _)];
    rewrite Hsp in Hrun; [|discriminate].
  destruct (run_threads env site timeout verbose random_user_agent sched threads st1)
    as [[pool sh] st2] eqn:Hth.
  inversion Hrun; subst tr st'. clear Hrun.
  exists content, threads, st1. rewrite Hth. unfold shared_of. cbn [fst snd].
  repeat split; auto.
  - destruct Hua as [Hnil | Hne]; [left | right; exact Hne].
    rewrite Hnil in Hch. destruct threads as [|t threads]; [reflexivity|].
    inversion Hall as [|? ? (ua & _ & p & ->) _]; subst. discriminate Hch.
  - rewrite Ho. simpl. unfold candidates. rewrite length_map. reflexivity.
Qed.

Lemma created_shape env_uas (threads : list thread) :
  Forall (fun t => exists ua, In ua env_uas /\ exists p, t = Created p ua) threads ->
  Forall (fun t => exists ua p, t = Created p ua) threads.
Proof.
  intros H. eapply Forall_impl; [|exact H]. intros t (ua & _ & p & ->). eauto.
Qed.

(** X9: the calls of [urlopen] of a run, under every schedule.  Every call
    is made by the thread of a candidate whose address is valid; the thread
    of a candidate calls [urlopen] once at most, so that no candidate has
    more calls made for it than the file has lines for it; a line that fails
    [is_valid] gets no thread and no call.  (Which proxy a call then goes
    through is another matter: the route is read when the call is made.) *)
Theorem run_traffic :
  forall env site timeout verbose random_user_agent sched file method st content tr st',
    files st file = Some content ->
    check_proxies env site timeout verbose random_user_agent sched file method st
    = (Ok tr, st') ->
    (forall p, occurrences p (callers tr) <=
               occurrences p (filter Proxy.is_valid
                                     (candidates method (lines_of EmptyString content)))) /\
    (forall p, In p (callers tr) -> Proxy.is_valid p = true) /\
    (forall p, Proxy.is_valid p = false -> ~ In p (callers tr) /\ ~ In p (probed tr)).
Proof.
  intros env site timeout verbose rua sched file method st content tr st' Hfile Hrun.
  pose proof (check_proxies_returns env site timeout verbose rua sched file method st tr st'
                Hrun) as Hret.
  apply check_proxies_run in Hrun.
  destruct Hrun as (content' & threads & st1 & Hfile' & _ & Hch & Hall & _ & _ & Hw1 & _
                    & -> & ->).
  rewrite Hfile in Hfile'. inversion Hfile'; subst content'. clear Hfile'.
  pose proof (run_outside env site timeout verbose rua sched threads st1
                (created_shape _ _ Hall)) as Hout.
  unfold outside in Hout. destruct Hout as (_ & _ & _ & _ & Hocc).
  assert (Hle : forall p,
             occurrences p (callers (trace (shared_of
               (run_threads env site timeout verbose rua sched threads st1)))) <=
             occurrences p (filter Proxy.is_valid
                                   (candidates method (lines_of EmptyString content)))).
  { intros p. specialize (Hocc p). rewrite Hch in Hocc. lia. }
  assert (Hvalid : forall p,
             In p (callers (trace (shared_of
               (run_threads env site timeout verbose rua sched threads st1)))) ->
             Proxy.is_valid p = true).
  { intros p Hp. specialize (Hle p). unfold occurrences in Hle.
    apply (count_occ_In Proxy_eq_dec) in Hp.
    assert (Hin : In p (filter Proxy.is_valid
                          (candidates method (lines_of EmptyString content)))).
    { apply (count_occ_In Proxy_eq_dec). lia. }
    apply filter_In in Hin. tauto. }
  split; [exact Hle|]. split; [exact Hvalid|].
  intros p Hp. split.
  - intros Hin. apply Hvalid in Hin. congruence.
  - intros Hin.
    destruct Hret as (content' & threads' & st1' & pool & sh & st2 & Hfile' & _ & _ & _ & _ & _
                      & Hperm & _).
    rewrite Hfile in Hfile'. inversion Hfile'; subst content'.
    apply (Permutation_in _ Hperm) in Hin. apply filter_In in Hin.
    destruct Hin as [_ Hv]. congruence.
Qed.

Lemma run_traffic_witness :
  (forall p, occurrences p (callers serial_trace) <=
             occurrences p (filter Proxy.is_valid
                                   (candidates "http" (lines_of EmptyString three_lines)))) /\
  (forall p, In p (callers serial_trace) -> Proxy.is_valid p = true) /\
  (forall p, Proxy.is_valid p = false ->
             ~ In p (callers serial_trace) /\ ~ In p (probed serial_trace)).
Proof.
  refine (run_traffic mock_env "http://example.com/" 20%Z false false [] "output.txt" "http"
            (boot three_lines [0; 0; 0]) three_lines serial_trace (snd serial_run) _ _).
  - reflexivity.
  - vm_compute. reflexivity.
Defined.

(** X10: what a run prints and which file it touches.  A run that returns
    has printed the number of lines of the file (counted before the filter of
    [is_valid]), then one line per returned call when [verbose] is set and
    none otherwise, then the number of survivors; and the list file is the
    only file it has changed. *)
Theorem run_output :
  forall env site timeout verbose random_user_agent sched file method st content tr st',
    files st file = Some content ->
    check_proxies env site timeout verbose random_user_agent sched file method st
    = (Ok tr, st') ->
    stdout st' = stdout st ++ [Checking (length (lines_of EmptyString content))]
                           ++ reports verbose tr
                           ++ [Found (length (survivors tr))] /\
    (verbose = false -> reports verbose tr = []) /\
    (verbose = true -> length (reports verbose tr) = length (probed tr)) /\
    forall f, f <> file -> files st' f = files st f.
Proof.
  intros env site timeout verbose rua sched file method st content tr st' Hfile Hrun.
  apply check_proxies_run in Hrun.
  destruct Hrun as (content' & threads & st1 & Hfile' & _ & Hch & Hall & _ & Hf1 & _ & Ho1
                    & -> & ->).
  rewrite Hfile in Hfile'. inversion Hfile'; subst content'. clear Hfile'.
  pose proof (run_outside env site timeout verbose rua sched threads st1
                (created_shape _ _ Hall)) as Hout.
  unfold outside in Hout. destruct Hout as (_ & Hf & Ho & _ & _).
  destruct (run_threads env site timeout verbose rua sched threads st1)
    as [[pool sh] st2] eqn:Hth.
  unfold shared_of in *. cbn [fst snd] in *.
  destruct (run_threads_accounts env site timeout verbose rua sched threads st1 pool sh st2 Hth)
    as [Hv _].
  split; [|split; [|split]].
  - unfold final_state. simpl. rewrite Ho, Ho1, Hv, <- !app_assoc. reflexivity.
  - intros ->. reflexivity.
  - intros ->. unfold reports, probed. rewrite length_map.
    pose proof (trace_well_shaped env site timeout true rua sched threads st1) as Hshape.
    rewrite Hth in Hshape. unfold shared_of in Hshape. cbn [fst snd] in Hshape.
    assert (Hret : forall call, In call (returned (trace sh)) -> length (report_of call) = 1).
    { intros [[p ua] o] Hin. apply returned_In in Hin.
      specialize (Hshape p ua o Hin). destruct o as [[[] t] err]; simpl in *.
      - reflexivity.
      - destruct err; [reflexivity|]. destruct Hshape as [_ H]. destruct (H eq_refl). congruence. }
    induction (returned (trace sh)) as [|call l IH]; [reflexivity|].
    simpl. rewrite length_app, Hret by (left; reflexivity).
    rewrite IH; [reflexivity|]. intros c Hc. apply Hret. right. exact Hc.
  - intros f Hne. unfold final_state. simpl.
    destruct (String.eqb_spec f file); [contradiction|].
    rewrite Hf, Hf1. reflexivity.
Qed.

Lemma run_output_witness :
  stdout (snd serial_run) =
  stdout (boot three_lines [0; 0; 0]) ++ [Checking (length (lines_of EmptyString three_lines))]
         ++ reports false serial_trace ++ [Found (length (survivors serial_trace))] /\
  (false = false -> reports false serial_trace = []) /\
  (false = true -> length (reports false serial_trace) = length (probed serial_trace)) /\
  forall f, f <> "output.txt" ->
            files (snd serial_run) f = files (boot three_lines [0; 0; 0]) f.
Proof.
  refine (run_output mock_env "http://example.com/" 20%Z false false [] "output.txt" "http"
            (boot three_lines [0; 0; 0]) three_lines serial_trace (snd serial_run) _ _).
  - reflexivity.
  - vm_compute. reflexivity.
Defined.




(** X12: when the URL of the site has no scheme (a bare host name), a run
    that returns has sent nothing: every call of [check] returned
    [(False, 0, e)] with the error of the URL, no candidate survived, and
    the list file was rewritten empty. *)
Theorem site_without_scheme :
  forall env site timeout verbose random_user_agent sched file method st tr st' e,
    url_scheme site = Raise e ->
    check_proxies env site timeout verbose random_user_agent sched file method st
    = (Ok tr, st') ->
    wire st' = wire st /\
    (forall p ua o, In (Returned p ua o) tr -> o = (false, 0%Z, Some e)) /\
    survivors tr = [] /\
    files st' file = Some EmptyString.
Proof.
  intros env site timeout verbose rua sched file method st tr st' e Hs Hrun.
  pose proof Hrun as Hret. apply check_proxies_returns in Hret.
  destruct Hret as (_ & _ & _ & _ & _ & _ & _ & _ & _ & _ & _ & _ & _ & Hwritten).
  apply check_proxies_run in Hrun.
  destruct Hrun as (content & threads & st1 & Hfile & _ & Hch & Hall & _ & _ & Hw1 & _
                    & Htr & ->).
  pose proof (run_threads_preserves env site timeout verbose rua
                (all_fail e st1)
                (fun l1 t l2 sh0 s0 t' sh1 s1 =>
                   all_fail_step env site timeout verbose rua e st1 l1 t l2 sh0 s0 t' sh1 s1 Hs)
                sched threads st1) as Hfail.
  unfold all_fail in Hfail. destruct Hfail as (_ & Hw & Hr).
  { unfold pool_of, shared_of. cbn [fst snd trace]. split; [|split; [reflexivity|constructor]].
    eapply Forall_impl; [|exact Hall]. intros t (ua & _ & p & ->). exact I. }
  rewrite <- Htr in Hr.
  assert (Hall_fail : forall p ua o, In (Returned p ua o) tr -> o = (false, 0%Z, Some e)).
  { intros p ua o Hin. apply returned_In in Hin.
    rewrite Forall_forall in Hr. exact (Hr _ Hin). }
  assert (Hsurv : survivors tr = []).
  { unfold survivors. replace (filter succeeded (returned tr)) with (@nil (Proxy * string * outcome));
      [reflexivity|].
    symmetry. clear - Hr. induction Hr as [|call l Hc Hl IH]; [reflexivity|].
    cbn [filter].
    replace (succeeded call) with false
      by (destruct call as [[p0 ua0] o0]; simpl in Hc; subst o0; reflexivity).
    exact IH. }
  split; [|split; [exact Hall_fail|split; [exact Hsurv|]]].
  - unfold final_state. simpl. rewrite Hw, Hw1. reflexivity.
  - rewrite Hwritten. unfold written. rewrite Hsurv. reflexivity.
Qed.

Lemma site_without_scheme_witness :
  wire (snd schemeless_run) = wire (boot three_lines [0; 0; 0]) /\
  (forall p ua o, In (Returned p ua o) schemeless_trace ->
                  o = (false, 0%Z, Some (ValueError "unknown url type"))) /\
  survivors schemeless_trace = [] /\
  files (snd schemeless_run) "output.txt" = Some EmptyString.
Proof.
  refine (site_without_scheme mock_env "google.com" 20%Z true false [] "output.txt" "http"
            (boot three_lines [0; 0; 0]) schemeless_trace (snd schemeless_run)
            (ValueError "unknown url type") _ _).
  - reflexivity.
  - vm_compute. reflexivity.
Defined.

(** X13: the user agent of every call of [check] is one of the pool read
    from user_agents.txt, whether it was drawn when the thread was made or
    drawn again in the thread. *)
Theorem user_agents_from_pool :
  forall env site timeout verbose random_user_agent sched file method st tr st' p ua o,
    check_proxies env site timeout verbose random_user_agent sched file method st
    = (Ok tr, st') ->
    In (Returned p ua o) tr ->
    In ua (user_agents env).
Proof.
  intros env site timeout verbose rua sched file method st tr st' p ua o Hrun Hin.
  apply check_proxies_run in Hrun.
  destruct Hrun as (content & threads & st1 & _ & _ & _ & Hall & _ & _ & _ & _ & Htr & _).
  pose proof (run_threads_preserves env site timeout verbose rua
                (agents_from (user_agents env))
                (agents_step env site timeout verbose rua)
                sched threads st1) as Hag.
  unfold agents_from in Hag. destruct Hag as (_ & Hr).
  { unfold pool_of, shared_of. cbn [fst snd trace]. split; [|constructor].
    eapply Forall_impl; [|exact Hall].
    intros t (ua0 & Hua0 & p0 & ->) u [<-|[]]. exact Hua0. }
  rewrite <- Htr in Hr. apply returned_In in Hin.
  rewrite Forall_forall in Hr. exact (Hr _ Hin).
Qed.

Lemma user_agents_from_pool_witness :
  In (Returned http_A "Mozilla/5.0" (true, 7%Z, None)) serial_trace /\
  In "Mozilla/5.0" (user_agents mock_env).
Proof.
  assert (Hin : In (Returned http_A "Mozilla/5.0" (true, 7%Z, None)) serial_trace)
    by (vm_compute; auto 10).
  split; [exact Hin|].
  refine (user_agents_from_pool mock_env "http://example.com/" 20%Z false false []
            "output.txt" "http" (boot three_lines [0; 0; 0]) serial_trace (snd serial_run)
            http_A "Mozilla/5.0" (true, 7%Z, None) _ Hin).
  vm_compute. reflexivity.
Defined.

(** * Probes that run one after the other *)

Section Serial.
Variable env : Env.
Variables (site : string) (timeout : Z) (verbose random_user_agent : bool).

Abbreviation step1 := (thread_step env site timeout verbose random_user_agent).
Abbreviation alone' := (alone env site timeout verbose random_user_agent).
Abbreviation join1 := (join env site timeout verbose random_user_agent).


Lemma alone_died n p e sh st : alone' n (Died p e, sh, st) = (Died p e, sh, st).
Proof. induction n as [|n IH]; [reflexivity|]. cbn [alone thread_step]. exact IH. Qed.

Lemma alone_finished n sh st : alone' n (Finished, sh, st) = (Finished, sh, st).
Proof. induction n as [|n IH]; [reflexivity|]. cbn [alone thread_step]. exact IH. Qed.




End Serial.



(** * Runs that raise *)



(** * What [check] does outside its [try], and what it leaves installed *)

Lemma int_raises_value_error (s : string) (e : exn) :
  Py.int s = Raise e -> exists msg, e = ValueError msg.
Proof.
  unfold Py.int. intros H.
  repeat match type of H with
         | context [match ?x with _ => _ end] => destruct x
         end;
    try discriminate; injection H as <-; eexists; reflexivity.
Qed.

(** X17: the unpacking of the address and the conversion of the port stand
    before the [try] of [check]: called on an address without a colon,
    [check] raises a [ValueError] instead of returning a failed outcome, and
    so does a SOCKS probe whose port [int] refuses; the state is then as it
    was.  ([check_proxies] calls [check] on addresses that passed [is_valid]
    only, which have one colon and a port of digits.) *)
Theorem malformed_address_raises :
  (forall env self site timeout user_agent verbose st,
      no_colon (proxy self) = true ->
      exists msg,
        Proxy.check env self site timeout user_agent verbose st =
        (Raise (ValueError msg), st)) /\
  (forall env self site timeout user_agent verbose st host port e,
      proxy self = (host ++ ":" ++ port)%string ->
      no_colon host = true -> no_colon port = true ->
      Py.mem (method self) ["socks4"; "socks5"] = true ->
      Py.int port = Raise e ->
      Proxy.check env self site timeout user_agent verbose st = (Raise e, st) /\
      exists msg, e = ValueError msg).
Proof.
  split.
  - intros env self site timeout ua verbose st Hn.
    eexists. rewrite check_phases. unfold Proxy.check_configure, bind, lift.
    rewrite (split_no_colon _ Hn). reflexivity.
  - intros env self site timeout ua verbose st host port e Hp Hh Hport Hm Hint.
    split; [|exact (int_raises_value_error _ _ Hint)].
    rewrite check_phases. unfold Proxy.check_configure, bind, lift.
    rewrite Hp. change (host ++ ":" ++ port)%string with (host ++ String ":" port)%string.
    rewrite (split_at_colon _ _ Hh), (split_no_colon _ Hport). simpl Py.unpack2.
    cbv beta iota. rewrite Hm, Hint. reflexivity.
Qed.

Lemma malformed_address_raises_witness :
  no_colon "1.2.3.4" = true /\
  exists msg,
    Proxy.check mock_env {| method := "http"; proxy := "1.2.3.4" |}
                "http://example.com/" 20 "curl/8.0" true (boot "" []) =
    (Raise (ValueError msg), boot "" []).
Proof.
  split; [reflexivity|].
  apply (proj1 malformed_address_raises mock_env {| method := "http"; proxy := "1.2.3.4" |}
           "http://example.com/" 20%Z "curl/8.0" true (boot "" [])).
  reflexivity.
Defined.

Lemma same_routing_refl st : same_routing st st.
Proof. unfold same_routing. auto. Qed.

Lemma same_routing_trans st0 st1 st2 :
  same_routing st0 st1 -> same_routing st1 st2 -> same_routing st0 st2.
Proof. unfold same_routing. intros (A & B & C) (D & E & F). repeat split; congruence. Qed.

Lemma urlopen_routing env req st r st' : urlopen env req st = (r, st') -> same_routing st st'.
Proof.
  unfold urlopen. destruct (network env (clock st) (current_route env st req) req) as [x dt].
  destruct x as [status|e]; [destruct ((200 <=? status) && (status <? 300))%Z|];
    intros H; inversion H; subst; unfold same_routing; simpl; auto.
Qed.

Lemma finish_routing self verbose r st o st' :
  Proxy.check_finish self verbose r st = (o, st') -> same_routing st st'.
Proof.
  unfold Proxy.check_finish, verbose_print, bind, time, print, ret.
  destruct r, verbose; intros H; inversion H; subst; unfold same_routing; simpl; auto.
Qed.

Lemma configure_routing self st st0 :
  Proxy.check_configure self st = (Ok tt, st0) ->
  opener st0 = opener st /\
  (Py.mem (method self) ["socks4"; "socks5"] = false -> st0 = st) /\
  (Py.mem (method self) ["socks4"; "socks5"] = true ->
   socket_socket st0 = socksocket /\
   exists host port z,
     Py.split ":" (proxy self) = [host; port] /\ Py.int port = Ok z /\
     default_proxy st0 =
     Some (if String.eqb (method self) "socks4" then SOCKS4 else SOCKS5, host, z)).
Proof.
  unfold Proxy.check_configure, bind, lift.
  destruct (Py.mem (method self) ["socks4"; "socks5"]);
    destruct (Py.split ":" (proxy self)) as [|host [|port [|x l]]];
    cbn [Py.unpack2]; try discriminate.
  - destruct (Py.int port) as [z|e] eqn:Hint; [|discriminate].
    unfold set_default_proxy, set_socket_socket. intros H. injection H as <-.
    split; [reflexivity|]. split; [discriminate|]. intros _.
    split; [reflexivity|]. exists host, port, z. auto.
  - unfold ret. intros H. injection H as <-.
    split; [reflexivity|]. split; [reflexivity | discriminate].
Qed.

(** X18: a call of [check] that returns leaves the routing of the process
    as it set it, whatever the verdict: after a SOCKS probe every new socket
    is a [socksocket] with the candidate as its default proxy, after an HTTP
    or HTTPS probe the installed opener has the candidate as the proxy of
    the method; nothing is put back. *)
Theorem check_leaves_routing_installed :
  forall env self site timeout user_agent verbose st o st',
    Proxy.check env self site timeout user_agent verbose st = (Ok o, st') ->
    (Py.mem (method self) ["socks4"; "socks5"] = true ->
     socket_socket st' = socksocket /\
     exists host port z,
       Py.split ":" (proxy self) = [host; port] /\ Py.int port = Ok z /\
       default_proxy st' =
       Some (if String.eqb (method self) "socks4" then SOCKS4 else SOCKS5, host, z)) /\
    (Py.mem (method self) ["socks4"; "socks5"] = false ->
     socket_socket st' = socket_socket st /\ default_proxy st' = default_proxy st) /\
    opener st' = (if Py.mem (method self) ["http"; "https"]
                  then Some (method self, (method self ++ "://" ++ proxy self)%string)
                  else opener st).
Proof.
  intros env self site timeout ua verbose st o st' H.
  rewrite check_phases in H.
  destruct (Proxy.check_configure self st) as [[[]|e] st0] eqn:Ec; [|discriminate].
  apply configure_routing in Ec. destruct Ec as (Ho0 & Hplain & Hsocks).
  unfold check_after_configure in H.
  destruct (Proxy.check_prepare self site timeout ua st0) as [rp st1] eqn:Ep.
  apply prepare_footprint in Ep. destruct Ep as (_ & _ & Hd1 & Hk1 & Ho1 & _).
  assert (Hrest : same_routing st1 st').
  { destruct rp as [[t0 req]|e].
    - destruct (urlopen env req st1) as [ru st2] eqn:Eu.
      apply urlopen_routing in Eu.
      destruct ru; apply finish_routing in H; eauto using same_routing_trans.
    - apply finish_routing in H. exact H. }
  destruct Hrest as (Hd & Hk & Ho).
  split; [|split].
  - intros Hm. destruct (Hsocks Hm) as (Hs & host & port & z & H1 & H2 & H3).
    split; [congruence|]. exists host, port, z. split; [exact H1|]. split; [exact H2|].
    congruence.
  - intros Hm. rewrite (Hplain Hm) in *. split; congruence.
  - rewrite Ho, Ho1, Ho0. reflexivity.
Qed.

Lemma check_leaves_routing_installed_witness :
  socket_socket (snd (Proxy.check mock_env socks_X "http://example.com/" 20 "curl/8.0" false
                                  (boot "" []))) = socksocket /\
  default_proxy (snd (Proxy.check mock_env socks_X "http://example.com/" 20 "curl/8.0" false
                                  (boot "" []))) = Some (SOCKS5, "1.1.1.1", 1080%Z).
Proof.
  destruct (check_leaves_routing_installed mock_env socks_X "http://example.com/" 20%Z
              "curl/8.0" false (boot "" []) (false, 0%Z, Some SocketTimeout)
              (snd (Proxy.check mock_env socks_X "http://example.com/" 20 "curl/8.0" false
                                (boot "" []))))
    as (Hs & _ & _).
  - vm_compute. reflexivity.
  - destruct (Hs eq_refl) as (Hk & _). split; [exact Hk|]. reflexivity.
Defined.

(** * A scrape, seen from outside *)

Lemma gather_state web tasks st :
  exists sent,
    snd (proxyScraper.gather web tasks st) =
    set_wire sent (set_clock (clock (snd (proxyScraper.gather web tasks st))) st).
Proof.
  unfold proxyScraper.gather.
  destruct (proxyScraper.first_failure _) as [[e t]|]; eexists; reflexivity.
Qed.

(** X19: a scrape that returns has written to the output file the addresses
    its adapters found, those of each adapter together and the adapters in
    the order of the module's list, joined by newlines, and has changed no
    other file; under [verbose] it has printed four lines, the second with
    the number of addresses written, and nothing otherwise. *)
Theorem scrape_output :
  forall scrapers web method_ output verbose st st',
    proxyScraper.scrape scrapers web method_ output verbose st = (Ok tt, st') ->
    exists found elapsed,
      map (adapter_result web) (matching scrapers method_) = map Ok found /\
      stdout st' = stdout st ++ scrape_messages verbose (length (concat found)) elapsed /\
      files st' output = Some (String.concat newline (concat found)) /\
      forall f, f <> output -> files st' f = files st f.
Proof.
  intros scrapers web method_ output verbose st st' H.
  destruct (scrape_returns _ _ _ _ _ _ _ H) as (_ & Hnone & Hfile).
  exists (proxyScraper.successes (task_outcomes web (matching scrapers method_))).
  rewrite scrape_unfold in H.
  destruct (matching scrapers method_) as [|s tasks] eqn:E; [discriminate|].
  cbv iota in H.
  set (st0 := snd (proxyScraper.verbose_print verbose Scraping st)).
  assert (H0 : proxyScraper.verbose_print verbose Scraping st = (Ok tt, st0))
    by (destruct verbose; reflexivity).
  rewrite H0 in H. rewrite gather_unfold, Hnone in H.
  set (results := proxyScraper.successes (task_outcomes web (s :: tasks))) in *.
  destruct (gather_state web (s :: tasks) st0) as [sent Hg].
  exists (clock (snd (proxyScraper.gather web (s :: tasks) st0)) - clock st)%Z.
  split.
  { unfold results.
    rewrite <- (successes_all_ok (task_outcomes web (s :: tasks)) (fun o => fst o)
                  (fun _ => eq_refl) Hnone).
    unfold task_outcomes. rewrite !map_map. apply map_ext. intros a. reflexivity. }
  revert H. rewrite Hg. unfold st0.
  unfold proxyScraper.verbose_print, print, ret, bind, write_file, time.
  destruct verbose; cbn [fst snd]; intros H; inversion H; subst st'; clear H;
    cbn [wire stdout files set_wire set_clock set_files set_stdout clock];
    (split; [try rewrite app_nil_r; try reflexivity|]).
  - rewrite <- !app_assoc. reflexivity.
  - split; [rewrite String.eqb_refl; reflexivity|].
    intros f Hne. destruct (String.eqb_spec f output); [contradiction | reflexivity].
  - split; [rewrite String.eqb_refl; reflexivity|].
    intros f Hne. destruct (String.eqb_spec f output); [contradiction | reflexivity].
Qed.

Lemma scrape_output_witness :
  exists found elapsed,
    map (adapter_result listing_web) (matching built_scrapers "socks") = map Ok found /\
    stdout (snd (proxyScraper.scrape built_scrapers listing_web "socks" "output.txt" true
                                     (boot "" []))) =
    stdout (boot "" []) ++ scrape_messages true (length (concat found)) elapsed /\
    files (snd (proxyScraper.scrape built_scrapers listing_web "socks" "output.txt" true
                                    (boot "" []))) "output.txt" =
    Some (String.concat newline (concat found)) /\
    forall f, f <> "output.txt" ->
              files (snd (proxyScraper.scrape built_scrapers listing_web "socks" "output.txt"
                                              true (boot "" []))) f =
              files (boot "" []) f.
Proof.
  apply (scrape_output built_scrapers listing_web "socks" "output.txt" true (boot "" [])).
  vm_compute. reflexivity.
Defined.

Lemma matching_selected scrapers method_ :
  matching scrapers method_ = filter (selected method_) scrapers.
Proof.
  unfold matching. apply filter_ext. intros s. unfold selected, Py.mem.
  destruct (String.eqb_spec method_ "socks") as [->|Hne]; simpl.
  - rewrite !orb_false_r. reflexivity.
  - reflexivity.
Qed.

Lemma filter_twice {A} (f : A -> bool) (l : list A) : filter f (filter f l) = filter f l.
Proof.
  induction l as [|a l IH]; [reflexivity|]. simpl.
  destruct (f a) eqn:E; simpl; [rewrite E, IH|]; auto.
Qed.

(** X20: [scrape] works on the adapters of the module's list whose method is
    the one asked for and, when "socks" is asked for, also on those whose
    method is "socks4" or "socks5": what it does is what it would do were
    the other adapters not in the list, and when there is none to work on
    it raises [ValueError] at once, the state being as it was. *)
Theorem selected_adapters :
  forall scrapers web method_ output verbose st,
    proxyScraper.scrape scrapers web method_ output verbose st =
    proxyScraper.scrape (filter (selected method_) scrapers) web method_ output verbose st /\
    (filter (selected method_) scrapers = [] ->
     proxyScraper.scrape scrapers web method_ output verbose st =
     (Raise (ValueError "Method not supported"), st)).
Proof.
  intros scrapers web method_ output verbose st. split.
  - rewrite !scrape_unfold, !matching_selected, filter_twice. reflexivity.
  - intros Hnil. rewrite scrape_unfold, matching_selected, Hnil. reflexivity.
Qed.

Lemma selected_adapters_witness :
  filter (selected "socks4") built_scrapers <> filter (selected "socks") built_scrapers /\
  filter (selected "ftp") built_scrapers = [] /\
  proxyScraper.scrape built_scrapers listing_web "ftp" "output.txt" true (boot "" []) =
  (Raise (ValueError "Method not supported"), boot "" []).
Proof.
  split; [vm_compute; discriminate|]. split; [reflexivity|].
  apply (proj2 (selected_adapters built_scrapers listing_web "ftp" "output.txt" true
                  (boot "" []))).
  reflexivity.
Defined.

(** * The URLs of the adapters *)

(** X21: the URL each adapter requests, for every method it is built with.
    The spys.me adapter asks for proxy.txt when the method is "http" and for
    socks.txt for any other method, and never raises; the geonode adapter
    asks for the same list whatever its method; the two others put the
    method (and the anonymity level) into the query as they are. *)
Theorem adapter_urls :
  (forall m, exists s,
        proxyScraper.SpysMeScraper m = Ok s /\
        proxyScraper.get_url s [] =
        Ok (if String.eqb m "http" then "https://spys.me/proxy.txt"
            else "https://spys.me/socks.txt")) /\
  (forall m, exists s,
        proxyScraper.ProxyScrapeScraper m = Ok s /\
        proxyScraper.get_url s [] =
        Ok ("https://api.proxyscrape.com/?request=getproxies&proxytype=" ++ m
              ++ "&timeout=1000&country=All")%string) /\
  (forall m, exists s,
        proxyScraper.GeoNodeScraper m = Ok s /\
        proxyScraper.get_url s [] =
        Ok "https://proxylist.geonode.com/api/proxy-list?limit=500&page=1&sort_by=lastChecked&sort_type=desc") /\
  (forall m anon, exists s,
        proxyScraper.ProxyListDownloadScraper m anon = Ok s /\
        proxyScraper.get_url s [] =
        Ok ("https://www.proxy-list.download/api/v1/get?type=" ++ m ++ "&anon=" ++ anon)%string).
Proof.
  split; [|split; [|split]].
  - intros m. eexists. split; [reflexivity|].
    unfold proxyScraper.get_url. destruct (String.eqb m "http"); reflexivity.
  - intros m. eexists. split; [reflexivity|]. reflexivity.
  - intros m. eexists. split; [reflexivity|]. reflexivity.
  - intros m anon. eexists. split; [reflexivity|].
    transitivity (Ok ("https://www.proxy-list.download/api/v1/get?type=" ++ m ++ "&anon="
                        ++ anon ++ "")%string); [reflexivity|].
    rewrite sapp_nil_r. reflexivity.
Qed.

(** X22: the table adapter has no constructor of its own, so a call with
    the method alone raises [TypeError]; the module's list holds two such
    calls, and the script therefore ends with that error for every command
    line, before it has sent a request or written a file. *)
Theorem script_raises_at_load :
  (forall m, proxyScraper.GeneralTableScraper [m] =
             Raise (TypeError "Scraper.__init__() missing 1 required positional argument: 'url_template'")) /\
  (forall m u, proxyScraper.GeneralTableScraper [m; u] = Ok (proxyScraper.GeneralTable m u)) /\
  proxyScraper.scrapers =
  Raise (TypeError "Scraper.__init__() missing 1 required positional argument: 'url_template'") /\
  (forall web proxy output verbose st,
      proxyScraper.main web proxy output verbose st =
      (Raise (TypeError "Scraper.__init__() missing 1 required positional argument: 'url_template'"),
       st)).
Proof.
  split; [reflexivity|]. split; [reflexivity|]. split; [reflexivity|].
  intros web proxy output verbose st. reflexivity.
Qed.

(** * The port of a SOCKS candidate *)

Lemma digit_value_range (c : ascii) :
  Py.isdigit c = true -> (0 <= Z.of_N (Py.code c - 48) <= 9)%Z.
Proof.
  intros H. apply isdigit_cases in H. simpl in H.
  repeat (destruct H as [<-|H]; [vm_compute; split; discriminate|]). contradiction.
Qed.

Lemma digits_value_bound (d : string) :
  all_digits d = true ->
  forall acc, (0 <= acc)%Z ->
  exists z, Py.digits_value acc d = Some z /\
            (acc * 10 ^ Z.of_nat (String.length d) <= z
             < (acc + 1) * 10 ^ Z.of_nat (String.length d))%Z.
Proof.
  induction d as [|c d IH]; intros Hd acc Hacc.
  - exists acc. split; [reflexivity|]. simpl. lia.
  - simpl in Hd. apply andb_true_iff in Hd. destruct Hd as [Hc Hd].
    pose proof (digit_value_range c Hc) as Hv.
    cbn [Py.digits_value]. rewrite Hc.
    destruct (IH Hd (10 * acc + Z.of_N (Py.code c - 48))%Z) as (z & Hz & Hb); [lia|].
    exists z. split; [exact Hz|].
    cbn [String.length]. rewrite Nat2Z.inj_succ, Z.pow_succ_r by lia.
    assert (Hpos : (0 < 10 ^ Z.of_nat (String.length d))%Z) by (apply Z.pow_pos_nonneg; lia).
    nia.
Qed.

Lemma int_digits_bound (d tail : string) :
  all_digits d = true -> d <> EmptyString ->
  tail = EmptyString \/ tail = newline ->
  exists z, Py.int (d ++ tail) = Ok z /\ (0 <= z < 10 ^ Z.of_nat (String.length d))%Z.
Proof.
  intros Hd Hne Ht.
  unfold Py.int. rewrite (int_strip_digits d tail Hd Hne Ht).
  destruct d as [|c d]; [congruence|].
  destruct (digits_value_bound _ Hd 0%Z) as (z & Hz & Hb); [lia|].
  exists z. split; [|lia].
  simpl in Hd. apply andb_true_iff in Hd. destruct Hd as [Hc _].
  apply isdigit_cases in Hc. simpl in Hc.
  repeat (destruct Hc as [<-|Hc]; [rewrite Hz; reflexivity|]). contradiction.
Qed.

(** X23: for a candidate that passed [is_valid], a SOCKS probe hands
    [set_default_proxy] the text before the colon as the host and a port
    between 0 and 99999: the five digits the pattern allows are not held to
    the range of TCP ports. *)
Theorem socks_port_range :
  forall self st,
    Proxy.is_valid self = true ->
    Py.mem (method self) ["socks4"; "socks5"] = true ->
    exists st0 host port z,
      Proxy.check_configure self st = (Ok tt, st0) /\
      proxy self = (host ++ ":" ++ port)%string /\ no_colon host = true /\
      default_proxy st0 =
      Some (if String.eqb (method self) "socks4" then SOCKS4 else SOCKS5, host, z) /\
      (0 <= z < 100000)%Z.
Proof.
  intros self st Hv Hm. apply is_valid_iff in Hv.
  destruct Hv as (x & tail & Hs & (a & b & c & d & p & -> & Ha & Hb & Hc & Hd & Hp) & Ht).
  destruct Ha as [_ Ha], Hb as [_ Hb], Hc as [_ Hc], Hd as [_ Hd], Hp as [Hlp Hp].
  assert (Hsplit : proxy self =
                   ((a ++ "." ++ b ++ "." ++ c ++ "." ++ d) ++ String ":" (p ++ tail))%string).
  { rewrite Hs. repeat (rewrite ?sapp_assoc; simpl). reflexivity. }
  assert (Hhost : no_colon (a ++ "." ++ b ++ "." ++ c ++ "." ++ d) = true).
  { repeat (rewrite no_colon_app; simpl). rewrite !digits_no_colon by assumption. reflexivity. }
  assert (Hport : no_colon (p ++ tail) = true).
  { rewrite no_colon_app, (digits_no_colon _ Hp). destruct Ht as [-> | ->]; reflexivity. }
  destruct (int_digits_bound p tail Hp) as (z & Hz & Hb'); auto.
  { intros ->. simpl in Hlp. lia. }
  unfold Proxy.check_configure, bind, lift. rewrite Hsplit.
  rewrite (split_at_colon _ _ Hhost), (split_no_colon _ Hport).
  cbn [Py.unpack2]. cbv beta iota. rewrite Hm, Hz.
  unfold set_default_proxy, set_socket_socket.
  eexists. exists (a ++ "." ++ b ++ "." ++ c ++ "." ++ d)%string, (p ++ tail)%string, z.
  split; [reflexivity|]. split; [reflexivity|]. split; [exact Hhost|].
  split; [reflexivity|].
  assert (10 ^ Z.of_nat (String.length p) <= 10 ^ 5)%Z by (apply Z.pow_le_mono_r; lia).
  lia.
Qed.

Lemma socks_port_range_witness :
  exists st0 host port z,
    Proxy.check_configure socks_high_port (boot "" []) = (Ok tt, st0) /\
    proxy socks_high_port = (host ++ ":" ++ port)%string /\ no_colon host = true /\
    default_proxy st0 = Some (SOCKS4, host, z) /\
    (0 <= z < 100000)%Z.
Proof.
  apply (socks_port_range socks_high_port (boot "" [])); reflexivity.
Defined.
